(** * KuberDock pod management: [kubedock/kapi/pod.py] and
      [kubedock/kapi/podcollection.py]

    A shallow embedding of the Pod domain object (spec building, volume
    provisioning, observation parsing) and of the PodCollection reconciler and
    lifecycle operations, followed by the properties established about them.

    Python values are embedded as a JSON-like tree.  Dictionaries are
    association lists kept in enumeration order, because two places of the
    source depend on that order ([two.keys()] in [_is_related] and
    [items()[0]] in [populate]).  Exceptions are values of an error monad;
    operations of PodCollection additionally thread the outside world (the
    orchestrator requests issued so far and the persisted layer), which keeps
    every change made before an exception was raised. *)

From Stdlib Require Import String Ascii List ZArith Bool Arith Lia DecimalString.
Import ListNotations.
Local Open Scope string_scope.
Local Open Scope Z_scope.
Set Warnings "-register-all".

(* ===================================================================== *)
(** ** Python values *)
(* ===================================================================== *)

(** [None], booleans, integers, strings, lists and dictionaries.  Floats do
    not occur in the modelled code paths. *)
Inductive json : Type :=
| JNull
| JBool (b : bool)
| JNum (n : Z)
| JStr (s : string)
| JList (l : list json)
| JDict (d : list (string * json)).

(** A dictionary: keys in enumeration order, each key at most once in every
    dictionary built by the operations below from one that has the property. *)
Definition dict : Type := list (string * json).

(** Exceptions raised by the modelled code. *)
Inductive exn : Type :=
| KeyError (key : string)
| AttributeError (attr : string)
| TypeError
| ValueError
| IndexError
| APIError (message : string) (status_code : option Z)
| VolumeExists (volume_name volume_id : json).

Inductive result (A : Type) : Type :=
| Ok (a : A)
| Raise (e : exn).
Arguments Ok {A} a.
Arguments Raise {A} e.

Definition bind {A B : Type} (r : result A) (k : A -> result B) : result B :=
  match r with
  | Ok a => k a
  | Raise e => Raise e
  end.

Declare Scope result_scope.
Delimit Scope result_scope with result.
Notation "'do' x <- c ; k" := (bind c (fun x => k))
  (at level 10, x pattern, c at level 100, k at level 200) : result_scope.
Local Open Scope result_scope.

(** [for x in l: acc = f(acc, x)], stopping at the first exception. *)
Fixpoint foldM {A B : Type} (f : A -> B -> result A) (l : list B) (a : A)
  : result A :=
  match l with
  | [] => Ok a
  | x :: l' => do a' <- f a x; foldM f l' a'
  end.

(** [[f(x) for x in l]], stopping at the first exception. *)
Fixpoint mapM {A B : Type} (f : A -> result B) (l : list A) : result (list B) :=
  match l with
  | [] => Ok []
  | x :: l' => do y <- f x; do ys <- mapM f l'; Ok (y :: ys)
  end.

(* --------------------------------------------------------------------- *)
(** *** Dictionaries *)

(** [k in d] *)
Fixpoint dict_mem (k : string) (d : dict) : bool :=
  match d with
  | [] => false
  | (k', _) :: d' => if String.eqb k k' then true else dict_mem k d'
  end.

(** The value stored under [k], if any. *)
Fixpoint dict_get (k : string) (d : dict) : option json :=
  match d with
  | [] => None
  | (k', v) :: d' => if String.eqb k k' then Some v else dict_get k d'
  end.

(** [d.get(k, default)] *)
Definition get_default (d : dict) (k : string) (default : json) : json :=
  match dict_get k d with
  | Some v => v
  | None => default
  end.

(** [d.get(k)] *)
Definition py_get (d : dict) (k : string) : json := get_default d k JNull.

(** [d[k]] *)
Definition subscript (d : dict) (k : string) : result json :=
  match dict_get k d with
  | Some v => Ok v
  | None => Raise (KeyError k)
  end.

(** [d[k] = v]: an existing key keeps its place, a new key is enumerated
    last. *)
Fixpoint dict_set (k : string) (v : json) (d : dict) : dict :=
  match d with
  | [] => [(k, v)]
  | (k', v') :: d' =>
      if String.eqb k k' then (k, v) :: d' else (k', v') :: dict_set k v d'
  end.

(** [del d[k]] when present, nothing otherwise ([d.pop(k, None)] with the
    popped value dropped). *)
Definition dict_del (k : string) (d : dict) : dict :=
  filter (fun kv => negb (String.eqb k (fst kv))) d.

(** [d.update(other)] *)
Definition dict_update (d other : dict) : dict :=
  fold_left (fun acc kv => dict_set (fst kv) (snd kv) acc) other d.

(* --------------------------------------------------------------------- *)
(** *** Truth value and equality *)

(** [bool(v)] *)
Definition truthy (v : json) : bool :=
  match v with
  | JNull => false
  | JBool b => b
  | JNum n => negb (n =? 0)
  | JStr s => negb (String.eqb s "")
  | JList l => match l with [] => false | _ => true end
  | JDict d => match d with [] => false | _ => true end
  end.

(** [a == b]: numbers and booleans compare by value, lists elementwise,
    dictionaries as mappings (same number of keys, every key of the left one
    bound to an equal value on the right). *)
Fixpoint py_eq (a b : json) {struct a} : bool :=
  match a, b with
  | JNull, JNull => true
  | JBool x, JBool y => Bool.eqb x y
  | JBool x, JNum y => (if x then 1 else 0) =? y
  | JNum x, JBool y => x =? (if y then 1 else 0)
  | JNum x, JNum y => x =? y
  | JStr x, JStr y => String.eqb x y
  | JList x, JList y =>
      (fix list_eq (x y : list json) {struct x} : bool :=
         match x, y with
         | [], [] => true
         | u :: x', v :: y' => py_eq u v && list_eq x' y'
         | _, _ => false
         end) x y
  | JDict x, JDict y =>
      (length x =? length y)%nat &&
      (fix all_in (x : list (string * json)) {struct x} : bool :=
         match x with
         | [] => true
         | (k, u) :: x' =>
             match dict_get k y with
             | Some v => py_eq u v && all_in x'
             | None => false
             end
         end) x
  | _, _ => false
  end.

(* --------------------------------------------------------------------- *)
(** *** Strings *)

(** ASCII case mapping, the part of [str.upper] and [str.lower] that the
    orchestrator's protocol and phase names exercise. *)
Definition upper_ascii (c : ascii) : ascii :=
  let n := nat_of_ascii c in
  if ((97 <=? n) && (n <=? 122))%nat then ascii_of_nat (n - 32) else c.

Definition lower_ascii (c : ascii) : ascii :=
  let n := nat_of_ascii c in
  if ((65 <=? n) && (n <=? 90))%nat then ascii_of_nat (n + 32) else c.

Fixpoint upper (s : string) : string :=
  match s with
  | EmptyString => EmptyString
  | String c s' => String (upper_ascii c) (upper s')
  end.

Fixpoint lower (s : string) : string :=
  match s with
  | EmptyString => EmptyString
  | String c s' => String (lower_ascii c) (lower s')
  end.

(** [s.startswith(p)] *)
Fixpoint startswith (p s : string) : bool :=
  match p with
  | EmptyString => true
  | String a p' =>
      match s with
      | EmptyString => false
      | String b s' => Ascii.eqb a b && startswith p' s'
      end
  end.

(** [sep.join(parts)] *)
Fixpoint join (sep : string) (parts : list string) : string :=
  match parts with
  | [] => ""
  | [p] => p
  | p :: rest => p ++ sep ++ join sep rest
  end.

(** [s.split(sep)[-1]] for a non-empty [sep]: the text after the last
    occurrence of [sep] found scanning left to right without overlap.
    [skip] counts the characters of a separator still to be dropped and [cur]
    is the current segment. *)
Fixpoint split_last_from (sep s : string) (skip : nat) (cur : string) : string :=
  match s with
  | EmptyString => cur
  | String c s' =>
      match skip with
      | S n => split_last_from sep s' n cur
      | O =>
          if startswith sep s
          then split_last_from sep s' (String.length sep - 1) ""
          else split_last_from sep s' O (cur ++ String c "")
      end
  end.

Definition split_last (sep s : string) : string := split_last_from sep s O "".

(* --------------------------------------------------------------------- *)
(** *** Operations on values of any type *)

(** [for x in v]: the elements a [for] loop visits. *)
Fixpoint chars (s : string) : list json :=
  match s with
  | EmptyString => []
  | String c s' => JStr (String c "") :: chars s'
  end.

Definition iter (v : json) : result (list json) :=
  match v with
  | JList l => Ok l
  | JDict d => Ok (map (fun kv => JStr (fst kv)) d)
  | JStr s => Ok (chars s)
  | _ => Raise TypeError
  end.

(** [for x in v: <mutate x>]: the elements of a list are updated in place;
    the elements any other iterable yields are temporaries. *)
Definition for_each (v : json) (body : json -> result json) : result json :=
  match v with
  | JList l => do l' <- mapM body l; Ok (JList l')
  | _ => do l <- iter v; do _ <- mapM body l; Ok v
  end.

(** [v.method(...)] where only dictionaries have [method]. *)
Definition as_dict (method : string) (v : json) : result dict :=
  match v with
  | JDict d => Ok d
  | _ => Raise (AttributeError method)
  end.

(** [v[k]] for a string key. *)
Definition item (v : json) (k : string) : result json :=
  match v with
  | JDict d => subscript d k
  | _ => Raise TypeError
  end.

(** [v[k] = x] for a string key. *)
Definition set_item (v : json) (k : string) (x : json) : result json :=
  match v with
  | JDict d => Ok (JDict (dict_set k x d))
  | _ => Raise TypeError
  end.

(** [v.get(k, default)] *)
Definition get (v : json) (k : string) (default : json) : result json :=
  do d <- as_dict "get" v; Ok (get_default d k default).

(** [v.pop(k, None)], the popped value dropped. *)
Definition discard (v : json) (k : string) : result json :=
  do d <- as_dict "pop" v; Ok (JDict (dict_del k d)).

(** [len(v)] *)
Definition len (v : json) : result nat :=
  match v with
  | JList l => Ok (length l)
  | JDict d => Ok (length d)
  | JStr s => Ok (String.length s)
  | _ => Raise TypeError
  end.

(** [v in (a, b, ...)] *)
Definition in_tuple (v : json) (t : list json) : bool :=
  existsb (py_eq v) t.

(** [v[0]] *)
Definition first (v : json) : result json :=
  match v with
  | JList (x :: _) => Ok x
  | JList [] => Raise IndexError
  | JStr (String c _) => Ok (JStr (String c ""))
  | JStr EmptyString => Raise IndexError
  | JDict _ => Raise (KeyError "0")
  | _ => Raise TypeError
  end.

(* ===================================================================== *)
(** ** Objects *)
(* ===================================================================== *)

(** A [Pod] is a bag of dynamically assigned attributes ([setattr] in
    [__init__], plain assignments everywhere else): the dictionary of its
    instance attributes.  An object with attributes that the code only reads
    (a [User] row, a [PodOwner]) is embedded as the dictionary of its
    attributes as well. *)
Definition Pod : Type := dict.

Definition hasattr (self : Pod) (a : string) : bool := dict_mem a self.

(** [self.a] *)
Definition getattr (self : Pod) (a : string) : result json :=
  match dict_get a self with
  | Some v => Ok v
  | None => Raise (AttributeError a)
  end.

(** [self.a = v] *)
Definition setattr (self : Pod) (a : string) (v : json) : Pod :=
  dict_set a v self.

(** [obj.a] on a value that may or may not be an object. *)
Definition attribute (obj : json) (a : string) : result json :=
  match obj with
  | JDict d => getattr d a
  | _ => Raise (AttributeError a)
  end.

(** [self.name(...)] for a name that the class [Pod] does not define: the
    object has no such method, and a value that was assigned under that name
    as an attribute of the instance cannot be called. *)
Definition missing_method {A : Type} (self : Pod) (name : string) : result A :=
  match dict_get name self with
  | None => Raise (AttributeError name)
  | Some _ => Raise TypeError
  end.

(** [PodOwner(id, username)]: a [dict] subclass holding [id] and [username]
    both as entries and as attributes. *)
Definition PodOwner (id username : json) : json :=
  JDict [("id", id); ("username", username)].

(** Modelled from the spec: the phase names of [POD_STATUSES]
    ([kubedock/utils.py] is not part of the sources), as the lower-cased
    phases the orchestrator reports. *)
Definition POD_STATUSES_pending : string := "pending".
Definition POD_STATUSES_running : string := "running".
Definition POD_STATUSES_succeeded : string := "succeeded".
Definition POD_STATUSES_failed : string := "failed".

(** Modelled from the spec: the states of a persistent disk
    ([PersistentDiskStatuses] of [kubedock/pods/models.py], which is not part
    of the sources): PENDING, DELETED, ACTIVE and further ones. *)
Inductive PersistentDiskStatuses : Type :=
| PENDING
| ACTIVE
| DELETED
| OTHER (code : nat).

(** Modelled from the spec: one [PersistentDisk] row, an owner-scoped volume
    entity with a name, a size and a state. *)
Record PersistentDisk : Type := mkDisk {
  disk_id : json;
  disk_owner_id : json;
  disk_name : json;
  disk_size : json;
  disk_state : PersistentDiskStatuses
}.

(* ===================================================================== *)
(** ** The outside world *)
(* ===================================================================== *)

(** One request of the orchestrator client ([KubeQuery._get], [_post],
    [_put], [_del]); an argument the call site leaves out is [None]. *)
Inductive Verb : Type := GET | POST | PUT | DEL.

Record Request : Type := mkRequest {
  verb : Verb;
  res : list json;
  body : option json;
  rest : bool;
  use_v3 : bool;
  ns : option json
}.

(** One persisted pod row ([kubedock/pods/models.py]): [db_config] is the
    document that [json.loads(db_pod.config)] yields and [db_owner] is
    [db_pod.owner.username]. *)
Record DbPod : Type := mkDbPod {
  db_id : json;
  db_name : json;
  db_namespace : json;
  db_owner : json;
  db_config : dict;
  db_status : json
}.

(** A call of the network collaborator. *)
Inductive NetCall : Type :=
| ModifyNodeIps (node action pod_ip public_ip ports : json).

Record World : Type := mkWorld {
  requests : list Request;   (* orchestrator requests issued, oldest first *)
  db_pods : list DbPod;      (* the persisted layer *)
  net_calls : list NetCall   (* calls of the network collaborator *)
}.

(** Settings and collaborators that live outside the two modules. *)
Record Collaborators : Type := mkCollaborators {
  internal_user_of : string;            (* settings.KUBERDOCK_INTERNAL_USER *)
  api_version_of : string;              (* settings.KUBE_API_VERSION *)
  storage_prefix_of : json;             (* settings.NODE_LOCAL_STORAGE_PREFIX *)
  default_kube_type_of : json;          (* Kube.get_default_kube_type() *)
  node_attachable_of : json -> bool;    (* Kube.is_node_attachable_type *)
  kubes_to_limits_of : Z -> json -> dict;       (* billing.kubes_to_limits *)
  make_name_of : json -> json;          (* podutils.make_name_from_image *)
  shlex_of : string -> option (list string);    (* list(shlex), None: ValueError *)
  int_of : string -> option Z;          (* int(s), None: ValueError *)
  dumps_of : json -> string;            (* json.dumps *)
  loads_of : string -> result json;     (* json.loads of a string *)
  str_of : json -> string;              (* str(v) *)
  path_join_of : list json -> result json;      (* os.path.join *)
  uuid_of : nat -> string;              (* the n-th uuid.uuid4().hex drawn *)
  enrich_of : dict -> PersistentDisk -> dict;
                         (* pstorage.STORAGE_CLASS().enrich_volume_info *)
  kube_of : list Request -> Request -> json;
                         (* the orchestrator: its answer to a request, given
                            the requests before *)
  failure_of : json -> bool;            (* which answers are not successes *)
  node_ips_of : list NetCall -> NetCall -> json;
                         (* the answer of the network collaborator *)
  merge_lists_of : json -> json -> string -> result json
                         (* Utilities.merge_lists *)
}.

(* ===================================================================== *)
(** ** [kubedock/kapi/pod.py] *)
(* ===================================================================== *)

Section Kuberdock.

Variable env : Collaborators.

Abbreviation KUBERDOCK_INTERNAL_USER := (internal_user_of env).
Abbreviation KUBE_API_VERSION := (api_version_of env).
Abbreviation NODE_LOCAL_STORAGE_PREFIX := (storage_prefix_of env).
Abbreviation get_default_kube_type := (default_kube_type_of env).
Abbreviation is_node_attachable_type := (node_attachable_of env).
Abbreviation kubes_to_limits := (kubes_to_limits_of env).
Abbreviation make_name_from_image := (make_name_of env).
Abbreviation shlex_split := (shlex_of env).
Abbreviation int_of_str := (int_of env).
Abbreviation dumps := (dumps_of env).
Abbreviation loads := (loads_of env).
Abbreviation str := (str_of env).
Abbreviation os_path_join := (path_join_of env).
Abbreviation uuid4_hex := (uuid_of env).
Abbreviation enrich_volume_info := (enrich_of env).
Abbreviation kube := (kube_of env).
Abbreviation is_failure := (failure_of env).
Abbreviation modify_node_ips_result := (node_ips_of env).
Abbreviation merge_lists := (merge_lists_of env).

(** [podutils.raise_(message)] *)
Definition raise_ {A : Type} (message : string) : result A :=
  Raise (APIError message None).

(** [Pod._parse_cmd_string] *)
Definition _parse_cmd_string (cmd_string : json) : result json :=
  match cmd_string with
  | JStr s =>
      match shlex_split s with
      | Some words => Ok (JList (map JStr words))
      | None => raise_ "Incorrect cmd string"
      end
  | _ => Raise (AttributeError "read")
  end.

(** [Pod.set_owner] *)
Definition set_owner (self : Pod) (owner : json) : result Pod :=
  match owner with
  | JNull => Ok (setattr self "owner" (PodOwner JNull JNull))
  | _ =>
      do id <- attribute owner "id";
      do username <- attribute owner "username";
      Ok (setattr self "owner" (PodOwner id username))
  end.

(** The body of the loop over [data['containers']] in [Pod.__init__]. *)
Definition reparse_args (c : json) : result json :=
  do args <- get c "args" (JList []);
  do n <- len args;
  if (n =? 1)%nat then
    do args <- item c "args";
    do cmd <- first args;
    do words <- _parse_cmd_string cmd;
    set_item c "args" words
  else Ok c.

(** [Pod(data)] *)
Definition Pod_init (data : option dict) : result Pod :=
  let self : Pod := [("k8s_status", JNull); ("certificate", JNull)] in
  match data with
  | None => set_owner self JNull
  | Some data =>
      do containers <- subscript data "containers";
      do containers <- for_each containers reparse_args;
      let data := dict_set "containers" containers data in
      let owner := if dict_mem "owner" data then py_get data "owner" else JNull in
      let data := dict_del "owner" data in
      set_owner (dict_update self data) owner
  end.

(** [_del_docker_prefix] *)
Definition _del_docker_prefix (value : json) : result json :=
  if negb (truthy value) then Ok value
  else match value with
       | JStr s => Ok (JStr (split_last "docker://" s))
       | _ => Raise (AttributeError "split")
       end.

(** [Pod.forge_dockers] *)
Definition forge_container (status : json) (container : json) : result json :=
  do name <- item container "name";
  do image <- item container "image";
  do d <- as_dict "update" container;
  Ok (JDict (dict_update d
        [("containerID", name);
         ("imageID", image);
         ("lastState", JDict []);
         ("ready", JBool false);
         ("restartCount", JNum 0);
         ("state", status);
         ("startedAt", JNull)])).

Definition forge_dockers (self : Pod) (status : json) : result Pod :=
  do containers <- getattr self "containers";
  do containers <- for_each containers (forge_container status);
  Ok (setattr self "containers" containers).

(** The loop [for container in pod.containers] of [Pod.populate] for one
    entry [pod_item] of [containerStatuses]; [pod_item] is updated in place
    when a container of the same name is met, so the next container sees the
    updated entry. *)
Fixpoint merge_container_status (pod_item : json) (containers : list json)
  : result (json * list json) :=
  match containers with
  | [] => Ok (pod_item, [])
  | container :: rest =>
      do cname <- item container "name";
      do pname <- item pod_item "name";
      if py_eq cname pname then
        do entry <- as_dict "pop" pod_item;
        do st <- subscript entry "state";
        let entry := dict_del "state" entry in
        do states <- as_dict "items" st;
        match states with
        | [] => Raise IndexError
        | (state, state_details) :: _ =>
            let entry := dict_set "state" (JStr state) entry in
            do startedAt <- get state_details "startedAt" JNull;
            let entry := dict_set "startedAt" startedAt entry in
            do entry <-
              (if String.eqb state "terminated" then
                 do exitCode <- get state_details "exitCode" JNull;
                 let entry := dict_set "exitCode" exitCode entry in
                 do finishedAt <- get state_details "finishedAt" JNull;
                 Ok (dict_set "finishedAt" finishedAt entry)
               else Ok entry);
            do name <- item container "name";
            do container_id <- _del_docker_prefix (get_default entry "containerID" name);
            let entry := dict_set "containerID" container_id entry in
            do image <- item container "image";
            do image_id <- _del_docker_prefix (get_default entry "imageID" image);
            let entry := dict_set "imageID" image_id entry in
            do d <- as_dict "update" container;
            do r <- merge_container_status (JDict entry) rest;
            Ok (fst r, JDict (dict_update d entry) :: snd r)
        end
      else
        do r <- merge_container_status pod_item rest;
        Ok (fst r, container :: snd r)
  end.

(** The loop [for pod_item in container_statuses]. *)
Definition merge_statuses (container_statuses : list json) (containers : json)
  : result json :=
  foldM (fun containers pod_item =>
           do pname <- item pod_item "name";
           if py_eq pname (JStr "POD") then Ok containers
           else
             do cs <- iter containers;
             do r <- merge_container_status pod_item cs;
             Ok (match containers with
                 | JList _ => JList (snd r)
                 | _ => containers
                 end))
        container_statuses containers.

(** [all(container.get('ready') for container in pod.containers)]: the
    generator is consumed up to the first container that is not ready. *)
Fixpoint all_ready (containers : list json) : result bool :=
  match containers with
  | [] => Ok true
  | container :: rest =>
      do ready <- get container "ready" JNull;
      if truthy ready then all_ready rest else Ok false
  end.

(** [v.lower()] *)
Definition lower_of (v : json) : result string :=
  match v with
  | JStr s => Ok (lower s)
  | _ => Raise (AttributeError "lower")
  end.

(** The body of the loop of [Pod.populate] that defaults the runtime fields
    of a container to the phase of the pod. *)
Definition set_phase_only (phase : string) (container : json) : result json :=
  do container <- set_item container "state" (JStr phase);
  do container <- set_item container "containerID" JNull;
  set_item container "imageID" JNull.

(** [Pod.populate] *)
Definition populate (data : json) : result Pod :=
  do pod <- Pod_init None;
  do metadata <- get data "metadata" (JDict []);
  do status <- get data "status" (JDict []);
  do spec <- get data "spec" (JDict []);
  do sid <- get metadata "name" JNull;
  let pod := setattr pod "sid" sid in
  do namespace <- get metadata "namespace" JNull;
  let pod := setattr pod "namespace" namespace in
  do labels <- get metadata "labels" (JDict []);
  let pod := setattr pod "labels" labels in
  do id <- get labels "kuberdock-pod-uid" JNull;
  let pod := setattr pod "id" id in
  do phase <- get status "phase" (JStr POD_STATUSES_pending);
  do phase <- lower_of phase;
  let pod := setattr pod "status" (JStr phase) in
  let pod := setattr pod "k8s_status" (JStr phase) in
  do hostIP <- get status "hostIP" JNull;
  let pod := setattr pod "hostIP" hostIP in
  do nodeName <- get spec "nodeName" JNull;
  let pod := setattr pod "host" nodeName in
  do selector <- get spec "nodeSelector" (JDict []);
  do kube_type <- get selector "kuberdock-kube-type" JNull;
  let pod := setattr pod "kube_type" kube_type in
  do selector <- get spec "nodeSelector" (JDict []);
  do node <- get selector "kuberdock-node-hostname" JNull;
  let pod := setattr pod "node" node in
  do volumes <- get spec "volumes" (JList []);
  let pod := setattr pod "volumes" volumes in
  do containers <- get spec "containers" (JList []);
  let pod := setattr pod "containers" containers in
  do restartPolicy <- get spec "restartPolicy" JNull;
  let pod := setattr pod "restartPolicy" restartPolicy in
  do dnsPolicy <- get spec "dnsPolicy" JNull;
  let pod := setattr pod "dnsPolicy" dnsPolicy in
  do serviceAccount <- get spec "serviceAccount" (JBool false);
  let pod := setattr pod "serviceAccount" serviceAccount in
  do hostNetwork <- get spec "hostNetwork" JNull;
  let pod := setattr pod "hostNetwork" hostNetwork in
  do pod <-
    (if in_tuple (JStr phase)
          [JStr POD_STATUSES_running; JStr POD_STATUSES_succeeded;
           JStr POD_STATUSES_failed]
     then
       do container_statuses <- get status "containerStatuses" (JList []);
       if truthy container_statuses then
         do entries <- iter container_statuses;
         do containers <- merge_statuses entries containers;
         Ok (setattr pod "containers" containers)
       else
         do containers <- for_each containers (set_phase_only phase);
         Ok (setattr pod "containers" containers)
     else forge_dockers pod (JStr phase));
  do containers <- getattr pod "containers";
  do cs <- iter containers;
  do ready <- all_ready cs;
  Ok (setattr pod "ready" (JBool ready)).

(* --------------------------------------------------------------------- *)
(** *** Membership and hashing *)

(** [sub in s] on strings. *)
Fixpoint is_substring (sub s : string) : bool :=
  startswith sub s ||
  match s with
  | EmptyString => false
  | String _ s' => is_substring sub s'
  end.

(** [x in v] for a string [x]: a key of a dictionary, an element of a list,
    a substring of a string; nothing else is a container. *)
Definition contains (v : json) (x : string) : result bool :=
  match v with
  | JDict d => Ok (dict_mem x d)
  | JList l => Ok (existsb (py_eq (JStr x)) l)
  | JStr s => Ok (is_substring x s)
  | _ => Raise TypeError
  end.

(** [hash(v)] succeeds: lists and dictionaries are unhashable. *)
Definition hash_check (v : json) : result json :=
  match v with
  | JList _ | JDict _ => Raise TypeError
  | _ => Ok v
  end.

(** [int(v)] *)
Definition py_int (v : json) : result Z :=
  match v with
  | JNum n => Ok n
  | JBool b => Ok (if b then 1 else 0)
  | JStr s =>
      match int_of_str s with
      | Some n => Ok n
      | None => Raise ValueError
      end
  | _ => Raise TypeError
  end.

(** [sep.join(parts)] on values: every part has to be a string. *)
Definition join_values (sep : string) (parts : list json) : result string :=
  do strs <- mapM (fun p => match p with
                            | JStr s => Ok s
                            | _ => Raise TypeError
                            end) parts;
  Ok (join sep strs).

(** [v.upper()] *)
Definition upper_of (v : json) : result string :=
  match v with
  | JStr s => Ok (upper s)
  | _ => Raise (AttributeError "upper")
  end.

(** The first loop over [data.get('ports', [])] in [_prepare_container]. *)
Definition normalize_port (p : json) : result json :=
  do protocol <- get p "protocol" (JStr "TCP");
  do protocol <- upper_of protocol;
  do p <- set_item p "protocol" (JStr protocol);
  discard p "isPublic".

(** [for p in data.get('ports', []): body(p)]: the list stored under
    ['ports'] is updated in place, the default list is a temporary. *)
Definition for_each_port (data : dict) (body : json -> result json)
  : result dict :=
  do ports <- for_each (get_default data "ports" (JList [])) body;
  Ok (if dict_mem "ports" data then dict_set "ports" ports data else data).

(** The first half of [_prepare_container], up to the loops over the ports:
    non-kubernetes parameters stripped, the name defaulted, [kubes] turned
    into limits and [workingDir] joined.  [deepcopy] is the identity on
    values. *)
Definition strip_and_limit (data : json) (kube_type : json) : result dict :=
  do data <- as_dict "pop" data;
  let data := dict_del "sourceUrl" data in
  let kube_type :=
    match kube_type with
    | JNull => get_default_kube_type
    | _ => kube_type
    end in
  let data :=
    if negb (truthy (py_get data "name"))
    then dict_set "name"
           (make_name_from_image (get_default data "image" (JStr ""))) data
    else data in
  do data <-
    match dict_get "kubes" data with
    | None => Ok data
    | Some k =>
        let data := dict_del "kubes" data in
        match py_int k with
        | Ok kubes => Ok (dict_update data (kubes_to_limits kubes kube_type))
        | Raise ValueError => Ok data
        | Raise e => Raise e
        end
    end;
  match get_default data "workingDir" (JStr ".") with
  | JList parts =>
      do wd <- join_values "," parts;
      Ok (dict_set "workingDir" (JStr wd) data)
  | _ => Ok data
  end.

(** [owner_name] in [_prepare_container]: the owner itself when it is held
    as a string, its [username] otherwise.  The logger warning of the first
    case is not modelled. *)
Definition owner_name (self : Pod) : result json :=
  do owner <- getattr self "owner";
  match owner with
  | JStr _ => Ok owner
  | _ => attribute owner "username"
  end.

(** [Pod._prepare_container] *)
Definition _prepare_container (self : Pod) (data : json) (kube_type : json)
  : result json :=
  do data <- strip_and_limit data kube_type;
  do data <- for_each_port data normalize_port;
  do name <- owner_name self;
  do data <-
    (if negb (py_eq name (JStr KUBERDOCK_INTERNAL_USER))
     then for_each_port data (fun p => discard p "hostPort")
     else Ok data);
  Ok (JDict (dict_set "imagePullPolicy" (JStr "Always") data)).

(* --------------------------------------------------------------------- *)
(** *** Volume provisioning *)

(** The rows of [PersistentDisk] in query order, the pending session
    included. *)
Definition Disks : Type := list PersistentDisk.

(** [PersistentDisk.filter_by(owner_id=..., name=...).first()], with the
    position of the row found. *)
Fixpoint find_disk (owner_id name : json) (disks : Disks) (i : nat)
  : option (nat * PersistentDisk) :=
  match disks with
  | [] => None
  | d :: rest =>
      if py_eq (disk_owner_id d) owner_id && py_eq (disk_name d) name
      then Some (i, d)
      else find_disk owner_id name rest (S i)
  end.

(** Assignment to an attribute of the row at position [i]. *)
Fixpoint update_disk (i : nat) (f : PersistentDisk -> PersistentDisk)
  (disks : Disks) : Disks :=
  match disks, i with
  | [], _ => []
  | d :: rest, O => f d :: rest
  | d :: rest, S n => d :: update_disk n f rest
  end.

Definition set_size (size : json) (d : PersistentDisk) : PersistentDisk :=
  mkDisk (disk_id d) (disk_owner_id d) (disk_name d) size (disk_state d).

Definition set_state (state : PersistentDiskStatuses) (d : PersistentDisk)
  : PersistentDisk :=
  mkDisk (disk_id d) (disk_owner_id d) (disk_name d) (disk_size d) state.

Definition state_eqb (a b : PersistentDiskStatuses) : bool :=
  match a, b with
  | PENDING, PENDING | ACTIVE, ACTIVE | DELETED, DELETED => true
  | OTHER m, OTHER n => (m =? n)%nat
  | _, _ => false
  end.

(** Modelled from the spec: the constructor of the [PersistentDisk] row
    ([kubedock/pods/models.py] is not part of the sources): a new disk is in
    PENDING state; its id is assigned by the persistence layer. *)
Definition new_PersistentDisk (name owner_id size : json) : PersistentDisk :=
  mkDisk JNull owner_id name size PENDING.

(** What [_handle_persistent_storage] works on: the orchestrator-facing
    volume, its public copy and the disk rows.  All three are mutated in
    place, so the state reached when an exception is raised is returned with
    the exception. *)
Record Provisioning : Type := mkProv {
  volume : json;
  volume_public : json;
  disks : Disks
}.

(** [Pod._handle_persistent_storage] *)
Definition _handle_persistent_storage (self : Pod) (st : Provisioning)
  (reuse_pv : bool) : result unit * Provisioning :=
  let fail {A} (e : exn) (s : Provisioning) : result A * Provisioning :=
    (Raise e, s) in
  match as_dict "pop" (volume st) with
  | Raise e => fail e st
  | Ok vol =>
  match subscript vol "persistentDisk" with
  | Raise e => fail e st
  | Ok pd =>
  let vol := dict_del "persistentDisk" vol in
  let st := mkProv (JDict vol) (volume_public st) (disks st) in
  match get pd "pdName" JNull with
  | Raise e => fail e st
  | Ok name =>
  match (do owner <- getattr self "owner"; attribute owner "id") with
  | Raise e => fail e st
  | Ok owner_id =>
  let found := find_disk owner_id name (disks st) O in
  let step : result (PersistentDisk * Disks) :=
    match found with
    | None =>
        do size <- get pd "pdSize" (JNum 1);
        let d := new_PersistentDisk name owner_id size in
        Ok (d, (disks st ++ [d])%list)
    | Some (i, d) =>
        do sized <-
          (if state_eqb (disk_state d) DELETED then
             do size <- get pd "pdSize" (JNum 1);
             Ok (set_size size d)
           else if negb reuse_pv then
             Raise (VolumeExists (disk_name d) (disk_id d))
           else Ok d);
        let d' := set_state PENDING sized in
        Ok (d', update_disk i (fun _ => d') (disks st))
    end in
  match step with
  | Raise e => fail e st
  | Ok (persistent_disk, disks') =>
  let st := mkProv (volume st) (volume_public st) disks' in
  let backfill : result json :=
    do public_pd <- item (volume_public st) "persistentDisk";
    do size <- get public_pd "pdSize" JNull;
    match size with
    | JNull =>
        do public_pd <- set_item public_pd "pdSize" (disk_size persistent_disk);
        set_item (volume_public st) "persistentDisk" public_pd
    | _ => Ok (volume_public st)
    end in
  match backfill with
  | Raise e => fail e st
  | Ok public =>
      (Ok tt,
       mkProv (JDict (enrich_volume_info vol persistent_disk)) public disks')
  end end end end end end.

(** [Pod._handle_local_storage]: the volume is returned as it is when the
    method returns or raises. *)
Definition _handle_local_storage (self : Pod) (vol : json)
  : result unit * json :=
  match as_dict "pop" vol with
  | Raise e => (Raise e, vol)
  | Ok d =>
  match subscript d "localStorage" with
  | Raise e => (Raise e, vol)
  | Ok local_storage =>
      let d := dict_del "localStorage" d in
      if negb (truthy local_storage) then (Ok tt, JDict d)
      else
        let path : result json :=
          match local_storage with
          | JDict ls =>
              if dict_mem "path" ls then subscript ls "path"
              else
                do id <- getattr self "id";
                do name <- subscript d "name";
                os_path_join [NODE_LOCAL_STORAGE_PREFIX; id; name]
          | _ =>
              do id <- getattr self "id";
              do name <- subscript d "name";
              os_path_join [NODE_LOCAL_STORAGE_PREFIX; id; name]
          end in
        match path with
        | Raise e => (Raise e, JDict d)
        | Ok p => (Ok tt, JDict (dict_set "hostPath" (JDict [("path", p)]) d))
        end
  end end.

(** The loop over [zip(self.volumes, self.volumes_public)] of
    [compose_persistent]: the names collected in the set [clean_vols], with
    the two lists and the disk rows as the loop left them. *)
Fixpoint provision_volumes (self : Pod) (reuse_pv : bool)
  (vols pubs : list json) (ds : Disks) (clean_vols : list json)
  : result (list json) * (list json * list json * Disks) :=
  match vols, pubs with
  | v :: vols', p :: pubs' =>
      match contains v "persistentDisk" with
      | Raise e => (Raise e, (vols, pubs, ds))
      | Ok true =>
          let (r, st) := _handle_persistent_storage self (mkProv v p ds) reuse_pv in
          match r with
          | Raise e =>
              (Raise e, (volume st :: vols', volume_public st :: pubs', disks st))
          | Ok _ =>
              let '(r', (vs, ps, ds')) :=
                provision_volumes self reuse_pv vols' pubs' (disks st) clean_vols in
              (r', (volume st :: vs, volume_public st :: ps, ds'))
          end
      | Ok false =>
          match contains v "localStorage" with
          | Raise e => (Raise e, (vols, pubs, ds))
          | Ok true =>
              let (r, v') := _handle_local_storage self v in
              match r with
              | Raise e => (Raise e, (v' :: vols', pubs, ds))
              | Ok _ =>
                  let '(r', (vs, ps, ds')) :=
                    provision_volumes self reuse_pv vols' pubs' ds clean_vols in
                  (r', (v' :: vs, p :: ps, ds'))
              end
          | Ok false =>
              match (do name <- get v "name" JNull; hash_check name) with
              | Raise e => (Raise e, (vols, pubs, ds))
              | Ok name =>
                  let '(r', (vs, ps, ds')) :=
                    provision_volumes self reuse_pv vols' pubs' ds
                      (clean_vols ++ [name])%list in
                  (r', (v :: vs, p :: ps, ds'))
              end
          end
      end
  | _, _ => (Ok clean_vols, (vols, pubs, ds))
  end.

(** [[item for item in volumes if item['name'] not in clean_vols]] *)
Fixpoint drop_clean (clean_vols : list json) (volumes : list json)
  : result (list json) :=
  match volumes with
  | [] => Ok []
  | v :: rest =>
      do name <- item v "name";
      do name <- hash_check name;
      do rest' <- drop_clean clean_vols rest;
      Ok (if existsb (py_eq name) clean_vols then rest' else v :: rest')
  end.

(** [Pod.compose_persistent]: the pod and the disk rows as the method left
    them, also when it raised.  [deepcopy] is the identity on values; the
    elements of a list are handled in place, the elements any other iterable
    yields are temporaries. *)
Definition compose_persistent (self : Pod) (ds : Disks) (reuse_pv : bool)
  : result unit * (Pod * Disks) :=
  let volumes := get_default self "volumes" (JBool false) in
  if negb (truthy volumes) then
    (Ok tt, (setattr self "volumes_public" (JList []), ds))
  else
    let self := setattr self "volumes_public" volumes in
    match iter volumes with
    | Raise e => (Raise e, (self, ds))
    | Ok vols =>
        let '(r, (vs, ps, ds')) := provision_volumes self reuse_pv vols vols ds [] in
        let (self, vs) :=
          match volumes with
          | JList _ => (setattr (setattr self "volumes" (JList vs))
                          "volumes_public" (JList ps), vs)
          | _ => (self, vols)
          end in
        match r with
        | Raise e => (Raise e, (self, ds'))
        | Ok [] => (Ok tt, (self, ds'))
        | Ok clean_vols =>
            match drop_clean clean_vols vs with
            | Raise e => (Raise e, (self, ds'))
            | Ok kept => (Ok tt, (setattr self "volumes" (JList kept), ds'))
            end
        end
    end.

(* --------------------------------------------------------------------- *)
(** *** Spec building *)

Definition MOUNT_KDTOOLS_PATH : string := "/.kdtools".
Definition HOST_KDTOOLS_PATH : string := "/usr/lib/kdtools".
Definition SERVICE_ACCOUNT_STUB_PATH : string :=
  "/var/run/secrets/kubernetes.io/serviceaccount".

(** The volume list and the mount lists that [prepare] works on are lists;
    any other value raises [TypeError] at its first use as one. *)
Definition as_list (v : json) : result (list json) :=
  match v with
  | JList l => Ok l
  | _ => Raise TypeError
  end.

(** [vol.pop('annotation')] for a volume that holds that member: the value
    popped and the volume without it.  A list has another [pop], and a string
    has none. *)
Definition pop_annotation (vol : json) : result (json * json) :=
  match vol with
  | JDict d =>
      do a <- subscript d "annotation";
      Ok (a, JDict (dict_del "annotation" d))
  | JList _ => Raise TypeError
  | _ => Raise (AttributeError "pop")
  end.

(** The body of the comprehension of [extract_volume_annotations], on the
    annotations found so far and the volumes gone through. *)
Definition extract_annotation (acc : list json * list json) (vol : json)
  : result (list json * list json) :=
  do present <- contains vol "annotation";
  if present then
    do popped <- pop_annotation vol;
    Ok ((fst acc ++ [fst popped])%list, (snd acc ++ [snd popped])%list)
  else Ok (fst acc, (snd acc ++ [vol])%list).

(** [Pod.extract_volume_annotations]: the annotations, and the volumes with
    the annotations popped.  The elements of a list are updated in place, the
    elements any other iterable yields are temporaries. *)
Definition extract_volume_annotations (volumes : json)
  : result (list json * json) :=
  if negb (truthy volumes) then Ok ([], volumes)
  else
    do vols <- iter volumes;
    do r <- foldM extract_annotation vols ([], []);
    Ok (fst r, match volumes with
               | JList _ => JList (snd r)
               | _ => volumes
               end).

(** [[item for item in l if keep(item)]] *)
Fixpoint filterM {A : Type} (keep : A -> result bool) (l : list A)
  : result (list A) :=
  match l with
  | [] => Ok []
  | x :: l' =>
      do b <- keep x;
      do rest <- filterM keep l';
      Ok (if b then x :: rest else rest)
  end.

(** The body of the loop over [self.containers] in [prepare]. *)
Definition prepare_one (self : Pod) (kube_type : json)
  (existing_vols : list json) (container : json) : result json :=
  do mounts <- get container "volumeMounts" (JList []);
  do mounts <- iter mounts;
  do kept <- filterM (fun m => do name <- item m "name";
                               Ok (existsb (py_eq name) existing_vols))
                     mounts;
  do container <- set_item container "volumeMounts" (JList kept);
  _prepare_container self container kube_type.

(** [v['name'].startswith(prefix)] *)
Definition name_startswith (prefix : string) (v : json) : result bool :=
  do name <- item v "name";
  match name with
  | JStr s => Ok (startswith prefix s)
  | _ => Raise (AttributeError "startswith")
  end.

(** [l.remove(x)] for the first [x] flagged. *)
Fixpoint remove_flagged (l : list json) (flags : list bool) : list json :=
  match l, flags with
  | _ :: l', true :: _ => l'
  | x :: l', false :: flags' => x :: remove_flagged l' flags'
  | _, _ => l
  end.

(** [found = filter(<name starts with prefix>, l)], [l.remove(found[0])] when
    there is one, and [l.append(new)]. *)
Definition replace_prefixed (prefix : string) (l : list json) (new : json)
  : result (list json) :=
  do flags <- mapM (name_startswith prefix) l;
  Ok (remove_flagged l flags ++ [new])%list.

(** [add_kdtools], drawing the [n]-th identifier. *)
Definition add_kdtools (containers volumes : list json) (n : nat)
  : result (list json * list json) :=
  let prefix := "kdtools-" in
  let volume_name := prefix ++ uuid4_hex n in
  do volumes <- replace_prefixed prefix volumes
                  (JDict [("hostPath", JDict [("path", JStr HOST_KDTOOLS_PATH)]);
                          ("name", JStr volume_name)]);
  do containers <-
    mapM (fun container =>
            do mounts <- item container "volumeMounts";
            do mounts <- as_list mounts;
            do mounts <- replace_prefixed prefix mounts
                           (JDict [("readOnly", JBool true);
                                   ("mountPath", JStr MOUNT_KDTOOLS_PATH);
                                   ("name", JStr volume_name)]);
            set_item container "volumeMounts" (JList mounts))
         containers;
  Ok (containers, volumes).

(** [add_serviceaccount_stub], drawing the [n]-th identifier. *)
Definition add_serviceaccount_stub (containers volumes : list json) (n : nat)
  : result (list json * list json) :=
  let volume_name := "serviceaccount-stub-" ++ uuid4_hex n in
  let volumes := (volumes ++ [JDict [("emptyDir", JDict []);
                                     ("name", JStr volume_name)]])%list in
  do containers <-
    mapM (fun container =>
            do mounts <- item container "volumeMounts";
            do mounts <- as_list mounts;
            set_item container "volumeMounts"
              (JList (mounts ++ [JDict [("mountPath", JStr SERVICE_ACCOUNT_STUB_PATH);
                                        ("name", JStr volume_name)]])))
         containers;
  Ok (containers, volumes).

(** [add_kdenvs] *)
Definition add_kdenvs (containers : list json) (envs : list (string * json))
  : result (list json) :=
  mapM (fun container =>
          do env <- get container "env" (JList []);
          do env <- match env with
                    | JList l => Ok l
                    | _ => Raise (AttributeError "insert")
                    end;
          let env :=
            fold_left (fun env nv =>
                         JDict [("name", JStr (fst nv)); ("value", snd nv)] :: env)
                      envs env in
          match env with
          | [] => Ok container
          | _ => set_item container "env" (JList env)
          end)
       containers.

(** [Pod._dump_ports] *)
Definition _dump_ports (self : Pod) : result json :=
  do containers <- getattr self "containers";
  do cs <- iter containers;
  do ports <- mapM (fun c => get c "ports" (JList [])) cs;
  Ok (JStr (dumps (JList ports))).

(** A dictionary key as [json.dumps] writes it. *)
Definition key_of (v : json) : result string :=
  match v with
  | JStr s => Ok s
  | JList _ | JDict _ => Raise TypeError
  | _ => Ok (dumps v)
  end.

(** [Pod._dump_kubes] *)
Definition _dump_kubes (self : Pod) : result json :=
  do containers <- getattr self "containers";
  do cs <- iter containers;
  do kubes <- foldM (fun acc c =>
                       do name <- get c "name" JNull;
                       do key <- key_of name;
                       do k <- get c "kubes" (JNum 1);
                       Ok (dict_set key k acc))
                    cs [];
  Ok (JStr (dumps (JDict kubes))).

(** The inner loop of [Pod._get_volumes_to_prefill] for one container: the
    names found, and the container with the markers popped. *)
Definition prefill_container (c : json) : result (list json * json) :=
  do mounts <- get c "volumeMounts" (JList []);
  do ms <- iter mounts;
  do r <- foldM (fun acc v =>
                   do d <- as_dict "pop" v;
                   let marker := get_default d "kdCopyFromImage" (JBool false) in
                   let d := dict_del "kdCopyFromImage" d in
                   if truthy marker then
                     do name <- subscript d "name";
                     Ok ((fst acc ++ [name])%list, (snd acc ++ [JDict d])%list)
                   else Ok (fst acc, (snd acc ++ [JDict d])%list))
                ms ([], []);
  match c, mounts with
  | JDict d, JList _ =>
      Ok (fst r, if dict_mem "volumeMounts" d
                 then JDict (dict_set "volumeMounts" (JList (snd r)) d)
                 else c)
  | _, _ => Ok (fst r, c)
  end.

(** [Pod._get_volumes_to_prefill]: the names, and the pod with the markers
    popped from its containers. *)
Definition _get_volumes_to_prefill (self : Pod) : result (list json * Pod) :=
  do containers <- getattr self "containers";
  do cs <- iter containers;
  do r <- foldM (fun acc c =>
                   do pc <- prefill_container c;
                   Ok ((fst acc ++ fst pc)%list, (snd acc ++ [snd pc])%list))
                cs ([], []);
  Ok (fst r, match containers with
             | JList _ => setattr self "containers" (JList (snd r))
             | _ => self
             end).

(** Modelled from the spec: [nested_dict_utils.set] ([kubedock/utils.py] is
    not part of the sources) sets a value at a fixed path inside the nested
    structure, creating the dictionaries on the way. *)
Fixpoint nested_set (path : list string) (value : json) (d : dict) : dict :=
  match path with
  | [] => d
  | [k] => dict_set k value d
  | k :: rest =>
      let sub := match dict_get k d with
                 | Some (JDict s) => s
                 | _ => []
                 end in
      dict_set k (JDict (nested_set rest value sub)) d
  end.

(** [Pod._merge_pod_labels] on the labels of the template. *)
Definition _merge_pod_labels (self : Pod) (labels : dict) : result dict :=
  do extra <- as_dict "items" (get_default self "labels" (JDict []));
  Ok (dict_update labels extra).

(** The optional scalar overrides at the end of [prepare]. *)
Definition config_values : list (string * list string) :=
  [("node", ["spec"; "nodeSelector"; "kuberdock-node-hostname"]);
   ("public_ip", ["metadata"; "labels"; "kuberdock-public-ip"]);
   ("domain", ["metadata"; "labels"; "kuberdock-domain"]);
   ("custom_domain", ["metadata"; "labels"; "kuberdock-custom-domain"])].

(** [Pod.prepare], drawing identifiers from the [n]-th on: the spec as it is
    when [prepare] returns, the pod as [prepare] left it and the next
    identifier to draw.

    [volumes] is the list object held in [self.volumes] when the attribute
    exists, so what [add_kdtools], [add_serviceaccount_stub] and
    [extract_volume_annotations] do to it stays on the pod; the same holds for
    the markers that [_get_volumes_to_prefill] pops from the mounts of
    [self.containers].  The containers of the spec are copies. *)
Definition prepare (self : Pod) (n : nat) : result (json * Pod * nat) :=
  let kube_type := get_default self "kube_type" get_default_kube_type in
  let volumes := get_default self "volumes" (JList []) in
  let secrets := get_default self "secrets" (JList []) in
  do ann <- extract_volume_annotations volumes;
  let volume_annotations := fst ann in
  let volumes := snd ann in
  let service_account := get_default self "serviceAccount" (JBool false) in
  let service := get_default self "service" (JStr "") in
  do vols <- iter volumes;
  do existing_vols <- mapM (fun v => item v "name") vols;
  do own <- getattr self "containers";
  do own <- iter own;
  do containers <- mapM (prepare_one self kube_type existing_vols) own;
  do vols <- as_list volumes;
  do kd <- add_kdtools containers vols n;
  let n := S n in
  do containers <- add_kdenvs (fst kd) [("KUBERDOCK_SERVICE", service)];
  do sa <- (if negb (truthy service_account)
            then do r <- add_serviceaccount_stub containers (snd kd) n;
                 Ok (r, S n)
            else Ok ((containers, snd kd), n));
  let containers := fst (fst sa) in
  let vols := snd (fst sa) in
  let n := snd sa in
  let self := if hasattr self "volumes"
              then setattr self "volumes" (JList vols) else self in
  do sid <- getattr self "sid";
  do namespace <- getattr self "namespace";
  do id <- getattr self "id";
  do owner <- getattr self "owner";
  do owner_id <- attribute owner "id";
  do ports <- _dump_ports self;
  do kubes <- _dump_kubes self;
  do prefill <- _get_volumes_to_prefill self;
  let self := snd prefill in
  do secrets <- iter secrets;
  do labels <- _merge_pod_labels self
                 [("kuberdock-pod-uid", id);
                  ("kuberdock-user-uid", JStr (str owner_id))];
  let pod_config : dict :=
    [("metadata",
      JDict [("labels", JDict labels);
             ("annotations",
              JDict [("kuberdock-pod-ports", ports);
                     ("kuberdock-container-kubes", kubes);
                     ("kuberdock-volume-annotations",
                      JStr (dumps (JList volume_annotations)));
                     ("kuberdock-volumes-to-prefill",
                      JStr (dumps (JList (fst prefill))))])]);
     ("spec",
      JDict [("securityContext", JDict [("seLinuxOptions", JDict [])]);
             ("volumes", JList vols);
             ("containers", JList containers);
             ("restartPolicy", get_default self "restartPolicy" (JStr "Always"));
             ("dnsPolicy", get_default self "dnsPolicy" (JStr "ClusterFirst"));
             ("hostNetwork", get_default self "hostNetwork" (JBool false));
             ("imagePullSecrets",
              JList (map (fun secret => JDict [("name", secret)]) secrets))])] in
  let pod_config :=
    nested_set ["spec"; "nodeSelector"]
      (if is_node_attachable_type kube_type
       then JDict [("kuberdock-kube-type",
                    JStr ("type_" ++ str kube_type))]
       else JDict [])
      pod_config in
  let pod_config :=
    fold_left (fun cfg kp =>
                 let value := get_default self (fst kp) JNull in
                 if truthy value then nested_set (snd kp) value cfg else cfg)
              config_values pod_config in
  Ok (JDict [("kind", JStr "ReplicationController");
             ("apiVersion", JStr KUBE_API_VERSION);
             ("metadata",
              JDict [("name", sid);
                     ("namespace", namespace);
                     ("labels", JDict [("kuberdock-pod-uid", id)])]);
             ("spec",
              JDict [("replicas", get_default self "replicas" (JNum 1));
                     ("selector", JDict [("kuberdock-pod-uid", id)]);
                     ("template", JDict pod_config)])],
      self, n).

(* ===================================================================== *)
(** ** [kubedock/kapi/podcollection.py] *)
(* ===================================================================== *)

(** *** Operations in the world *)

(** An operation runs in a world and leaves a world, also when it raises. *)
Definition Op (A : Type) : Type := World -> result A * World.

Definition ret {A : Type} (a : A) : Op A := fun w => (Ok a, w).

Definition throw {A : Type} (e : exn) : Op A := fun w => (Raise e, w).

Definition lift {A : Type} (r : result A) : Op A := fun w => (r, w).

Definition bindO {A B : Type} (m : Op A) (k : A -> Op B) : Op B :=
  fun w =>
    match m w with
    | (Ok a, w') => k a w'
    | (Raise e, w') => (Raise e, w')
    end.

Notation "'run' x <- c ; k" := (bindO c (fun x => k))
  (at level 10, x pattern, c at level 100, k at level 200) : result_scope.

(** [for x in l: acc = f(acc, x)] in a world. *)
Fixpoint foldO {A B : Type} (f : A -> B -> Op A) (l : list B) (a : A) : Op A :=
  match l with
  | [] => ret a
  | x :: l' => run a' <- f a x; foldO f l' a'
  end.

(** Modelled from the spec: [Utilities._raise_if_failure]
    ([kubedock/kapi/helpers.py] is not part of the sources) translates a
    non-success result into a user-facing failure with the supplied message;
    [is_failure] tells which results are not successes. *)

Definition _raise {A : Type} (message : string) (code : option Z) : Op A :=
  throw (APIError message code).

Definition _raise_if_failure (rv : json) (message : string) : Op unit :=
  if is_failure rv then _raise message None else ret tt.

(** The orchestrator client. *)
Definition request (r : Request) : Op json :=
  fun w => (Ok (kube (requests w) r),
            mkWorld (requests w ++ [r])%list (db_pods w) (net_calls w)).

Definition _get (res : list json) (use_v3 : bool) (ns : option json) : Op json :=
  request (mkRequest GET res None false use_v3 ns).

Definition _post (res : list json) (body : json) (use_v3 : bool)
  (ns : option json) : Op json :=
  request (mkRequest POST res (Some body) true use_v3 ns).

Definition _put (res : list json) (body : json) : Op json :=
  request (mkRequest PUT res (Some body) false false None).

Definition _del (res : list json) (ns : option json) : Op json :=
  request (mkRequest DEL res None false true ns).

(** The network collaborator: [modify_node_ips] answers whether it
    succeeded. *)
Definition net_call (c : NetCall) : Op json :=
  fun w => (Ok (modify_node_ips_result (net_calls w) c),
            mkWorld (requests w) (db_pods w) (net_calls w ++ [c])%list).

(** [json.loads]: [loads] parses a string. *)
Definition json_loads (v : json) : result json :=
  match v with
  | JStr s => loads s
  | _ => Raise TypeError
  end.

(** [json.dumps] *)
Definition json_dumps (v : json) : json := JStr (dumps v).

(** **** The persisted layer *)

(** Modelled from the spec: [ModelQuery._fetch_pods(users=True)] loads every
    persisted desired-state record the reconciler is scoped to see. *)
Definition _fetch_pods : Op (list DbPod) := fun w => (Ok (db_pods w), w).

(** The first row with the given id. *)
Fixpoint find_row (id : json) (rows : list DbPod) : option DbPod :=
  match rows with
  | [] => None
  | r :: rest => if py_eq (db_id r) id then Some r else find_row id rest
  end.

Fixpoint update_row (id : json) (f : DbPod -> DbPod) (rows : list DbPod)
  : list DbPod :=
  match rows with
  | [] => []
  | r :: rest =>
      if py_eq (db_id r) id then f r :: rest else r :: update_row id f rest
  end.

(** [pod.get_config(param)]: the class [Pod] of [pod.py] defines no
    [get_config]. *)
Definition get_config (pod : Pod) (param : string) : Op json :=
  lift (missing_method pod "get_config").

(** Modelled from the spec: [ModelQuery._update_pod_config(pod, **attrs)]
    merges the given entries into the pod's persisted desired config. *)
Definition _update_pod_config (pod : Pod) (attrs : dict) : Op unit :=
  run id <- lift (getattr pod "id");
  fun w =>
    (Ok tt,
     mkWorld (requests w)
       (update_row id
          (fun r => mkDbPod (db_id r) (db_name r) (db_namespace r) (db_owner r)
                      (dict_update (db_config r) attrs) (db_status r))
          (db_pods w))
       (net_calls w)).

(** Modelled from the spec: [ModelQuery._mark_pod_as_deleted(pod_id)] marks
    the persisted record deleted. *)
Definition _mark_pod_as_deleted (pod_id : json) : Op unit :=
  fun w =>
    (Ok tt,
     mkWorld (requests w)
       (update_row pod_id
          (fun r => mkDbPod (db_id r) (db_name r) (db_namespace r) (db_owner r)
                      (db_config r) (JStr "deleted"))
          (db_pods w))
       (net_calls w)).

(** [pod._free_ip()]: the class [Pod] of [pod.py] defines no [_free_ip]. *)
Definition _free_ip (pod : Pod) : Op unit :=
  lift (missing_method pod "_free_ip").

(* --------------------------------------------------------------------- *)
(** *** The collection *)

(** A hashable value: what can be a dictionary key or a member of a set. *)
Inductive hashable : Type :=
| HNull
| HBool (b : bool)
| HNum (n : Z)
| HStr (s : string).

(** [hash(v)] succeeds. *)
Definition to_hashable (v : json) : result hashable :=
  match v with
  | JNull => Ok HNull
  | JBool b => Ok (HBool b)
  | JNum n => Ok (HNum n)
  | JStr s => Ok (HStr s)
  | JList _ | JDict _ => Raise TypeError
  end.

Definition of_hashable (h : hashable) : json :=
  match h with
  | HNull => JNull
  | HBool b => JBool b
  | HNum n => JNum n
  | HStr s => JStr s
  end.

(** [a == b] on hashable values. *)
Definition hashable_eq (a b : hashable) : bool :=
  py_eq (of_hashable a) (of_hashable b).

(** [self._collection]: the pods by [(name, namespace)], in the order the
    keys were first assigned. *)
Definition Key : Type := (hashable * hashable)%type.
Definition Collection : Type := list (Key * Pod).

(** The tuple [(name, namespace)] as a key. *)
Definition make_key (name namespace : json) : result Key :=
  do n <- to_hashable name;
  do s <- to_hashable namespace;
  Ok (n, s).

Definition key_eq (a b : Key) : bool :=
  hashable_eq (fst a) (fst b) && hashable_eq (snd a) (snd b).

(** [key in self._collection] *)
Definition coll_mem (k : Key) (c : Collection) : bool :=
  existsb (fun e => key_eq k (fst e)) c.

(** [self._collection[key]] *)
Fixpoint coll_get (k : Key) (c : Collection) : result Pod :=
  match c with
  | [] => Raise (KeyError "(name, namespace)")
  | (k', p) :: c' => if key_eq k k' then Ok p else coll_get k c'
  end.

(** [self._collection[key] = pod] *)
Fixpoint coll_set (k : Key) (p : Pod) (c : Collection) : Collection :=
  match c with
  | [] => [(k, p)]
  | (k', p') :: c' =>
      if key_eq k k' then (k', p) :: c' else (k', p') :: coll_set k p c'
  end.

(** [PodCollection._is_related]: the loop over [two.keys()] is left in its
    first round, so that only the key enumerated first is looked at; without
    a key the method falls off its end. *)
Definition _is_related (one two : json) : result json :=
  match one, two with
  | JNull, _ | _, JNull => Ok (JBool false)
  | _, JDict [] => Ok JNull
  | _, JDict ((k, v) :: _) =>
      do present <- contains one k;
      if negb present then Ok (JBool false)
      else
        do mine <- item one k;
        if negb (py_eq mine v) then Ok (JBool false)
        else Ok (JBool true)
  | _, _ => Raise (AttributeError "keys")
  end.

(** [PodCollection._get_namespace] *)
Definition _get_namespace (namespace : json) : Op json :=
  run data <- _get [] true (Some namespace);
  run code <- lift (get data "code" JNull);
  if py_eq code (JNum 404) then ret JNull else ret data.

(** [PodCollection._make_namespace] *)
Definition _make_namespace (namespace : json) : Op unit :=
  let config := JDict [("kind", JStr "Namespace");
                       ("apiVersion", JStr "v1beta3");
                       ("metadata", JDict [("name", namespace)])] in
  run data <- _get_namespace namespace;
  match data with
  | JNull =>
      run _ <- _post [JStr "namespaces"] (json_dumps config) true
                 (Some (JBool false));
      ret tt
  | _ => ret tt
  end.

(** [PodCollection._drop_namespace]; the message is formatted before the
    result is looked at. *)
Definition _drop_namespace (namespace : json) : Op json :=
  run rv <- _del [JStr "namespaces"; namespace] (Some (JBool false));
  run _ <- _raise_if_failure rv
             ("Cannot delete namespace '" ++ str namespace ++ "'");
  ret rv.

(** [s.endswith(suffix)] *)
Definition endswith (suffix s : string) : bool :=
  let n := String.length suffix in
  let m := String.length s in
  (n <=? m)%nat && String.eqb (String.substring (m - n) n s) suffix.

(** [PodCollection._get_namespaces], [owner] being [self.owner]. *)
Definition _get_namespaces (owner : json) : Op json :=
  run data <- _get [JStr "namespaces"] true (Some (JBool false));
  run items <- lift (item data "items");
  match owner with
  | JNull => ret items
  | _ =>
      run items <- lift (iter items);
      run names <-
        lift (foldM (fun names namespace =>
                       do metadata <- get namespace "metadata" (JDict []);
                       do name <- get metadata "name" (JStr "");
                       match name with
                       | JStr name =>
                           do username <- attribute owner "username";
                           match username with
                           | JStr username =>
                               Ok (if startswith (username ++ "-") name
                                      && endswith "-pods" name
                                   then (names ++ [JStr name])%list
                                   else names)
                           | _ => Raise TypeError
                           end
                       | _ => Raise (AttributeError "startswith")
                       end)
                    items []);
      ret (JList names)
  end.

(** [PodCollection._get_replicas]; only [KeyError] is caught. *)
Definition replica_item (it : json) : result dict :=
  do uid <- item it "uid";
  do id <- item it "id";
  do currentState <- item it "currentState";
  do replicas <- item currentState "replicas";
  do desiredState <- item it "desiredState";
  do replicaSelector <- item desiredState "replicaSelector";
  do labels <- item it "labels";
  do name <- item labels "name";
  Ok [("id", uid); ("sid", id); ("replicas", replicas);
      ("replicaSelector", replicaSelector); ("name", name)].

Definition _get_replicas (name : json) : Op (list dict) :=
  run data <- _get [JStr "replicationControllers"] false None;
  run items <- lift (item data "items");
  run items <- lift (iter items);
  lift (foldM (fun replicas it =>
                 match replica_item it with
                 | Ok r =>
                     match name with
                     | JNull => Ok (replicas ++ [r])%list
                     | _ =>
                         if negb (py_eq (py_get r "replicaSelector") name)
                         then Ok replicas
                         else Ok (replicas ++ [r])%list
                     end
                 | Raise (KeyError _) => Ok replicas
                 | Raise e => Raise e
                 end)
              items []).

(** The two correlation loops of [_get_pods]: the first resource whose
    selector [_is_related] accepts for the labels of [it]; the labels are
    looked up once per resource tried. *)
Fixpoint first_related (it : json) (resources : list json)
  : result (option json) :=
  match resources with
  | [] => Ok None
  | r :: rest =>
      do metadata <- item it "metadata";
      do labels <- item metadata "labels";
      do spec <- item r "spec";
      do selector <- item spec "selector";
      do related <- _is_related labels selector;
      if truthy related then Ok (Some r) else first_related it rest
  end.

(** The body of the loop [for item in data] of [_get_pods]: the collection
    and [pod_index] after it.  [populate] of [pod.py] assigns no [name]: the
    attribute is read as any other. *)
Definition collect_pod (services_data replicas_data : list json)
  (acc : Collection * list hashable) (it : json)
  : result (Collection * list hashable) :=
  do pod <- populate it;
  do s <- first_related it services_data;
  do pod <- match s with
            | Some s =>
                do spec <- item s "spec";
                do ip <- get spec "portalIP" JNull;
                Ok (setattr pod "serviceIP" ip)
            | None => Ok pod
            end;
  do r <- first_related it replicas_data;
  do pod <- match r with
            | Some r =>
                do metadata <- item r "metadata";
                do name <- item metadata "name";
                Ok (setattr (setattr pod "sid" name) "cluster" (JBool true))
            | None => Ok pod
            end;
  do sid <- getattr pod "sid";
  do sid <- to_hashable sid;
  if negb (existsb (hashable_eq sid) (snd acc)) then
    do name <- getattr pod "name";
    do namespace <- getattr pod "namespace";
    do key <- make_key name namespace;
    Ok (coll_set key pod (fst acc), (snd acc ++ [sid])%list)
  else Ok acc.

(** The three fetches of [_get_pods] for one namespace ([None]: the default
    namespace of the client). *)
Definition fetch_items (kind : string) (ns : option json) : Op (list json) :=
  run data <- _get [JStr kind] true ns;
  run items <- lift (item data "items");
  lift (iter items).

Definition fetch_namespace (ns : option json)
  (acc : list json * list json * list json)
  : Op (list json * list json * list json) :=
  run pods <- fetch_items "pods" ns;
  run services <- fetch_items "services" ns;
  run replicas <- fetch_items "replicationcontrollers" ns;
  ret ((fst (fst acc) ++ pods)%list,
       (snd (fst acc) ++ services)%list,
       (snd acc ++ replicas)%list).

(** [PodCollection._get_pods] on [self._collection]. *)
Definition _get_pods (collection : Collection) (namespaces : json)
  : Op Collection :=
  run fetched <-
    (if truthy namespaces then
       run nss <- lift (iter namespaces);
       foldO (fun acc namespace => fetch_namespace (Some namespace) acc)
             nss ([], [], [])
     else fetch_namespace None ([], [], []));
  let '(data, services_data, replicas_data) := fetched in
  run r <- lift (foldM (collect_pod services_data replicas_data)
                       data (collection, []));
  ret (fst r).

(** The two defaults that end the body of the loop of [_merge]. *)
Definition with_defaults (db_pod : DbPod) (pod : Pod) : Pod :=
  let pod := if negb (hasattr pod "owner")
             then setattr pod "owner" (db_owner db_pod) else pod in
  if negb (hasattr pod "status")
  then setattr pod "status" (JStr "stopped") else pod.

(** The body of the loop [for db_pod in db_pods] of [_merge].  The class
    [Pod] of [pod.py] defines [forge_dockers] and no [_forge_dockers]. *)
Definition merge_row (collection : Collection) (db_pod : DbPod)
  : result Collection :=
  let namespace := db_namespace db_pod in
  do key <- make_key (db_name db_pod) namespace;
  do collection <-
    (if negb (coll_mem key collection) then
       do pod <- Pod_init (Some (db_config db_pod));
       do pod <- (missing_method pod "_forge_dockers" : result Pod);
       do name <- getattr pod "name";
       do pod_key <- make_key name namespace;
       Ok (coll_set pod_key pod collection)
     else
       do pod <- coll_get key collection;
       let pod := setattr pod "id" (db_id db_pod) in
       let pod := setattr pod "kube_type" (py_get (db_config db_pod) "kube_type") in
       do a <- getattr pod "containers";
       let b := py_get (db_config db_pod) "containers" in
       do merged <- merge_lists a b "name";
       Ok (coll_set key (setattr pod "containers" merged) collection));
  do pod <- coll_get key collection;
  Ok (coll_set key (with_defaults db_pod pod) collection).

(** [PodCollection._merge] *)
Definition _merge (collection : Collection) : Op Collection :=
  run db_pods <- _fetch_pods;
  lift (foldM merge_row db_pods collection).

(** [PodCollection.__init__]: the collection built for [owner]. *)
Definition PodCollection_init (owner : json) : Op Collection :=
  run namespaces <- _get_namespaces owner;
  run collection <- _get_pods [] namespaces;
  _merge collection.

(* --------------------------------------------------------------------- *)
(** *** Lifecycle operations *)

(** ['{0}'.format(n)] for an index. *)
Definition format_nat (n : nat) : string :=
  NilEmpty.string_of_uint (Nat.to_uint n).

(** The inner loop of [_run_service]: the service ports of container [ci],
    from port index [pi] on. *)
Fixpoint service_ports (ci pi : nat) (ports : list json) : result (list json) :=
  match ports with
  | [] => Ok []
  | p :: rest =>
      do hostPort <- get p "hostPort" JNull;
      do containerPort <- get p "containerPort" JNull;
      let host_port := if truthy hostPort then hostPort else containerPort in
      let port_name := "c" ++ format_nat ci ++ "-p" ++ format_nat pi in
      do isPublic <- get p "isPublic" JNull;
      let port_name := if truthy isPublic then port_name ++ "-public"
                       else port_name in
      do protocol <- get p "protocol" JNull;
      do targetPort <- get p "containerPort" JNull;
      do more <- service_ports ci (S pi) rest;
      Ok (JDict [("name", JStr port_name);
                 ("port", host_port);
                 ("protocol", protocol);
                 ("targetPort", targetPort)] :: more)
  end.

(** The outer loop of [_run_service], from container index [ci] on. *)
Fixpoint all_service_ports (ci : nat) (containers : list json)
  : result (list json) :=
  match containers with
  | [] => Ok []
  | c :: rest =>
      do ports <- get c "ports" (JList []);
      do ports <- iter ports;
      do here <- service_ports ci O ports;
      do more <- all_service_ports (S ci) rest;
      Ok (here ++ more)%list
  end.

(** The document [_run_service] posts.  The class [Pod] of [pod.py] defines
    no [_make_dash]; the label is the first entry of the document that is
    computed from the pod. *)
Definition service_conf (pod : Pod) : result json :=
  do containers <- iter (get_default pod "containers" (JList []));
  do ports <- all_service_ports O containers;
  do dash <- (missing_method pod "_make_dash" : result string);
  do name <- getattr pod "name";
  let spec : dict := [("selector", JDict [("name", name)]);
                      ("ports", JList ports);
                      ("sessionAffinity", JStr "None")] in
  do spec <- (if hasattr pod "portalIP" then
                do portalIP <- getattr pod "portalIP";
                Ok (if truthy portalIP then dict_set "portalIP" portalIP spec
                    else spec)
              else Ok spec);
  Ok (JDict
        [("kind", JStr "Service");
         ("metadata",
          JDict [("generateName", JStr "service-");
                 ("labels",
                  JDict [("name", JStr (dash ++ "-service"))]);
                 ("annotations",
                  JDict [("public-ip-state",
                          json_dumps
                            (JDict [("assigned-public-ip",
                                     get_default pod "public_ip" JNull)]))])]);
         ("spec", JDict spec)]).

(** [PodCollection._run_service] *)
Definition _run_service (pod : Pod) : Op json :=
  run conf <- lift (service_conf pod);
  run namespace <- lift (getattr pod "namespace");
  _post [JStr "services"] (json_dumps conf) true (Some namespace).

(** The loop of [_resize_replicas]: the body of the request is computed, by
    [json.loads] of a dictionary, before [_put] is called. *)
Definition resize_one (number : Z) (replica : dict) : Op unit :=
  let res := [JStr "replicationControllers"; get_default replica "id" (JStr "")] in
  run body <- lift (json_loads
                      (JDict [("desiredState",
                               JDict [("replicas", JNum number)])]));
  run rv <- _put res body;
  _raise_if_failure rv "Could not resize a replica".

(** [PodCollection._resize_replicas] *)
Definition _resize_replicas (pod : Pod) (data : json) : Op json :=
  run requested <- lift (get data "replicas" (get_default pod "replicas" (JNum 0)));
  run number <- lift (py_int requested);
  run name <- lift (getattr pod "name");
  run replicas <- _get_replicas name;
  run _ <- foldO (fun _ replica => resize_one number replica) replicas tt;
  ret (JNum (Z.of_nat (length replicas))).

(** [len(c.get('ports', [])) > 0] *)
Definition exposes_port (c : json) : result bool :=
  do ports <- get c "ports" (JList []);
  do n <- len ports;
  Ok (0 <? n)%nat.

(** What [_start_pod] does for the first container that exposes a port: the
    service is created and its generated name is persisted. *)
Definition create_service (pod : Pod) : Op unit :=
  run service_rv <- _run_service pod;
  run _ <- _raise_if_failure service_rv "Could not start a service";
  run metadata <- lift (item service_rv "metadata");
  run name <- lift (item metadata "name");
  _update_pod_config pod [("service", name)].

(** The loop over [pod.containers] in [_start_pod], which is left after the
    first container that exposes a port. *)
Fixpoint start_service (pod : Pod) (containers : list json) : Op unit :=
  match containers with
  | [] => ret tt
  | c :: rest =>
      run exposed <- lift (exposes_port c);
      if exposed then create_service pod else start_service pod rest
  end.

(** The service part of [_start_pod]. *)
Definition ensure_service (pod : Pod) : Op unit :=
  run service <- get_config pod "service";
  if negb (truthy service) then
    run containers <- lift (getattr pod "containers");
    run containers <- lift (iter containers);
    start_service pod containers
  else ret tt.

(** The workload part of [_start_pod], drawing identifiers from the [n]-th
    on: the status returned, the pod as [prepare] left it and the next
    identifier.  The message is formatted before the result is looked at. *)
Definition submit_workload (pod : Pod) (n : nat) : Op (json * Pod * nat) :=
  run prepared <- lift (prepare pod n);
  let '(config, pod, n) := prepared in
  run kind <- lift (getattr pod "kind");
  run namespace <- lift (getattr pod "namespace");
  run rv <- _post [kind] (json_dumps config) true (Some namespace);
  run name <- lift (getattr pod "name");
  run _ <- _raise_if_failure rv ("Could not start '" ++ str name ++ "' pod");
  ret (JDict [("status", JStr "pending")], pod, n).

(** [PodCollection._start_pod] *)
Definition _start_pod (pod : Pod) (n : nat) : Op (json * Pod * nat) :=
  run namespace <- lift (getattr pod "namespace");
  run _ <- _make_namespace namespace;
  run _ <- ensure_service pod;
  submit_workload pod n.

(** [PodCollection._stop_cluster] *)
Definition _stop_cluster (pod : Pod) : Op unit :=
  run namespace <- lift (getattr pod "namespace");
  run data <- _get [JStr "pods"] true (Some namespace);
  run items <- lift (item data "items");
  run items <- lift (iter items);
  foldO (fun _ p =>
           run metadata <- lift (item p "metadata");
           run labels <- lift (item metadata "labels");
           run name <- lift (getattr pod "name");
           run related <- lift (_is_related labels (JDict [("name", name)]));
           if truthy related then
             run metadata <- lift (item p "metadata");
             run pname <- lift (item metadata "name");
             run namespace <- lift (getattr pod "namespace");
             run _ <- _del [JStr "pods"; pname] (Some namespace);
             ret tt
           else ret tt)
        items tt.

(** [PodCollection._stop_pod]: the pod after [pod.status = 'stopped'], which
    is assigned whatever follows, and the rest of the method; the value is
    [None] when the method falls off its end. *)
Definition _stop_pod (pod : Pod) : Pod * Op json :=
  let pod := setattr pod "status" (JStr "stopped") in
  (pod,
   if hasattr pod "sid" then
     run kind <- lift (getattr pod "kind");
     run sid <- lift (getattr pod "sid");
     run namespace <- lift (getattr pod "namespace");
     run rv <- _del [kind; sid] (Some namespace);
     run cluster <- lift (getattr pod "cluster");
     run _ <- (if truthy cluster then _stop_cluster pod else ret tt);
     run _ <- _raise_if_failure rv "Could not stop a pod";
     ret (JDict [("status", JStr "stopped")])
   else ret JNull).

(** [PodCollection.get_by_id] with [as_json=False]: [p.id] is read on every
    pod of the collection. *)
Definition get_by_id (collection : Collection) (pod_id : json) : Op Pod :=
  run found <- lift (filterM (fun p => do id <- getattr p "id";
                                       Ok (py_eq id pod_id))
                             (map snd collection));
  match found with
  | pod :: _ => ret pod
  | [] => _raise "No such item" (Some 404)
  end.

(** The part of [delete] that releases the service of the pod. *)
Definition delete_service (pod : Pod) (service_name : json) : Op unit :=
  run namespace <- lift (getattr pod "namespace");
  run service <- _get [JStr "services"; service_name] true (Some namespace);
  run metadata <- lift (get service "metadata" (JDict []));
  run annotations <- lift (get metadata "annotations" (JDict []));
  run text <- lift (get annotations "public-ip-state" (JStr "{}"));
  run state <- lift (json_loads text);
  run assigned <- lift (contains state "assigned-to");
  run _ <- (if assigned then
              run node <- lift (item state "assigned-to");
              run pod_ip <- lift (item state "assigned-pod-ip");
              run public_ip <- lift (item state "assigned-public-ip");
              run spec <- lift (get service "spec" (JDict []));
              run ports <- lift (get spec "ports" JNull);
              run res <- net_call (ModifyNodeIps node (JStr "del") pod_ip
                                     public_ip ports);
              if negb (truthy res) then
                _raise ("Can't unbind ip from node(" ++ str node
                        ++ "). Connection error") None
              else ret tt
            else ret tt);
  run namespace <- lift (getattr pod "namespace");
  run rv <- _del [JStr "services"; service_name] (Some namespace);
  _raise_if_failure rv "Could not remove a service".

(** The body of [delete] after its guard: the workload, the service, the
    public address, the namespace and the persisted record, in this order. *)
Definition teardown (pod : Pod) (pod_id : json) : Op unit :=
  run _ <- (if hasattr pod "sid" then
              run kind <- lift (getattr pod "kind");
              run sid <- lift (getattr pod "sid");
              run namespace <- lift (getattr pod "namespace");
              run rv <- _del [kind; sid] (Some namespace);
              run _ <- _raise_if_failure rv "Could not remove a pod";
              run cluster <- lift (getattr pod "cluster");
              if truthy cluster then _stop_cluster pod else ret tt
            else ret tt);
  run service_name <- get_config pod "service";
  run _ <- (if truthy service_name then delete_service pod service_name
            else ret tt);
  run _ <- (if hasattr pod "public_ip" then _free_ip pod else ret tt);
  run namespace <- lift (getattr pod "namespace");
  run _ <- _drop_namespace namespace;
  _mark_pod_as_deleted pod_id.

(** [PodCollection.delete] *)
Definition delete (collection : Collection) (pod_id : json) (force : bool)
  : Op unit :=
  run pod <- get_by_id collection pod_id;
  run owner <- lift (getattr pod "owner");
  run _ <- (if py_eq owner (JStr KUBERDOCK_INTERNAL_USER) && negb force
            then _raise "Service pod cannot be removed" None
            else ret tt);
  teardown pod pod_id.

(* ===================================================================== *)
(** ** [kubedock/kapi/pod.py]: what a pod shows and how it is updated *)
(* ===================================================================== *)

Definition ORIGIN_ROOT : string := "originroot".

(** *** [Pod.get_volumes] *)

(** A dictionary whose keys are any hashable values, in the order the keys
    were first assigned. *)
Definition hmap : Type := list (hashable * json).

Fixpoint hmap_get (k : hashable) (m : hmap) : option json :=
  match m with
  | [] => None
  | (k', v) :: m' => if hashable_eq k k' then Some v else hmap_get k m'
  end.

Fixpoint hmap_set (k : hashable) (v : json) (m : hmap) : hmap :=
  match m with
  | [] => [(k, v)]
  | (k', v') :: m' =>
      if hashable_eq k k' then (k', v) :: m' else (k', v') :: hmap_set k v m'
  end.

(** [m.update(other)] *)
Definition hmap_update (m other : hmap) : hmap :=
  fold_left (fun acc kv => hmap_set (fst kv) (snd kv) acc) other m.

(** [vol['hostPath']['path']] *)
Definition host_path_of (vol : json) : result json :=
  do host_path <- item vol "hostPath";
  item host_path "path".

(** The condition of the generator [p_vols]. *)
Definition is_host_volume (vol : json) : result bool :=
  do named <- contains vol "name";
  if negb named then Ok false
  else
    do hosted <- contains vol "hostPath";
    if negb hosted then Ok false
    else
      do path <- host_path_of vol;
      Ok (negb (in_tuple path [JStr "/usr/lib/kdtools"])).

(** [Pod.get_volumes]: the value of an entry is computed before its key. *)
Definition get_volumes (self : Pod) : result hmap :=
  do volumes <- iter (get_default self "volumes" (JList []));
  do result <-
    foldM (fun result vol =>
             do shown <- is_host_volume vol;
             if shown then
               do path <- host_path_of vol;
               do name <- item vol "name";
               do key <- to_hashable name;
               Ok (hmap_set key path result)
             else Ok result)
          volumes [];
  do ceph <-
    foldM (fun ceph vol =>
             do networked <- contains vol "rbd";
             if networked then
               do name <- item vol "name";
               do key <- to_hashable name;
               Ok (hmap_set key (JStr "ceph") ceph)
             else Ok ceph)
          volumes [];
  Ok (hmap_update result ceph).

(** *** [Pod._as_dict], [Pod.as_dict] and [Pod.as_json] *)

(** [any(item in v for item in items)] *)
Fixpoint any_in (items : list string) (v : json) : result bool :=
  match items with
  | [] => Ok false
  | x :: rest =>
      do found <- contains v x;
      if found then Ok true else any_in rest v
  end.

(** [s[-2:]] and [s[:-2]] *)
Definition last_two (s : string) : string :=
  String.substring (String.length s - 2) 2 s.

Definition but_last_two (s : string) : string :=
  String.substring 0 (String.length s - 2) s.

(** The body of the loop over the mounts of a container in [_as_dict]:
    nothing for a mount that is skipped, the mount as appended to
    [new_volumes] otherwise. *)
Definition visible_mount (volume_mount : json) : result (option json) :=
  do mount_path <- get volume_mount "mountPath" (JStr "");
  do hidden <- any_in [ORIGIN_ROOT; MOUNT_KDTOOLS_PATH; SERVICE_ACCOUNT_STUB_PATH]
                 mount_path;
  if hidden then Ok None
  else
    match mount_path with
    | JStr s =>
        if in_tuple (JStr (last_two s)) [JStr ":Z"; JStr ":z"] then
          do stripped <- set_item volume_mount "mountPath" (JStr (but_last_two s));
          Ok (Some stripped)
        else Ok (Some volume_mount)
    | JList _ => Ok (Some volume_mount)
    | _ => Raise TypeError
    end.

(** The elements of a list that are there. *)
Fixpoint somes {A : Type} (l : list (option A)) : list A :=
  match l with
  | [] => []
  | Some x :: l' => x :: somes l'
  | None :: l' => somes l'
  end.

(** The body of the loop over [data.get('containers', ())] in [_as_dict]. *)
Definition public_container (container : json) : result json :=
  do mounts <- get container "volumeMounts" (JList []);
  do mounts <- iter mounts;
  do new_volumes <- mapM visible_mount mounts;
  do container <- set_item container "volumeMounts" (JList (somes new_volumes));
  do env <- get container "env" (JList []);
  do env <- iter env;
  do env <- filterM (fun var =>
                       do name <- item var "name";
                       Ok (negb (in_tuple name [JStr "KUBERDOCK_SERVICE"])))
                    env;
  set_item container "env" (JList env).

(** [hide_fields] of [Pod.as_dict] *)
Definition hide_fields : list string :=
  ["node"; "labels"; "namespace"; "secrets"; "owner"].

(** [for field in hide_fields: if field in data: del data[field]] *)
Definition hide (data : dict) : dict :=
  fold_left (fun data field => dict_del field data) hide_fields data.

(** The entry [k] of [d] is the object that [from] holds under [k], as that
    object is now. *)
Definition shared (k : string) (from d : dict) : dict :=
  match dict_get k from with
  | Some v => if dict_mem k d then dict_set k v d else d
  | None => d
  end.

(** A document after [Pod(document)] was built from it and serialized:
    ['owner'] was popped, and its containers and its edited config are the
    objects the pod holds. *)
Definition document_after (document : dict) (pod : Pod) : dict :=
  shared "edited_config" pod (shared "containers" pod (dict_del "owner" document)).

(** [Pod._as_dict] once [edited] is known, which is
    [Pod(data['edited_config']).as_dict()] with the edited config as that
    call left it, when [data.get('edited_config')] is not [None]: the
    dictionary returned and the pod afterwards.  [data] is a shallow copy of
    the attributes, so the containers that the loop rewrites are the
    containers of the pod. *)
Definition as_dict_body (self : Pod) (edited : option (result (dict * json)))
  : result (dict * Pod) :=
  let data := dict_set "volumes" (get_default self "volumes_public" (JList []))
                (dict_del "volumes_public" self) in
  do containers <- for_each (get_default data "containers" (JList []))
                     public_container;
  let data := if dict_mem "containers" data
              then dict_set "containers" containers data else data in
  let self := if dict_mem "containers" self
              then dict_set "containers" containers self else self in
  match edited with
  | None => Ok (data, self)
  | Some r =>
      do r <- r;
      Ok (dict_set "edited_config" (JDict (fst r)) data,
          dict_set "edited_config" (snd r) self)
  end.

(** [Pod(document).as_dict()]: the dictionary returned and the document
    afterwards.  The edited config of the pod built is the one of the
    document. *)
Fixpoint document_as_dict (document : json) : result (dict * json) :=
  match document with
  | JDict config =>
      let edited :=
        (fix find (d : dict) : option (result (dict * json)) :=
           match d with
           | [] => None
           | (k, v) :: d' =>
               if String.eqb "edited_config" k then
                 match v with
                 | JNull => None
                 | _ => Some (document_as_dict v)
                 end
               else find d'
           end) config in
      do pod <- Pod_init (Some config);
      do r <- as_dict_body pod edited;
      Ok (hide (fst r), JDict (document_after config (snd r)))
  | _ => Raise TypeError
  end.

Definition edited_as_dict (self : Pod) : option (result (dict * json)) :=
  match dict_get "edited_config" self with
  | None | Some JNull => None
  | Some document => Some (document_as_dict document)
  end.

(** [Pod._as_dict] *)
Definition _as_dict (self : Pod) : result (dict * Pod) :=
  as_dict_body self (edited_as_dict self).

(** [Pod.as_dict] *)
Definition Pod_as_dict (self : Pod) : result (dict * Pod) :=
  do r <- _as_dict self;
  Ok (hide (fst r), snd r).

(** [Pod.as_json] *)
Definition as_json (self : Pod) : result (json * Pod) :=
  do r <- Pod_as_dict self;
  Ok (json_dumps (JDict (fst r)), snd r).

(** *** [Pod._update_volume_path] *)

(** [a += b] *)
Definition py_iadd (a b : json) : result json :=
  let number (v : json) : option Z :=
    match v with
    | JNum n => Some n
    | JBool b => Some (if b then 1 else 0)
    | _ => None
    end in
  match a, b with
  | JStr x, JStr y => Ok (JStr (x ++ y))
  | JList x, _ => do ys <- iter b; Ok (JList (x ++ ys))
  | _, _ =>
      match number a, number b with
      | Some x, Some y => Ok (JNum (x + y))
      | _, _ => Raise TypeError
      end
  end.

(** The body of the loop of [_update_volume_path]; only [KeyError] is
    caught. *)
Definition append_volume_id (name vid : json) (vol : json) : result json :=
  do vol_name <- get vol "name" JNull;
  if negb (py_eq vol_name name) then Ok vol
  else
    match (do store <- item vol "awsElasticBlockStore";
           do old <- item store "volumeID";
           Ok (store, old)) with
    | Raise (KeyError _) => Ok vol
    | Raise e => Raise e
    | Ok (store, old) =>
        do new <- py_iadd old vid;
        do store <- set_item store "volumeID" new;
        set_item vol "awsElasticBlockStore" store
    end.

(** [Pod._update_volume_path]: the pod when the method returns. *)
Definition _update_volume_path (self : Pod) (name vid : json) : result Pod :=
  match vid with
  | JNull => Ok self
  | _ =>
      do volumes <- for_each (get_default self "volumes" (JList []))
                      (append_volume_id name vid);
      Ok (if hasattr self "volumes" then setattr self "volumes" volumes
          else self)
  end.

(** *** [Pod.set_status] *)

(** Modelled from the spec: the desired statuses [unpaid] and [deleted] of
    [POD_STATUSES] ([kubedock/utils.py] is not part of the sources). *)
Definition POD_STATUSES_unpaid : string := "unpaid".
Definition POD_STATUSES_deleted : string := "deleted".

(** Modelled from the spec: [helpers.set_pod_status] ([kubedock/kapi/helpers.py]
    is not part of the sources) stores the desired status of the persisted
    record; the update event it may send is not modelled. *)
Definition set_pod_status (pod_id status : json) : Op unit :=
  fun w =>
    (Ok tt,
     mkWorld (requests w)
       (update_row pod_id
          (fun r => mkDbPod (db_id r) (db_name r) (db_namespace r) (db_owner r)
                      (db_config r) status)
          (db_pods w))
       (net_calls w)).

(** A text between double quotes. *)
Definition quoted (s : string) : string :=
  let mark := String (ascii_of_nat 34) "" in mark ++ s ++ mark.

(** [Pod.set_status]: the pod when the method returns.  [DBPod.query.get] is
    the lookup of the record by its id; the [type] of an [APIError] is not
    modelled. *)
Definition set_status (self : Pod) (status : json) (force : bool) : Op Pod :=
  if py_eq (get_default self "status" JNull) (JStr POD_STATUSES_unpaid)
     && negb force
  then throw (APIError ("Not allowed to change " ++ quoted "unpaid"
                        ++ " status.") None)
  else
    run id <- lift (getattr self "id");
    run db_pod <- (fun w => (Ok (find_row id (db_pods w)), w));
    match db_pod with
    | None =>
        run id <- lift (getattr self "id");
        throw (APIError ("Pod " ++ str id
                         ++ " does not exist in KuberDock database") None)
    | Some db_pod =>
        if py_eq (db_status db_pod) (JStr POD_STATUSES_deleted) then
          throw (APIError ("Not allowed to change " ++ quoted "deleted"
                           ++ " status.") None)
        else
          run id <- lift (getattr self "id");
          run _ <- set_pod_status id status;
          ret (setattr self "status" status)
    end.

(* ===================================================================== *)
(** ** What the specification says *)
(* ===================================================================== *)

(** The per-container transform, port by port: the protocol of the prepared
    port [p'] is the upper-cased protocol of the port [p] it comes from, TCP
    when [p] has none. *)
Definition protocol_normalized (p p' : json) : Prop :=
  exists d d' proto,
    p = JDict d /\ p' = JDict d' /\
    get_default d "protocol" (JStr "TCP") = JStr proto /\
    dict_get "protocol" d' = Some (JStr (upper proto)).

(** A prepared port: an upper-case protocol, no [isPublic], and no [hostPort]
    unless the owner is the internal account. *)
Definition port_prepared (internal : bool) (p' : json) : Prop :=
  exists d' proto,
    p' = JDict d' /\
    dict_get "protocol" d' = Some (JStr proto) /\ upper proto = proto /\
    dict_mem "isPublic" d' = false /\
    (internal = false -> dict_mem "hostPort" d' = false).

(** A port that the transform accepts: a dictionary whose protocol, when it
    has one, is a string. *)
Definition port_accepted (p : json) : Prop :=
  exists d,
    p = JDict d /\
    (dict_get "protocol" d = None \/ exists s, dict_get "protocol" d = Some (JStr s)).

(** A container reports ready: its [ready] entry is true. *)
Definition reports_ready (container : json) : bool :=
  match container with
  | JDict d => truthy (py_get d "ready")
  | _ => false
  end.

(** The runtime fields of a container of a pod in phase [phase] for which
    the orchestrator reported no per-container status. *)
Definition phase_only (phase : string) (container : json) : Prop :=
  exists d,
    container = JDict d /\
    dict_get "state" d = Some (JStr phase) /\
    dict_get "containerID" d = Some JNull /\
    dict_get "imageID" d = Some JNull.

(** A container descriptor [c] and what the loop over the containers of
    such a pod makes of it: the three runtime fields are set and every other
    entry is as it was. *)
Definition phase_only_from (phase : string) (c c' : json) : Prop :=
  exists d d',
    c = JDict d /\ c' = JDict d' /\
    phase_only phase c' /\
    forall k, k <> "state" -> k <> "containerID" -> k <> "imageID" ->
              dict_get k d' = dict_get k d.

(** Label-subset match, in the words of the specification: every key/value
    pair of the selector is present with an equal value in the labels. *)
Definition selector_matches (labels selector : dict) : bool :=
  forallb (fun kv => match dict_get (fst kv) labels with
                     | Some v => py_eq v (snd kv)
                     | None => false
                     end)
          selector.

(** The selector of a resource is accepted for the labels of a pod object. *)
Definition related_to (it resource : json) : Prop :=
  exists metadata labels spec selector verdict,
    item it "metadata" = Ok metadata /\
    item metadata "labels" = Ok labels /\
    item resource "spec" = Ok spec /\
    item spec "selector" = Ok selector /\
    _is_related labels selector = Ok verdict /\
    truthy verdict = true.

Definition unrelated_to (it resource : json) : Prop :=
  exists metadata labels spec selector verdict,
    item it "metadata" = Ok metadata /\
    item metadata "labels" = Ok labels /\
    item resource "spec" = Ok spec /\
    item spec "selector" = Ok selector /\
    _is_related labels selector = Ok verdict /\
    truthy verdict = false.

(** **** Sample inputs *)

(** A service selecting the database tier of the web application, its keys
    in the order CPython 2.7 enumerates them ('tier' before 'name'), and two
    pods that each carry one of the two labels. *)
Definition web_db_selector : dict :=
  [("tier", JStr "db"); ("name", JStr "web")].

Definition tier_db_labels : dict := [("tier", JStr "db")].

Definition name_web_labels : dict := [("name", JStr "web")].

Definition web_db_service : json :=
  JDict [("metadata", JDict [("name", JStr "service-x1")]);
         ("spec", JDict [("selector", JDict web_db_selector);
                         ("portalIP", JStr "10.254.0.7")])].

Definition db_pod_item : json :=
  JDict [("metadata", JDict [("name", JStr "db-1");
                             ("namespace", JStr "bob-db-pods");
                             ("labels", JDict tier_db_labels)]);
         ("status", JDict [("phase", JStr "Running")]);
         ("spec", JDict [("containers",
                          JList [JDict [("name", JStr "db");
                                        ("image", JStr "postgres")]])])].

(** **** Starting a pod *)

(** A request about a namespace itself: its lookup or its creation. *)
Definition namespace_request (r : Request) : Prop :=
  res r = [] \/ res r = [JStr "namespaces"].

(** **** Resizing and deleting *)

(** The request that [_get_replicas] issues. *)
Definition replicas_request : Request :=
  mkRequest GET [JStr "replicationControllers"] None false false None.


(** The persisted record marked deleted. *)
Definition mark_deleted (r : DbPod) : DbPod :=
  mkDbPod (db_id r) (db_name r) (db_namespace r) (db_owner r) (db_config r)
    (JStr "deleted").

(** **** The merge phase *)

(** No two of the keys are equal. *)
Fixpoint pairwise_distinct (keys : list Key) : bool :=
  match keys with
  | [] => true
  | k :: rest => negb (existsb (key_eq k) rest) && pairwise_distinct rest
  end.

(** The invariant of [self._collection], a dictionary. *)
Definition keys_distinct (c : Collection) : bool :=
  pairwise_distinct (map fst c).

(** The records of a collection stored under a key. *)
Definition records_at (k : Key) (c : Collection) : list Pod :=
  map snd (filter (fun e => key_eq k (fst e)) c).

(** The key of a persisted record. *)
Definition row_key (r : DbPod) : result Key :=
  make_key (db_name r) (db_namespace r).

(** **** Building the spec twice *)

(** Structural equality up to generated identifiers: the name of a volume
    that [add_kdtools] or [add_serviceaccount_stub] injects is its prefix
    followed by a fresh identifier, and is compared by its prefix. *)
Fixpoint erase_generated (v : json) : json :=
  match v with
  | JStr s =>
      if startswith "kdtools-" s then JStr "kdtools-"
      else if startswith "serviceaccount-stub-" s
           then JStr "serviceaccount-stub-"
           else v
  | JList l => JList (map erase_generated l)
  | JDict d => JDict (map (fun '(k, x) => (k, erase_generated x)) d)
  | _ => v
  end.

(** The volumes of the pod template of a workload spec. *)
Definition spec_volumes (spec : json) : option (list json) :=
  match spec with
  | JDict d =>
      match dict_get "spec" d with
      | Some (JDict s) =>
          match dict_get "template" s with
          | Some (JDict t) =>
              match dict_get "spec" t with
              | Some (JDict ts) =>
                  match dict_get "volumes" ts with
                  | Some (JList vols) => Some vols
                  | _ => None
                  end
              | _ => None
              end
          | _ => None
          end
      | _ => None
      end
  | _ => None
  end.

(** A volume and what [extract_volume_annotations] leaves of it. *)
Definition popped_of (v v' : json) : Prop :=
  v' = v \/ exists d, v = JDict d /\ v' = JDict (dict_del "annotation" d).

(** The volumes that a run of [prepare] leaves, from the volumes [popped] of
    their annotations: the tools volume replaced or added, and the stub of the
    service account appended unless a service account is requested. *)
Definition volumes_after (service_account : json) (kept : list json)
  (stub : json) : list json :=
  if negb (truthy service_account) then (kept ++ [stub])%list else kept.

(** The two volumes that [prepare] injects, with the [n]-th identifier. *)
Definition kdtools_volume (n : nat) : json :=
  JDict [("hostPath", JDict [("path", JStr HOST_KDTOOLS_PATH)]);
         ("name", JStr ("kdtools-" ++ uuid4_hex n))].

Definition stub_volume (n : nat) : json :=
  JDict [("emptyDir", JDict []);
         ("name", JStr ("serviceaccount-stub-" ++ uuid4_hex n))].

(** The persisted document of a freshly created pod: one container, an
    empty list of volumes, no service account requested; and the pod that
    [Pod(document)] builds from it. *)
Definition web_document : dict :=
  [("name", JStr "web");
   ("id", JStr "5f0d7c");
   ("sid", JStr "a1b2c3");
   ("namespace", JStr "5f0d7c");
   ("kube_type", JNum 1);
   ("volumes", JList []);
   ("containers",
    JList [JDict [("name", JStr "nginx"); ("image", JStr "nginx")]])].

Definition web_pod : Pod :=
  ([("k8s_status", JNull); ("certificate", JNull)]
   ++ web_document
   ++ [("owner", PodOwner JNull JNull)])%list.

(** **** A sample deployment *)

(** A replication controller of the old API whose selector is the name of
    the pod "web". *)
Definition web_controller : json :=
  JDict [("uid", JStr "rc-uid-1");
         ("id", JStr "web-controller");
         ("currentState", JDict [("replicas", JNum 1)]);
         ("desiredState", JDict [("replicas", JNum 1);
                                 ("replicaSelector", JStr "web")]);
         ("labels", JDict [("name", JStr "web")])].

(** An orchestrator that knows no namespace yet, names the services it
    creates, reports one replication controller and accepts everything. *)
Definition sample_kube (history : list Request) (r : Request) : json :=
  match verb r, res r with
  | GET, [] => JDict [("code", JNum 404)]
  | POST, [JStr "services"] =>
      JDict [("metadata", JDict [("name", JStr "service-k3x9")])]
  | GET, [JStr "replicationControllers"] =>
      JDict [("items", JList [web_controller])]
  | _, _ => JDict [("status", JStr "Success")]
  end.

Definition sample_failure (rv : json) : bool :=
  match rv with
  | JDict d => py_eq (py_get d "status") (JStr "Failure")
  | _ => false
  end.

Definition sample_enrich (vol : dict) (disk : PersistentDisk) : dict :=
  dict_set "rbd" (JDict [("image", disk_name disk)]) vol.

Definition sample_env : Collaborators :=
  {| internal_user_of := "kuberdock-internal";
     api_version_of := "v1";
     storage_prefix_of := JStr "/var/lib/kuberdock/storage";
     default_kube_type_of := JNum 0;
     node_attachable_of := fun _ => true;
     kubes_to_limits_of := fun kubes _ =>
       [("resources", JDict [("limits", JDict [("cpu", JNum (kubes * 250))])])];
     make_name_of := fun image => image;
     shlex_of := fun s => Some [s];
     int_of := fun _ => None;
     dumps_of := fun _ => "<json>";
     loads_of := fun _ => Ok (JDict []);
     str_of := fun _ => "<str>";
     path_join_of := fun _ => Ok (JStr "/var/lib/kuberdock/storage/x");
     uuid_of := fun n => String (ascii_of_nat (97 + n)) "";
     enrich_of := sample_enrich;
     kube_of := sample_kube;
     failure_of := sample_failure;
     node_ips_of := fun _ _ => JBool true;
     merge_lists_of := fun a _ _ => Ok a |}.

(** A container descriptor as the interface sends it. *)
Definition nginx_container : json :=
  JDict [("image", JStr "nginx");
         ("sourceUrl", JStr "hub.docker.com/_/nginx");
         ("kubes", JNum 2);
         ("ports",
          JList [JDict [("containerPort", JNum 80);
                        ("hostPort", JNum 8080);
                        ("isPublic", JBool true);
                        ("protocol", JStr "udp")];
                 JDict [("containerPort", JNum 443)]])].

(** A pod of the user bob. *)
Definition bob_pod : Pod :=
  [("id", JStr "5f0d7c"); ("owner", PodOwner (JNum 1) (JStr "bob"))].

(** A volume declaration that names the persistent disk "data" and its public
    copy, with the disk of bob by that name, deleted or in use. *)
Definition data_volume : json :=
  JDict [("name", JStr "vol1");
         ("persistentDisk", JDict [("pdName", JStr "data");
                                   ("pdSize", JNum 3)])].

Definition deleted_disk : PersistentDisk :=
  mkDisk (JStr "d-7") (JNum 1) (JStr "data") (JNum 1) DELETED.

Definition active_disk : PersistentDisk :=
  mkDisk (JStr "d-7") (JNum 1) (JStr "data") (JNum 1) ACTIVE.

Definition other_disk : PersistentDisk :=
  mkDisk (JStr "d-2") (JNum 1) (JStr "logs") (JNum 2) ACTIVE.

Definition resurrecting : Provisioning :=
  mkProv data_volume data_volume [other_disk; deleted_disk].

Definition conflicting : Provisioning :=
  mkProv data_volume data_volume [other_disk; active_disk].

(** The pod "web" with a published port, as the collection holds it before
    its first start, its persisted record, and the world that holds the
    record. *)
Definition shop_document : dict :=
  [("name", JStr "web");
   ("id", JStr "5f0d7c");
   ("sid", JStr "a1b2c3");
   ("kind", JStr "replicationcontrollers");
   ("namespace", JStr "bob-web-pods");
   ("kube_type", JNum 1);
   ("volumes", JList []);
   ("containers",
    JList [JDict [("name", JStr "nginx");
                  ("image", JStr "nginx");
                  ("ports", JList [JDict [("containerPort", JNum 80);
                                          ("isPublic", JBool true)]])]])].

Definition shop_pod : Pod :=
  ([("k8s_status", JNull); ("certificate", JNull)]
   ++ shop_document
   ++ [("owner", PodOwner JNull JNull)])%list.

Definition shop_row : DbPod :=
  mkDbPod (JStr "5f0d7c") (JStr "web") (JStr "bob-web-pods") (JStr "bob")
    shop_document (JStr "pending").

Definition shop_world : World := mkWorld [] [shop_row] [].

(** A running pod as the orchestrator reports it before any container
    status is known. *)
Definition running_item : json :=
  JDict [("metadata", JDict [("name", JStr "web-x7"); 
                             ("namespace", JStr "bob-web-pods");
                             ("labels", JDict [("name", JStr "web")])]);
         ("status", JDict [("phase", JStr "Running");
                           ("hostIP", JStr "192.168.0.4")]);
         ("spec", JDict [("containers",
                          JList [JDict [("name", JStr "nginx");
                                        ("image", JStr "nginx")];
                                 JDict [("name", JStr "redis");
                                        ("image", JStr "redis")]])])].

(** A running pod as the orchestrator reports it before any container
    status is known, with a container descriptor that carries a ready
    entry. *)
Definition ready_item : json :=
  JDict [("metadata", JDict [("name", JStr "web-x7");
                             ("namespace", JStr "bob-web-pods")]);
         ("status", JDict [("phase", JStr "Running")]);
         ("spec", JDict [("containers",
                          JList [JDict [("name", JStr "nginx");
                                        ("image", JStr "nginx");
                                        ("ready", JBool true)]])])].

(** A service pod of the platform, never started, as [Pod(document)] builds
    it, the same pod once the collection knows its workload, and its
    persisted record. *)
Definition dns_document : dict :=
  [("name", JStr "kuberdock-dns"); ("id", JStr "0d11");
   ("namespace", JStr "kuberdock-internal-kuberdock-dns-pods");
   ("containers", JList []);
   ("owner", JDict [("id", JNum 1); ("username", JStr "kuberdock-internal")])].

Definition dns_pod : Pod :=
  [("k8s_status", JNull); ("certificate", JNull);
   ("name", JStr "kuberdock-dns"); ("id", JStr "0d11");
   ("namespace", JStr "kuberdock-internal-kuberdock-dns-pods");
   ("containers", JList []);
   ("owner", PodOwner (JNum 1) (JStr "kuberdock-internal"))].

Definition running_dns_pod : Pod :=
  setattr (setattr (setattr dns_pod "sid" (JStr "d9e8"))
             "kind" (JStr "replicationcontrollers"))
    "cluster" (JBool false).

Definition dns_row : DbPod :=
  mkDbPod (JStr "0d11") (JStr "kuberdock-dns")
    (JStr "kuberdock-internal-kuberdock-dns-pods") (JStr "kuberdock-internal")
    [("name", JStr "kuberdock-dns"); ("containers", JList [])]
    (JStr "stopped").

Definition dns_collection : Collection :=
  [((HStr "kuberdock-dns", HStr "kuberdock-internal-kuberdock-dns-pods"),
    dns_pod)].

Definition running_dns_collection : Collection :=
  [((HStr "kuberdock-dns", HStr "kuberdock-internal-kuberdock-dns-pods"),
    running_dns_pod)].

Definition dns_world : World := mkWorld [] [dns_row] [].

(* --------------------------------------------------------------------- *)
(** *** Notions used by the properties of the remaining code *)

(** No occurrence of [sep] in [u ++ v] starts inside [u]. *)
Fixpoint no_start (sep u v : string) : bool :=
  match u with
  | EmptyString => true
  | String c u' => negb (startswith sep (u ++ v)) && no_start sep u' v
  end.

(** Runtime fields forged for a container that the orchestrator told
    nothing about: the ids are the name and the image of the container, the
    state is [status], the container is not ready, was never restarted and
    has neither a last state nor a start timestamp. *)
Definition forged_as (status : json) (container : json) : Prop :=
  exists d name image,
    container = JDict d /\
    dict_get "name" d = Some name /\
    dict_get "image" d = Some image /\
    dict_get "containerID" d = Some name /\
    dict_get "imageID" d = Some image /\
    dict_get "lastState" d = Some (JDict []) /\
    dict_get "ready" d = Some (JBool false) /\
    dict_get "restartCount" d = Some (JNum 0) /\
    dict_get "state" d = Some status /\
    dict_get "startedAt" d = Some JNull.

(** The fields that [forge_dockers] writes. *)
Definition forged_fields : list string :=
  ["containerID"; "imageID"; "lastState"; "ready"; "restartCount"; "state";
   "startedAt"].

(** A container descriptor [c] and what forging makes of it: a descriptor
    with forged runtime fields that otherwise reads as [c] does. *)
Definition forged_from (status : json) (c c' : json) : Prop :=
  exists d d',
    c = JDict d /\ c' = JDict d' /\
    forged_as status c' /\
    forall k, ~ In k forged_fields -> dict_get k d' = dict_get k d.

(** The annotation that a volume holds. *)
Definition annotation_of (vol : json) : option json :=
  match vol with
  | JDict d => dict_get "annotation" d
  | _ => None
  end.

(** The volume as the extraction leaves it. *)
Definition without_annotation (vol : json) : json :=
  match vol with
  | JDict d => JDict (dict_del "annotation" d)
  | _ => vol
  end.

(** The volume is a dictionary that holds an annotation. *)
Definition annotated (vol : json) : bool :=
  match annotation_of vol with
  | Some _ => true
  | None => false
  end.

(** How many entries are flagged, and the entries that are not, in order. *)
Definition count_flagged (flags : list bool) : nat :=
  length (filter (fun b => b) flags).

Fixpoint unflagged (l : list json) (flags : list bool) : list json :=
  match l, flags with
  | x :: l', b :: flags' =>
      if b then unflagged l' flags' else x :: unflagged l' flags'
  | _, _ => []
  end.

(** The mount of the tools volume with the [n]-th identifier. *)
Definition kdtools_mount (n : nat) : json :=
  JDict [("readOnly", JBool true);
         ("mountPath", JStr MOUNT_KDTOOLS_PATH);
         ("name", JStr ("kdtools-" ++ uuid4_hex n))].

(** What [add_kdtools] does to a list of volumes or of mounts [l], given as
    [l'] afterwards: the entries whose names have the prefix are one at least
    and no more than before, every other entry is kept in its place, and
    [new] is the last entry. *)
Definition tools_replaced (l l' : list json) (new : json) : Prop :=
  exists flags flags',
    mapM (name_startswith "kdtools-") l = Ok flags /\
    mapM (name_startswith "kdtools-") l' = Ok flags' /\
    count_flagged flags' = Nat.max 1 (count_flagged flags) /\
    unflagged l' flags' = unflagged l flags /\
    last l' JNull = new.

(** A container none of whose mounts is named with the tools prefix. *)
Definition no_tools_mount (container : json) : Prop :=
  forall d mounts,
    container = JDict d ->
    dict_get "volumeMounts" d = Some (JList mounts) ->
    Forall (fun m => name_startswith "kdtools-" m = Ok false) mounts.

(** The mount of the stub of the service account with the [n]-th
    identifier, and the variable that names the service of the pod. *)
Definition stub_mount (n : nat) : json :=
  JDict [("mountPath", JStr SERVICE_ACCOUNT_STUB_PATH);
         ("name", JStr ("serviceaccount-stub-" ++ uuid4_hex n))].

Definition service_variable (service : json) : json :=
  JDict [("name", JStr "KUBERDOCK_SERVICE"); ("value", service)].

(** What [_update_volume_path] makes of one volume: nothing, or, for a
    volume of the given name with a block store that has a volume id, the
    same volume with [vid] added to that id. *)
Definition volume_id_appended (name vid v v' : json) : Prop :=
  v' = v \/
  exists d store old new,
    v = JDict d /\
    py_eq (py_get d "name") name = true /\
    dict_get "awsElasticBlockStore" d = Some (JDict store) /\
    dict_get "volumeID" store = Some old /\
    py_iadd old vid = Ok new /\
    v' = JDict (dict_set "awsElasticBlockStore"
                  (JDict (dict_set "volumeID" new store)) d).

(** **** More sample inputs *)

(** A pod that the orchestrator has accepted but not started yet. *)
Definition pending_item : json :=
  JDict [("metadata", JDict [("name", JStr "web-x7");
                             ("namespace", JStr "bob-web-pods");
                             ("labels", JDict [("name", JStr "web")])]);
         ("status", JDict [("phase", JStr "Pending")]);
         ("spec", JDict [("containers",
                          JList [JDict [("name", JStr "nginx");
                                        ("image", JStr "nginx")]])])].

(** The volumes of the blog of bob: a directory of the node, the tools
    volume of an earlier start, and a network disk. *)
Definition uploads_volume : json :=
  JDict [("name", JStr "uploads");
         ("hostPath",
          JDict [("path", JStr "/var/lib/kuberdock/storage/77aa/uploads")])].

Definition old_tools_volume : json :=
  JDict [("name", JStr "kdtools-ab12");
         ("hostPath", JDict [("path", JStr "/usr/lib/kdtools")])].

Definition disk_volume : json :=
  JDict [("name", JStr "data");
         ("hostPath", JDict [("path", JStr "/mnt/data")]);
         ("rbd", JDict [("image", JStr "data")]);
         ("awsElasticBlockStore", JDict [("volumeID", JStr "aws://zone/")])].

(** The container of the blog as its owner wrote it, and as the
    orchestrator reports it. *)
Definition blog_container : json :=
  JDict [("name", JStr "wordpress");
         ("image", JStr "wordpress");
         ("volumeMounts",
          JList [JDict [("name", JStr "uploads");
                        ("mountPath", JStr "/var/www/uploads:Z")]]);
         ("env", JList [JDict [("name", JStr "WP_DEBUG");
                               ("value", JStr "0")]])].

Definition running_blog_container : json :=
  JDict [("name", JStr "wordpress");
         ("image", JStr "wordpress");
         ("volumeMounts",
          JList [JDict [("name", JStr "uploads");
                        ("mountPath", JStr "/var/www/uploads:Z")];
                 JDict [("name", JStr "kdtools-ab12");
                        ("mountPath", JStr "/.kdtools");
                        ("readOnly", JBool true)]]);
         ("env", JList [JDict [("name", JStr "KUBERDOCK_SERVICE");
                               ("value", JStr "service-k3x9")];
                        JDict [("name", JStr "WP_DEBUG");
                               ("value", JStr "0")]])].

(** The blog as the collection holds it, with a config that its owner has
    edited and not applied yet. *)
Definition blog_pod : Pod :=
  [("k8s_status", JStr "running");
   ("certificate", JNull);
   ("name", JStr "blog");
   ("id", JStr "77aa");
   ("namespace", JStr "77aa");
   ("node", JStr "node1");
   ("labels", JDict [("kuberdock-pod-uid", JStr "77aa")]);
   ("status", JStr "running");
   ("volumes", JList [uploads_volume; old_tools_volume; disk_volume]);
   ("volumes_public",
    JList [JDict [("name", JStr "uploads"); ("localStorage", JBool true)];
           JDict [("name", JStr "data");
                  ("persistentDisk", JDict [("pdName", JStr "data");
                                            ("pdSize", JNum 3)])]]);
   ("containers", JList [running_blog_container]);
   ("edited_config",
    JDict [("name", JStr "blog");
           ("node", JStr "node2");
           ("owner", PodOwner (JNum 1) (JStr "bob"));
           ("containers", JList [blog_container])]);
   ("owner", PodOwner (JNum 1) (JStr "bob"))].

Definition blog_row : DbPod :=
  mkDbPod (JStr "77aa") (JStr "blog") (JStr "77aa") (JStr "bob")
    [("name", JStr "blog"); ("containers", JList [blog_container])]
    (JStr "running").

Definition blog_world : World := mkWorld [] [shop_row; blog_row] [].

(** **** Operations and the persisted layer *)


(** An operation that leaves the world as it is. *)
Definition changes_nothing {A : Type} (m : Op A) : Prop :=
  forall w, snd (m w) = w.


(** The lookup of a namespace and its creation, as [_make_namespace] sends
    them. *)
Definition namespace_lookup (namespace : json) : Request :=
  mkRequest GET [] None false true (Some namespace).

Definition namespace_creation (namespace : json) : Request :=
  mkRequest POST [JStr "namespaces"]
    (Some (json_dumps (JDict [("kind", JStr "Namespace");
                              ("apiVersion", JStr "v1beta3");
                              ("metadata", JDict [("name", namespace)])])))
    true true (Some (JBool false)).

(** The request that lists the namespaces, and the request that removes the
    workload of a pod. *)
Definition namespaces_request : Request :=
  mkRequest GET [JStr "namespaces"] None false true (Some (JBool false)).

Definition workload_removal (kind sid namespace : json) : Request :=
  mkRequest DEL [kind; sid] None false true (Some namespace).

(** An orchestrator that lists three namespaces and otherwise answers as
    the sample one. *)
Definition listing_kube (history : list Request) (r : Request) : json :=
  match verb r, res r with
  | GET, [JStr "namespaces"] =>
      JDict [("items",
              JList [JDict [("metadata", JDict [("name", JStr "bob-web-pods")])];
                     JDict [("metadata", JDict [("name", JStr "ann-db-pods")])];
                     JDict [("metadata", JDict [("name", JStr "bob-notes")])]])]
  | _, _ => sample_kube history r
  end.

(** The sample collaborators with another orchestrator. *)
Definition with_kube (e : Collaborators)
  (k : list Request -> Request -> json) : Collaborators :=
  mkCollaborators (internal_user_of e) (api_version_of e) (storage_prefix_of e)
    (default_kube_type_of e) (node_attachable_of e) (kubes_to_limits_of e)
    (make_name_of e) (shlex_of e) (int_of e) (dumps_of e) (loads_of e)
    (str_of e) (path_join_of e) (uuid_of e) (enrich_of e) k (failure_of e)
    (node_ips_of e) (merge_lists_of e).

Definition listing_env : Collaborators := with_kube sample_env listing_kube.


(* ===================================================================== *)
(** ** Properties *)
(* ===================================================================== *)

(** *** The error monad *)

Lemma bind_Ok {A B : Type} (c : result A) (k : A -> result B) (b : B) :
  bind c k = Ok b -> exists a, c = Ok a /\ k a = Ok b.
Proof. destruct c as [a|e]; simpl; intros H; [eauto | discriminate]. Qed.

(** Invert every hypothesis [bind c k = Ok b]. *)
Ltac inv_bind :=
  repeat match goal with
         | H : bind _ _ = Ok _ |- _ =>
             let x := fresh "x" in
             let E := fresh "E" in
             apply bind_Ok in H; destruct H as (x & E & H)
         | H : Ok _ = Ok _ |- _ => injection H as H; try subst
         | H : Raise _ = Ok _ |- _ => discriminate H
         end.

(** Two runs of the same computation have the same result. *)
Ltac same_results :=
  repeat match goal with
         | H1 : ?c = Ok _, H2 : ?c = Ok _ |- _ =>
             rewrite H1 in H2; injection H2 as H2; try subst
         end.

Lemma mapM_Forall2 {A B : Type} (f : A -> result B) (l : list A) (l' : list B) :
  mapM f l = Ok l' -> Forall2 (fun x y => f x = Ok y) l l'.
Proof.
  revert l'; induction l as [|x l IH]; simpl; intros l' H.
  - injection H as <-. constructor.
  - inv_bind. constructor; auto.
Qed.

Lemma Forall2_mapM {A B : Type} (f : A -> result B) (l : list A) (l' : list B) :
  Forall2 (fun x y => f x = Ok y) l l' -> mapM f l = Ok l'.
Proof.
  induction 1 as [|x y l l' Hxy _ IH]; simpl; [reflexivity|].
  now rewrite Hxy, IH.
Qed.

Lemma mapM_total {A B : Type} (f : A -> result B) (l : list A) :
  Forall (fun x => exists y, f x = Ok y) l -> exists l', mapM f l = Ok l'.
Proof.
  induction 1 as [|x l [y Hy] _ [l' IH]]; simpl; [now exists []|].
  exists (y :: l'). now rewrite Hy, IH.
Qed.

Lemma Forall2_weaken {A B : Type} (P Q : A -> B -> Prop) (l : list A)
  (l' : list B) :
  (forall x y, P x y -> Q x y) -> Forall2 P l l' -> Forall2 Q l l'.
Proof. intros HPQ. induction 1; constructor; auto. Qed.

Lemma Forall2_right {A B : Type} (P : A -> B -> Prop) (Q : B -> Prop)
  (l : list A) (l' : list B) :
  (forall x y, P x y -> Q y) -> Forall2 P l l' -> Forall Q l'.
Proof. intros HPQ. induction 1; constructor; eauto. Qed.

Lemma Forall2_chain {A B C : Type} (P : A -> B -> Prop) (Q : B -> C -> Prop)
  (l : list A) (l1 : list B) (l2 : list C) :
  Forall2 P l l1 -> Forall2 Q l1 l2 ->
  Forall2 (fun x z => exists y, P x y /\ Q y z) l l2.
Proof.
  intros H. revert l2. induction H; intros l2 H2; inversion H2; subst;
    constructor; eauto.
Qed.

(** *** Dictionaries *)

Lemma dict_mem_get (k : string) (d : dict) :
  dict_mem k d = match dict_get k d with Some _ => true | None => false end.
Proof.
  induction d as [|[k' v] d IH]; simpl; [reflexivity|].
  destruct (String.eqb k k'); auto.
Qed.

Lemma dict_get_set_eq (k : string) (v : json) (d : dict) :
  dict_get k (dict_set k v d) = Some v.
Proof.
  induction d as [|[k' v'] d IH]; simpl.
  - now rewrite String.eqb_refl.
  - destruct (String.eqb k k') eqn:E; simpl.
    + now rewrite String.eqb_refl.
    + now rewrite E.
Qed.

Lemma dict_get_set_neq (k k' : string) (v : json) (d : dict) :
  k <> k' -> dict_get k (dict_set k' v d) = dict_get k d.
Proof.
  intros Hne. induction d as [|[k0 v0] d IH]; simpl.
  - destruct (String.eqb_spec k k'); [contradiction | reflexivity].
  - destruct (String.eqb_spec k' k0) as [->|Hk0]; simpl.
    + destruct (String.eqb_spec k k0); [contradiction | reflexivity].
    + destruct (String.eqb k k0); auto.
Qed.

Lemma dict_get_del_eq (k : string) (d : dict) :
  dict_get k (dict_del k d) = None.
Proof.
  unfold dict_del. induction d as [|[k' v] d IH]; simpl; [reflexivity|].
  destruct (String.eqb k k') eqn:E; simpl; [assumption|].
  now rewrite E.
Qed.

Lemma dict_get_del_neq (k k' : string) (d : dict) :
  k <> k' -> dict_get k (dict_del k' d) = dict_get k d.
Proof.
  intros Hne. unfold dict_del.
  induction d as [|[k0 v0] d IH]; simpl; [reflexivity|].
  destruct (String.eqb_spec k' k0) as [->|Hk0]; simpl.
  - destruct (String.eqb_spec k k0); [contradiction | assumption].
  - destruct (String.eqb k k0); auto.
Qed.

Lemma dict_mem_del_eq (k : string) (d : dict) : dict_mem k (dict_del k d) = false.
Proof. now rewrite dict_mem_get, dict_get_del_eq. Qed.

Lemma dict_mem_del_neq (k k' : string) (d : dict) :
  k <> k' -> dict_mem k (dict_del k' d) = dict_mem k d.
Proof. intros H. now rewrite !dict_mem_get, dict_get_del_neq. Qed.

Lemma dict_mem_set_neq (k k' : string) (v : json) (d : dict) :
  k <> k' -> dict_mem k (dict_set k' v d) = dict_mem k d.
Proof. intros H. now rewrite !dict_mem_get, dict_get_set_neq. Qed.

(** A key that [other] does not bind is left alone by [d.update(other)]. *)
Lemma dict_get_update_other (k : string) (other d : dict) :
  dict_get k other = None -> dict_get k (dict_update d other) = dict_get k d.
Proof.
  unfold dict_update. revert d.
  induction other as [|[k' v] other IH]; simpl; intros d H; [reflexivity|].
  destruct (String.eqb_spec k k') as [->|Hne]; [discriminate|].
  rewrite IH by assumption. now apply dict_get_set_neq.
Qed.

(** The last binding of a key in [other] is what [d.update(other)] stores. *)
Lemma dict_get_update_last (k : string) (v : json) (pre post d : dict) :
  dict_get k post = None ->
  dict_get k (dict_update d (pre ++ (k, v) :: post)%list) = Some v.
Proof.
  intros H. unfold dict_update. rewrite fold_left_app. simpl.
  fold (dict_update (dict_set k v (fold_left
          (fun acc kv => dict_set (fst kv) (snd kv) acc) pre d)) post).
  rewrite dict_get_update_other by assumption. apply dict_get_set_eq.
Qed.

(** *** Strings *)

Lemma upper_ascii_idem (c : ascii) : upper_ascii (upper_ascii c) = upper_ascii c.
Proof. destruct c as [[] [] [] [] [] [] [] []]; reflexivity. Qed.

Lemma upper_idem (s : string) : upper (upper s) = upper s.
Proof.
  induction s as [|c s IH]; simpl; [reflexivity|].
  now rewrite upper_ascii_idem, IH.
Qed.

Lemma lower_ascii_idem (c : ascii) : lower_ascii (lower_ascii c) = lower_ascii c.
Proof. destruct c as [[] [] [] [] [] [] [] []]; reflexivity. Qed.

Lemma lower_idem (s : string) : lower (lower s) = lower s.
Proof.
  induction s as [|c s IH]; simpl; [reflexivity|].
  now rewrite lower_ascii_idem, IH.
Qed.

Lemma mapM_app {A B : Type} (f : A -> result B) (l1 l2 : list A) (ys : list B) :
  mapM f (l1 ++ l2) = Ok ys ->
  exists y1 y2, mapM f l1 = Ok y1 /\ mapM f l2 = Ok y2 /\ ys = (y1 ++ y2)%list.
Proof.
  revert ys. induction l1 as [|x l1 IH]; simpl; intros ys H.
  - exists [], ys. auto.
  - inv_bind. destruct (IH _ E0) as (y1 & y2 & H1 & H2 & ->).
    exists (x0 :: y1), y2. rewrite E, H1. auto.
Qed.

Lemma foldM_app {A B : Type} (f : A -> B -> result A) (l1 l2 : list B)
  (a a' : A) :
  foldM f (l1 ++ l2) a = Ok a' ->
  exists a1, foldM f l1 a = Ok a1 /\ foldM f l2 a1 = Ok a'.
Proof.
  revert a. induction l1 as [|x l1 IH]; simpl; intros a H.
  - eauto.
  - inv_bind. destruct (IH _ H) as (a1 & H1 & H2).
    exists a1. rewrite E. auto.
Qed.

(* --------------------------------------------------------------------- *)
(** *** The per-container transform *)

Lemma for_each_port_ports (body : json -> result json) (data data' : dict)
  (ports : list json) :
  for_each_port data body = Ok data' ->
  dict_get "ports" data = Some (JList ports) ->
  exists ports',
    dict_get "ports" data' = Some (JList ports') /\
    Forall2 (fun p p' => body p = Ok p') ports ports'.
Proof.
  unfold for_each_port, get_default. intros H Hp.
  rewrite dict_mem_get, Hp in H. simpl in H. inv_bind.
  exists x0. split; [apply dict_get_set_eq | now apply mapM_Forall2].
Qed.

Lemma for_each_port_other (body : json -> result json) (data data' : dict)
  (k : string) :
  for_each_port data body = Ok data' ->
  k <> "ports" -> dict_get k data' = dict_get k data.
Proof.
  unfold for_each_port. intros H Hk. inv_bind.
  destruct (dict_mem "ports" data); [now apply dict_get_set_neq | reflexivity].
Qed.

Lemma normalize_port_Ok (p p' : json) :
  normalize_port p = Ok p' ->
  exists d proto,
    p = JDict d /\
    get_default d "protocol" (JStr "TCP") = JStr proto /\
    p' = JDict (dict_del "isPublic" (dict_set "protocol" (JStr (upper proto)) d)).
Proof.
  unfold normalize_port, get, upper_of, set_item, discard. intros H.
  destruct p; simpl in H; try discriminate.
  destruct (get_default d "protocol" (JStr "TCP")) eqn:E; simpl in H;
    try discriminate.
  injection H as <-. now exists d, s.
Qed.

Lemma discard_Ok (p p' : json) (k : string) :
  discard p k = Ok p' -> exists d, p = JDict d /\ p' = JDict (dict_del k d).
Proof.
  unfold discard. destruct p; simpl; intros H; try discriminate.
  injection H as <-. eauto.
Qed.

Lemma normalize_port_prepared (p p' : json) :
  normalize_port p = Ok p' ->
  protocol_normalized p p' /\ port_prepared true p'.
Proof.
  intros Hp. apply normalize_port_Ok in Hp.
  destruct Hp as (d & proto & -> & Hproto & ->).
  assert (Hget : dict_get "protocol"
            (dict_del "isPublic" (dict_set "protocol" (JStr (upper proto)) d))
          = Some (JStr (upper proto))).
  { rewrite dict_get_del_neq by discriminate. apply dict_get_set_eq. }
  split.
  - exists d, (dict_del "isPublic" (dict_set "protocol" (JStr (upper proto)) d)),
      proto. auto.
  - exists (dict_del "isPublic" (dict_set "protocol" (JStr (upper proto)) d)),
      (upper proto).
    split; [reflexivity|]. split; [assumption|].
    split; [apply upper_idem|]. split; [apply dict_mem_del_eq | discriminate].
Qed.

Lemma normalize_port_accepted (p : json) :
  port_accepted p -> exists d', normalize_port p = Ok (JDict d').
Proof.
  intros (d & -> & Hproto).
  unfold normalize_port, get, get_default, as_dict. cbn [bind].
  destruct Hproto as [-> | [s ->]]; cbn [upper_of set_item discard bind as_dict];
    eauto.
Qed.

Lemma for_each_port_absent (body : json -> result json) (data data' : dict) :
  for_each_port data body = Ok data' ->
  dict_get "ports" data = None -> data' = data.
Proof.
  unfold for_each_port. rewrite dict_mem_get. intros H Hnone.
  rewrite Hnone in H. now inv_bind.
Qed.

(** The loops over the ports return for a list of accepted ports, and for a
    container without ports. *)
Lemma for_each_port_total (data : dict) (body : json -> result json) :
  (dict_get "ports" data = None \/
   exists ports, dict_get "ports" data = Some (JList ports) /\
                 Forall (fun p => exists p', body p = Ok p') ports) ->
  exists data', for_each_port data body = Ok data'.
Proof.
  unfold for_each_port, get_default. rewrite dict_mem_get.
  intros [-> | (ports & -> & Hports)]; simpl; [eauto|].
  destruct (mapM_total _ _ Hports) as [ports' ->]. simpl. eauto.
Qed.

(** C6.  After the per-container transform the container's
    [imagePullPolicy] is "Always", and every port of its port list has the
    upper-cased protocol of the port it comes from (TCP when that port names
    none), no [isPublic] key, and no [hostPort] key unless the owner of the
    pod is the platform-internal account. *)
Theorem prepare_container_ports (self : Pod) (data kube_type data' : json) :
  _prepare_container self data kube_type = Ok data' ->
  exists limited name d,
    strip_and_limit data kube_type = Ok limited /\
    owner_name self = Ok name /\
    data' = JDict d /\
    dict_get "imagePullPolicy" d = Some (JStr "Always") /\
    forall ports,
      dict_get "ports" limited = Some (JList ports) ->
      exists ports',
        dict_get "ports" d = Some (JList ports') /\
        Forall2 protocol_normalized ports ports' /\
        Forall (port_prepared (py_eq name (JStr KUBERDOCK_INTERNAL_USER)))
               ports'.
Proof.
  unfold _prepare_container. intros H. inv_bind.
  rename x into limited, x0 into normalized, x1 into name, x2 into final.
  exists limited, name, (dict_set "imagePullPolicy" (JStr "Always") final).
  repeat split; auto using dict_get_set_eq.
  intros ports Hports.
  destruct (for_each_port_ports _ _ _ _ E0 Hports) as (ps1 & Hps1 & F1).
  assert (Hnorm : forall p p', normalize_port p = Ok p' ->
            protocol_normalized p p' /\ port_prepared true p')
    by apply normalize_port_prepared.
  rewrite dict_get_set_neq by discriminate.
  destruct (py_eq name (JStr KUBERDOCK_INTERNAL_USER)) eqn:Hint; simpl in E2.
  - injection E2 as <-. exists ps1. split; [assumption|]. split.
    + eapply Forall2_weaken; [|exact F1]. intros p p' Hp. now destruct (Hnorm _ _ Hp).
    + eapply Forall2_right; [|exact F1]. intros p p' Hp. now destruct (Hnorm _ _ Hp).
  - destruct (for_each_port_ports _ _ _ _ E2 Hps1) as (ps2 & Hps2 & F2).
    exists ps2. split; [assumption|].
    pose proof (Forall2_chain _ _ _ _ _ F1 F2) as F.
    assert (Hboth : forall p p2,
              (exists p1, normalize_port p = Ok p1 /\ discard p1 "hostPort" = Ok p2) ->
              protocol_normalized p p2 /\ port_prepared false p2).
    { intros p p2 (p1 & Hp & Hd).
      apply Hnorm in Hp. destruct Hp as [Hn Hprep].
      apply discard_Ok in Hd. destruct Hd as (d1 & -> & ->).
      destruct Hn as (d & d' & proto & -> & Hd' & Hproto & Hget).
      injection Hd' as <-.
      destruct Hprep as (d'' & proto' & Hd'' & Hget' & Hup & Hpub & _).
      injection Hd'' as <-.
      split.
      - exists d, (dict_del "hostPort" d1), proto.
        split; [reflexivity|]. split; [reflexivity|]. split; [assumption|].
        now rewrite dict_get_del_neq by discriminate.
      - exists (dict_del "hostPort" d1), proto'.
        split; [reflexivity|].
        split; [now rewrite dict_get_del_neq by discriminate|].
        split; [assumption|].
        split; [now rewrite dict_mem_del_neq by discriminate|].
        intros _. apply dict_mem_del_eq. }
    split.
    + eapply Forall2_weaken; [|exact F]. intros p p2 Hp. now destruct (Hboth _ _ Hp).
    + eapply Forall2_right; [|exact F]. intros p p2 Hp. now destruct (Hboth _ _ Hp).
Qed.

(** The transform returns for every descriptor whose first half returns and
    whose ports, if any, are a list of accepted ports, for a pod with an
    owner name. *)
Lemma prepare_container_returns (self : Pod) (data kube_type name : json)
  (limited : dict) :
  strip_and_limit data kube_type = Ok limited ->
  owner_name self = Ok name ->
  (dict_get "ports" limited = None \/
   exists ports, dict_get "ports" limited = Some (JList ports) /\
                 Forall port_accepted ports) ->
  exists data', _prepare_container self data kube_type = Ok data'.
Proof.
  intros Hlim Hname Hports. unfold _prepare_container.
  rewrite Hlim. cbn [bind].
  destruct (for_each_port_total limited normalize_port) as [normalized Hn].
  { destruct Hports as [Hnone | (ports & Hsome & Hacc)]; [now left|].
    right. exists ports. split; [assumption|].
    eapply Forall_impl; [|exact Hacc].
    intros p Hp. destruct (normalize_port_accepted _ Hp) as [d' Hd']. eauto. }
  rewrite Hn. cbn [bind]. rewrite Hname. cbn [bind].
  destruct (negb (py_eq name (JStr KUBERDOCK_INTERNAL_USER))); cbn [bind];
    [|eauto].
  destruct (for_each_port_total normalized (fun p => discard p "hostPort"))
    as [final Hf]; [|rewrite Hf; cbn [bind]; eauto].
  destruct Hports as [Hnone | (ports & Hsome & Hacc)].
  - left. now rewrite (for_each_port_absent _ _ _ Hn Hnone).
  - destruct (for_each_port_ports _ _ _ _ Hn Hsome) as (ports' & Hp' & F).
    right. exists ports'. split; [assumption|].
    eapply Forall2_right; [|exact F].
    intros p p' Hp. apply normalize_port_Ok in Hp.
    destruct Hp as (d & proto & _ & _ & ->).
    unfold discard. cbn [as_dict bind]. eauto.
Qed.

(* --------------------------------------------------------------------- *)
(** *** Observation parsing *)

Lemma getattr_setattr_eq (self : Pod) (a : string) (v : json) :
  getattr (setattr self a v) a = Ok v.
Proof. unfold getattr, setattr. now rewrite dict_get_set_eq. Qed.

Lemma getattr_setattr_neq (self : Pod) (a b : string) (v : json) :
  a <> b -> getattr (setattr self b v) a = getattr self a.
Proof. intros H. unfold getattr, setattr. now rewrite dict_get_set_neq. Qed.

Lemma hasattr_setattr_neq (self : Pod) (a b : string) (v : json) :
  a <> b -> hasattr (setattr self b v) a = hasattr self a.
Proof. intros H. unfold hasattr, setattr. now apply dict_mem_set_neq. Qed.

(** Reading an attribute through the assignments made after it. *)
Ltac read_attr :=
  repeat first
    [ rewrite getattr_setattr_eq
    | rewrite getattr_setattr_neq by discriminate ].

Lemma all_ready_dicts (cs : list json) :
  Forall (fun c => exists d, c = JDict d) cs ->
  all_ready cs = Ok (forallb reports_ready cs).
Proof.
  induction 1 as [|c cs [d ->] _ IH]; simpl; [reflexivity|].
  unfold py_get. destruct (truthy (get_default d "ready" JNull)); auto.
Qed.

Lemma set_phase_only_Ok (phase : string) (c c' : json) :
  set_phase_only phase c = Ok c' ->
  phase_only phase c' /\ reports_ready c' = reports_ready c.
Proof.
  unfold set_phase_only. destruct c; simpl; try discriminate.
  intros H. injection H as <-. split.
  - eexists. split; [reflexivity|].
    rewrite !dict_get_set_neq by discriminate.
    rewrite !dict_get_set_eq.
    rewrite dict_get_set_neq by discriminate.
    now rewrite dict_get_set_eq.
  - unfold reports_ready, py_get, get_default.
    now rewrite !dict_get_set_neq by discriminate.
Qed.

Lemma set_phase_only_from (phase : string) (c c' : json) :
  set_phase_only phase c = Ok c' -> phase_only_from phase c c'.
Proof.
  intros H. destruct (set_phase_only_Ok _ _ _ H) as [Hphase _].
  unfold set_phase_only in H. destruct c; simpl in H; try discriminate.
  injection H as <-.
  eexists d, _. split; [reflexivity|]. split; [reflexivity|].
  split; [exact Hphase|].
  intros k Hstate Hcid Hiid. now rewrite !dict_get_set_neq by assumption.
Qed.

Lemma for_each_set_phase_only (phase : string) (containers containers' : json)
  (cs : list json) :
  for_each containers (set_phase_only phase) = Ok containers' ->
  iter containers = Ok cs ->
  exists cs',
    iter containers' = Ok cs' /\
    Forall2 (fun c c' => set_phase_only phase c = Ok c') cs cs'.
Proof.
  unfold for_each. intros H Hit.
  destruct containers; simpl in *; try discriminate; inv_bind.
  - (* a string: no character can be assigned to *)
    destruct s; simpl in *; [|discriminate].
    exists []. split; [reflexivity | constructor].
  - exists x. split; [reflexivity|]. now apply mapM_Forall2.
  - destruct d as [|[k v] d]; simpl in *; [|discriminate].
    exists []. split; [reflexivity | constructor].
Qed.

Lemma for_each_iter (body : json -> result json) (v v' : json) :
  for_each v body = Ok v' -> exists l, iter v = Ok l.
Proof.
  unfold for_each. destruct v; simpl; intros H; inv_bind; eauto; discriminate.
Qed.

(** C5.  For a raw orchestrator pod object whose phase is running, succeeded
    or failed and whose status carries no per-container status entries,
    [populate] keeps the containers that the spec of the object lists, one for
    one and in their order, gives each the lower-cased phase as its state and
    null [containerID] and [imageID], and leaves every other entry of a
    container, its [ready] entry too, as the orchestrator sent it.  The
    [ready] flag of the pod is true exactly when every container reports
    ready, that is when every container descriptor of the object already
    carries a true [ready] entry: with at least one container the flag is
    false when no descriptor carries such an entry, and not otherwise. *)
Theorem populate_without_container_statuses (data status entries : json)
  (pod : Pod) (raw_phase : string) :
  populate data = Ok pod ->
  get data "status" (JDict []) = Ok status ->
  get status "phase" (JStr POD_STATUSES_pending) = Ok (JStr raw_phase) ->
  in_tuple (JStr (lower raw_phase))
    [JStr POD_STATUSES_running; JStr POD_STATUSES_succeeded;
     JStr POD_STATUSES_failed] = true ->
  get status "containerStatuses" (JList []) = Ok entries ->
  truthy entries = false ->
  exists spec described cs containers cs',
    get data "spec" (JDict []) = Ok spec /\
    get spec "containers" (JList []) = Ok described /\
    iter described = Ok cs /\
    getattr pod "status" = Ok (JStr (lower raw_phase)) /\
    getattr pod "containers" = Ok containers /\
    iter containers = Ok cs' /\
    length cs' = length cs /\
    Forall (phase_only (lower raw_phase)) cs' /\
    Forall2 (phase_only_from (lower raw_phase)) cs cs' /\
    getattr pod "ready" = Ok (JBool (forallb reports_ready cs')) /\
    getattr pod "ready" = Ok (JBool (forallb reports_ready cs)) /\
    (cs <> [] -> Forall (fun c => reports_ready c = false) cs ->
     getattr pod "ready" = Ok (JBool false)) /\
    (Forall (fun c => reports_ready c = true) cs ->
     getattr pod "ready" = Ok (JBool true)).
Proof.
  unfold populate. intros H Hstatus Hphase Hin Hentries Hnone.
  inv_bind. same_results.
  match goal with
  | H : lower_of _ = Ok _ |- _ => simpl in H; injection H as <-
  end.
  match goal with
  | H : (if in_tuple _ _ then _ else _) = Ok _ |- _ => rewrite Hin in H
  end.
  inv_bind.
  same_results. rewrite Hnone in *.
  inv_bind.
  match goal with
  | H : getattr (setattr _ "containers" _) "containers" = Ok _ |- _ =>
      rewrite getattr_setattr_eq in H; injection H as <-
  end.
  match goal with
  | Hf : for_each ?c _ = Ok ?c', Hg : get _ "containers" _ = Ok ?c |- _ =>
      rename c into described, c' into containers, Hf into Hfor, Hg into Hdesc
  end.
  destruct (for_each_iter _ _ _ Hfor) as (cs & Hcs).
  destruct (for_each_set_phase_only _ _ _ _ Hfor Hcs) as (cs' & Hcs' & F).
  same_results.
  assert (Hphases : Forall (phase_only (lower raw_phase)) cs').
  { eapply Forall2_right; [|exact F].
    intros c c' Hc. now destruct (set_phase_only_Ok _ _ _ Hc). }
  assert (Hfrom : Forall2 (phase_only_from (lower raw_phase)) cs cs').
  { eapply Forall2_impl; [|exact F].
    intros c c' Hc. now apply set_phase_only_from. }
  assert (Hready : forallb reports_ready cs' = forallb reports_ready cs).
  { clear -F. induction F as [|c c' cs cs' Hc _ IH]; simpl; [reflexivity|].
    destruct (set_phase_only_Ok _ _ _ Hc) as [_ ->]. now rewrite IH. }
  match goal with
  | H : all_ready cs' = Ok _ |- _ =>
      rewrite all_ready_dicts in H;
      [ injection H as <-
      | eapply Forall_impl; [|exact Hphases];
        intros c (d & -> & _); eauto ]
  end.
  match goal with
  | H : get data "spec" _ = Ok ?s |- _ => exists s, described, cs, containers, cs'
  end.
  repeat split; auto.
  - now read_attr.
  - now read_attr.
  - symmetry. eapply Forall2_length; eauto.
  - now read_attr.
  - read_attr. now rewrite Hready.
  - intros Hne Hnot. read_attr. rewrite Hready.
    destruct cs as [|c cs]; [contradiction|].
    inversion Hnot as [|? ? Hc _]; subst. simpl. now rewrite Hc.
  - intros Hall. read_attr. rewrite Hready.
    assert (Htrue : forallb reports_ready cs = true)
      by (apply forallb_forall; now apply Forall_forall).
    now rewrite Htrue.
Qed.

(* --------------------------------------------------------------------- *)
(** *** Volume provisioning *)

Lemma find_disk_nth (owner_id name : json) (ds : Disks) (start i : nat)
  (d : PersistentDisk) :
  find_disk owner_id name ds start = Some (i, d) ->
  (start <= i)%nat /\ nth_error ds (i - start) = Some d.
Proof.
  revert start. induction ds as [|d0 ds IH]; simpl; intros start H;
    [discriminate|].
  destruct (py_eq (disk_owner_id d0) owner_id && py_eq (disk_name d0) name).
  - injection H as <- <-. split; [lia|]. now rewrite Nat.sub_diag.
  - apply IH in H. destruct H as [Hle Hnth]. split; [lia|].
    replace (i - start)%nat with (S (i - S start)) by lia. exact Hnth.
Qed.

Lemma nth_update_disk (i : nat) (f : PersistentDisk -> PersistentDisk)
  (ds : Disks) (d : PersistentDisk) :
  nth_error ds i = Some d -> nth_error (update_disk i f ds) i = Some (f d).
Proof.
  revert i. induction ds as [|d0 ds IH]; intros [|i]; simpl; try discriminate.
  - now intros [= ->].
  - apply IH.
Qed.

(** C3 (amended).  When the persistent disk that a volume declaration names
    already exists for the owner: a DELETED disk is resurrected with the
    requested size (1 when none is requested) in PENDING state; a disk in
    any other state, when reuse was not requested, makes provisioning fail
    with [VolumeExists] carrying the name and id of that disk, with the disk
    rows and the public copy of the volume unchanged and no storage fields
    added, the orchestrator-facing volume having lost only its
    [persistentDisk] entry, which is popped before the lookup. *)
Theorem handle_persistent_storage_existing (self : Pod) (st : Provisioning)
  (reuse_pv : bool) (vol : dict) (pd owner owner_id name : json) (i : nat)
  (disk : PersistentDisk) :
  volume st = JDict vol ->
  dict_get "persistentDisk" vol = Some pd ->
  get pd "pdName" JNull = Ok name ->
  getattr self "owner" = Ok owner ->
  attribute owner "id" = Ok owner_id ->
  find_disk owner_id name (disks st) 0 = Some (i, disk) ->
  (disk_state disk = DELETED ->
   exists size,
     get pd "pdSize" (JNum 1) = Ok size /\
     nth_error (disks (snd (_handle_persistent_storage self st reuse_pv))) i
     = Some (mkDisk (disk_id disk) (disk_owner_id disk) (disk_name disk)
               size PENDING) /\
     forall public public_pd,
       volume_public st = JDict public ->
       dict_get "persistentDisk" public = Some (JDict public_pd) ->
       fst (_handle_persistent_storage self st reuse_pv) = Ok tt)
  /\
  (disk_state disk <> DELETED -> reuse_pv = false ->
   fst (_handle_persistent_storage self st reuse_pv)
   = Raise (VolumeExists (disk_name disk) (disk_id disk)) /\
   disks (snd (_handle_persistent_storage self st reuse_pv)) = disks st /\
   volume_public (snd (_handle_persistent_storage self st reuse_pv))
   = volume_public st /\
   volume (snd (_handle_persistent_storage self st reuse_pv))
   = JDict (dict_del "persistentDisk" vol)).
Proof.
  intros Hvol Hpd Hname Howner Hid Hfind.
  destruct (find_disk_nth _ _ _ _ _ _ Hfind) as [_ Hnth].
  rewrite Nat.sub_0_r in Hnth.
  remember (_handle_persistent_storage self st reuse_pv) as r eqn:Hr.
  unfold _handle_persistent_storage in Hr.
  rewrite Hvol in Hr. cbn [as_dict] in Hr.
  unfold subscript in Hr. rewrite Hpd in Hr.
  cbn [volume volume_public disks] in Hr.
  rewrite Hname, Howner in Hr. cbn [bind] in Hr. rewrite Hid, Hfind in Hr.
  assert (Hsize : get pd "pdSize" (JNum 1)
                  = Ok (match pd with
                        | JDict d => get_default d "pdSize" (JNum 1)
                        | _ => JNull
                        end)).
  { destruct pd; try discriminate. reflexivity. }
  split.
  - intros Hdel. rewrite Hdel, Hsize in Hr. cbn [state_eqb bind] in Hr.
    eexists. split; [exact Hsize|].
    set (disk' := set_state PENDING (set_size _ disk)) in Hr.
    assert (Hnth' : nth_error (update_disk i (fun _ => disk') (disks st)) i
                    = Some disk')
      by now apply (nth_update_disk i (fun _ => disk') _ _ Hnth).
    split.
    + destruct (do public_pd <- item (volume_public st) "persistentDisk"; _)
        in Hr; subst r; exact Hnth'.
    + intros public public_pd Hpub Hppd. rewrite Hpub in Hr.
      cbn [item] in Hr. unfold subscript in Hr. rewrite Hppd in Hr.
      cbn [bind get as_dict] in Hr.
      destruct (get_default public_pd "pdSize" JNull); subst r; reflexivity.
  - intros Hnot ->.
    assert (Hs : state_eqb (disk_state disk) DELETED = false).
    { destruct (disk_state disk); try reflexivity. now contradiction Hnot. }
    rewrite Hs in Hr. cbn [negb bind] in Hr. subst r. auto.
Qed.

(* --------------------------------------------------------------------- *)
(** *** Correlation by labels *)

(** The verdict of [_is_related] is decided by the key of the selector that
    is enumerated first. *)
Lemma is_related_first_key (labels rest : dict) (k : string) (v : json) :
  _is_related (JDict labels) (JDict ((k, v) :: rest))
  = Ok (JBool (match dict_get k labels with
               | Some v' => py_eq v' v
               | None => false
               end)).
Proof.
  unfold _is_related, contains, item, subscript. cbn [bind].
  rewrite dict_mem_get.
  destruct (dict_get k labels) as [v'|]; simpl; [|reflexivity].
  now destruct (py_eq v' v).
Qed.

(** Labels that are a list or a text: a key that is no member of them is
    not accepted, and a key that is one cannot be looked up. *)
Lemma is_related_not_a_mapping (one : json) (rest : dict) (k : string)
  (v : json) :
  (exists l, one = JList l) \/ (exists s, one = JStr s) ->
  _is_related one (JDict ((k, v) :: rest))
  = match contains one k with
    | Ok true => Raise TypeError
    | Ok false => Ok (JBool false)
    | Raise e => Raise e
    end.
Proof.
  intros [[l ->] | [s ->]]; unfold _is_related; simpl;
    match goal with |- context [negb ?b] => now destruct b end.
Qed.

(** A selector that matches as a subset is accepted, when it has a key. *)
Lemma is_related_of_match (labels rest : dict) (k : string) (v : json) :
  selector_matches labels ((k, v) :: rest) = true ->
  _is_related (JDict labels) (JDict ((k, v) :: rest)) = Ok (JBool true).
Proof.
  rewrite is_related_first_key. simpl.
  destruct (dict_get k labels) as [v'|]; [|discriminate].
  now destruct (py_eq v' v).
Qed.

(** First match wins: the resource that the correlation loop returns is
    accepted by [_is_related], and none of those enumerated before it is. *)
Lemma first_related_first (it r : json) (resources : list json) :
  first_related it resources = Ok (Some r) ->
  exists before after,
    resources = (before ++ r :: after)%list /\
    related_to it r /\
    Forall (unrelated_to it) before.
Proof.
  induction resources as [|r0 rs IH]; simpl; intros H; [discriminate|].
  inv_bind. destruct (truthy x3) eqn:Ht.
  - injection H as <-. exists [], rs. split; [reflexivity|]. split.
    + now exists x, x0, x1, x2, x3.
    + constructor.
  - destruct (IH H) as (before & after & -> & Hrel & Hun).
    exists (r0 :: before), after. split; [reflexivity|]. split; [assumption|].
    constructor; [|assumption]. now exists x, x0, x1, x2, x3.
Qed.

(** C1.  [_is_related] looks at one key of the selector only, the one
    enumerated first: a pod that carries the label tier=db alone is accepted
    for the selector {name: web, tier: db}, of which it is not a label-subset
    match, and the correlation loop of [_get_pods] gives it that service;
    were 'name' enumerated first, the pod labelled name=web alone would be
    accepted instead.  The empty selector, a subset of any labels, is not
    accepted. *)
Theorem is_related_checks_first_key_only :
  selector_matches tier_db_labels web_db_selector = false /\
  _is_related (JDict tier_db_labels) (JDict web_db_selector) = Ok (JBool true) /\
  first_related db_pod_item [web_db_service] = Ok (Some web_db_service) /\
  selector_matches name_web_labels (rev web_db_selector) = false /\
  _is_related (JDict name_web_labels) (JDict (rev web_db_selector))
  = Ok (JBool true) /\
  selector_matches tier_db_labels [] = true /\
  _is_related (JDict tier_db_labels) (JDict []) = Ok JNull.
Proof. repeat split. Qed.

(* --------------------------------------------------------------------- *)
(** *** Operations in a world *)

Lemma bindO_Ok {A B : Type} (m : Op A) (k : A -> Op B) (w w' : World) (a : A) :
  m w = (Ok a, w') -> bindO m k w = k a w'.
Proof. unfold bindO. now intros ->. Qed.

Lemma bindO_Raise {A B : Type} (m : Op A) (k : A -> Op B) (w w' : World)
  (e : exn) :
  m w = (Raise e, w') -> bindO m k w = (Raise e, w').
Proof. unfold bindO. now intros ->. Qed.

Lemma bindO_lift_Ok {A B : Type} (r : result A) (k : A -> Op B) (w : World)
  (a : A) :
  r = Ok a -> bindO (lift r) k w = k a w.
Proof. intros ->. reflexivity. Qed.

Lemma bindO_lift_Raise {A B : Type} (r : result A) (k : A -> Op B) (w : World)
  (e : exn) :
  r = Raise e -> bindO (lift r) k w = (Raise e, w).
Proof. intros ->. reflexivity. Qed.

(** A request is answered and recorded, whatever it is. *)
Lemma request_run (r : Request) (w : World) :
  request r w = (Ok (kube (requests w) r),
                 mkWorld (requests w ++ [r])%list (db_pods w) (net_calls w)).
Proof. reflexivity. Qed.

Lemma get_replicas_world (name : json) (w : World) :
  snd (_get_replicas name w)
  = mkWorld (requests w ++ [replicas_request])%list (db_pods w) (net_calls w).
Proof.
  unfold _get_replicas, _get, bindO at 1. rewrite request_run.
  unfold bindO, lift.
  destruct (item _ "items"); [|reflexivity].
  destruct (iter a); [|reflexivity].
  reflexivity.
Qed.

(** No method of that name: the call raises and changes nothing. *)
Lemma missing_method_raises {A : Type} (self : Pod) (name : string) :
  exists e, missing_method (A := A) self name = Raise e /\
            (hasattr self name = false -> e = AttributeError name).
Proof.
  unfold missing_method, hasattr. rewrite dict_mem_get.
  destruct (dict_get name self); eexists; split; eauto; discriminate.
Qed.

Lemma get_config_run (pod : Pod) (param : string) (w : World) :
  exists e, get_config pod param w = (Raise e, w) /\
            (hasattr pod "get_config" = false ->
             e = AttributeError "get_config").
Proof.
  unfold get_config, lift.
  destruct (missing_method_raises (A := json) pod "get_config") as (e & -> & He).
  eauto.
Qed.

Lemma ret_run {A : Type} (a : A) (w : World) : ret a w = (Ok a, w).
Proof. reflexivity. Qed.

(** C8.  Whenever the lookup of [_get_replicas] yields at least one
    controller for the name of the pod, [_resize_replicas] raises [TypeError]
    while it builds the body of the first update ([json.loads] of a
    dictionary): the only request issued is the lookup, no replica count is
    updated and no number of controllers is returned. *)
Theorem resize_replicas_raises (pod : Pod) (data requested name : json)
  (number : Z) (w : World) (replica : dict) (others : list dict) :
  get data "replicas" (get_default pod "replicas" (JNum 0)) = Ok requested ->
  py_int requested = Ok number ->
  getattr pod "name" = Ok name ->
  fst (_get_replicas name w) = Ok (replica :: others) ->
  fst (_resize_replicas pod data w) = Raise TypeError /\
  requests (snd (_resize_replicas pod data w))
  = (requests w ++ [replicas_request])%list.
Proof.
  intros Hreq Hint Hname Hfound.
  unfold _resize_replicas.
  rewrite (bindO_lift_Ok _ _ _ _ Hreq), (bindO_lift_Ok _ _ _ _ Hint),
    (bindO_lift_Ok _ _ _ _ Hname).
  pose proof (get_replicas_world name w) as Hw.
  destruct (_get_replicas name w) as [found w1] eqn:Hrun.
  simpl in Hfound, Hw. subst found w1.
  rewrite (bindO_Ok _ _ _ _ _ Hrun).
  split; reflexivity.
Qed.

(** C10.  For a pod record without a [sid] attribute, [_stop_pod] issues no
    request, leaves the persisted layer as it is, assigns "stopped" to the
    [status] attribute of the record and to nothing else, and returns [None];
    for a record with a [sid], whenever it returns, it returns the dictionary
    {'status': 'stopped'}. *)
Theorem stop_pod_without_sid (pod : Pod) (w : World) :
  hasattr pod "sid" = false ->
  snd (_stop_pod pod) w = (Ok JNull, w) /\
  getattr (fst (_stop_pod pod)) "status" = Ok (JStr "stopped") /\
  (forall a, a <> "status" ->
             dict_get a (fst (_stop_pod pod)) = dict_get a pod) /\
  (forall pod' w' w'' v,
      hasattr pod' "sid" = true ->
      snd (_stop_pod pod') w' = (Ok v, w'') ->
      v = JDict [("status", JStr "stopped")]).
Proof.
  intros Hsid. unfold _stop_pod. simpl fst. simpl snd.
  rewrite hasattr_setattr_neq by discriminate. rewrite Hsid.
  split; [reflexivity|]. split; [apply getattr_setattr_eq|]. split.
  - intros a Ha. unfold setattr. now apply dict_get_set_neq.
  - intros pod' w' w'' v Hsid'.
    rewrite hasattr_setattr_neq by discriminate. rewrite Hsid'.
    unfold bindO, lift, ret.
    repeat match goal with
           | |- context [match ?c with _ => _ end] =>
               match c with
               | (_, _) => fail 1
               | _ => destruct c eqn:?
               end
           end; intros H; inversion H; reflexivity.
Qed.
Lemma getattr_hasattr (pod : Pod) (a : string) (v : json) :
  getattr pod a = Ok v -> hasattr pod a = true.
Proof.
  unfold getattr, hasattr. rewrite dict_mem_get.
  now destruct (dict_get a pod).
Qed.

(** The teardown of a pod that the collection never started stops at the
    lookup of its service name. *)
Lemma teardown_not_started (pod : Pod) (pod_id : json) (w : World) :
  hasattr pod "sid" = false ->
  hasattr pod "get_config" = false ->
  teardown pod pod_id w = (Raise (AttributeError "get_config"), w).
Proof.
  intros Hsid Hmethod. unfold teardown. rewrite Hsid.
  rewrite (bindO_Ok _ _ _ _ _ (ret_run tt w)).
  destruct (get_config_run pod "service" w) as (e & Hrun & He).
  rewrite (bindO_Raise _ _ _ _ _ Hrun). now rewrite (He Hmethod).
Qed.

(** The teardown of a started pod removes the workload first and then stops
    at the lookup of the service name. *)
Lemma teardown_started (pod : Pod) (pod_id kind sid namespace cluster : json)
  (w : World) :
  getattr pod "kind" = Ok kind ->
  getattr pod "sid" = Ok sid ->
  getattr pod "namespace" = Ok namespace ->
  getattr pod "cluster" = Ok cluster ->
  truthy cluster = false ->
  is_failure (kube (requests w) (workload_removal kind sid namespace)) = false ->
  hasattr pod "get_config" = false ->
  teardown pod pod_id w
  = (Raise (AttributeError "get_config"),
     mkWorld (requests w ++ [workload_removal kind sid namespace])%list
       (db_pods w) (net_calls w)).
Proof.
  intros Hkind Hsid Hns Hcluster Hfalsy Hremoved Hmethod.
  unfold teardown. rewrite (getattr_hasattr _ _ _ Hsid).
  set (w' := mkWorld (requests w ++ [workload_removal kind sid namespace])%list
               (db_pods w) (net_calls w)).
  assert (Hfirst :
            (run kind <- lift (getattr pod "kind");
             run sid <- lift (getattr pod "sid");
             run namespace <- lift (getattr pod "namespace");
             run rv <- _del [kind; sid] (Some namespace);
             run _ <- _raise_if_failure rv "Could not remove a pod";
             run cluster <- lift (getattr pod "cluster");
             if truthy cluster then _stop_cluster pod else ret tt) w
            = (Ok tt, w')).
  { rewrite (bindO_lift_Ok _ _ _ _ Hkind), (bindO_lift_Ok _ _ _ _ Hsid),
      (bindO_lift_Ok _ _ _ _ Hns).
    unfold _del. unfold bindO at 1. rewrite request_run.
    fold (workload_removal kind sid namespace). fold w'.
    unfold _raise_if_failure. rewrite Hremoved.
    rewrite (bindO_Ok _ _ _ _ _ (ret_run tt w')).
    rewrite (bindO_lift_Ok _ _ _ _ Hcluster), Hfalsy. reflexivity. }
  rewrite (bindO_Ok _ _ _ _ _ Hfirst).
  destruct (get_config_run pod "service" w') as (e & Hrun & He).
  rewrite (bindO_Raise _ _ _ _ _ Hrun). now rewrite (He Hmethod).
Qed.

(** C9.  A pod holds its owner as the [PodOwner] that [Pod.__init__] stores,
    and [delete] compares that object with the name of the platform-internal
    user: the two are never equal, so for a pod owned by the internal user the
    guard does not fire and [delete] runs the same teardown with and without
    force.  Without force, a pod that was never started comes to the lookup
    of the service name, [pod.get_config], which the class does not define,
    and the call ends with that attribute error instead of the refusal; a
    started pod has its workload removed from the orchestrator before the
    same error. *)
Theorem delete_internal_pod_unguarded (collection : Collection)
  (pod_id : json) (pod : Pod) (w : World) (id : json) :
  get_by_id collection pod_id w = (Ok pod, w) ->
  getattr pod "owner" = Ok (PodOwner id (JStr KUBERDOCK_INTERNAL_USER)) ->
  (forall force, delete collection pod_id force w = teardown pod pod_id w) /\
  (hasattr pod "sid" = false ->
   hasattr pod "get_config" = false ->
   delete collection pod_id false w
   = (Raise (AttributeError "get_config"), w)) /\
  (forall kind sid namespace cluster,
      getattr pod "kind" = Ok kind ->
      getattr pod "sid" = Ok sid ->
      getattr pod "namespace" = Ok namespace ->
      getattr pod "cluster" = Ok cluster ->
      truthy cluster = false ->
      is_failure (kube (requests w) (workload_removal kind sid namespace))
      = false ->
      hasattr pod "get_config" = false ->
      delete collection pod_id false w
      = (Raise (AttributeError "get_config"),
         mkWorld (requests w ++ [workload_removal kind sid namespace])%list
           (db_pods w) (net_calls w))).
Proof.
  intros Hfound Howner.
  assert (Hguard : forall force,
             delete collection pod_id force w = teardown pod pod_id w).
  { intros force. unfold delete.
    rewrite (bindO_Ok _ _ _ _ _ Hfound), (bindO_lift_Ok _ _ _ _ Howner).
    unfold PodOwner. cbn [py_eq andb].
    now rewrite (bindO_Ok _ _ _ _ _ (ret_run tt w)). }
  split; [exact Hguard|]. split.
  - intros Hsid Hmethod. rewrite Hguard. now apply teardown_not_started.
  - intros kind sid namespace cluster Hkind Hsid Hns Hcluster Hfalsy Hremoved
      Hmethod.
    rewrite Hguard. now apply (teardown_started pod pod_id kind sid namespace cluster).
Qed.

(* --------------------------------------------------------------------- *)
(** *** Starting a pod *)

Lemma get_namespace_run (namespace : json) (w : World) :
  let lookup := mkRequest GET [] None false true (Some namespace) in
  _get_namespace namespace w
  = (match get (kube (requests w) lookup) "code" JNull with
     | Ok code => Ok (if py_eq code (JNum 404) then JNull
                      else kube (requests w) lookup)
     | Raise e => Raise e
     end,
     mkWorld (requests w ++ [lookup])%list (db_pods w) (net_calls w)).
Proof.
  simpl. unfold _get_namespace, _get, bindO at 1. rewrite request_run.
  unfold bindO, lift.
  destruct (get _ "code" JNull) as [code|e]; [|reflexivity].
  now destruct (py_eq code (JNum 404)).
Qed.

Lemma make_namespace_world (namespace : json) (w : World) :
  exists nsreqs,
    requests (snd (_make_namespace namespace w)) = (requests w ++ nsreqs)%list /\
    Forall namespace_request nsreqs /\
    db_pods (snd (_make_namespace namespace w)) = db_pods w.
Proof.
  remember (_make_namespace namespace w) as r eqn:Hr.
  unfold _make_namespace, bindO in Hr. rewrite get_namespace_run in Hr.
  unfold _post, ret, request in Hr.
  cbn [requests db_pods net_calls] in Hr.
  set (lookup := mkRequest GET [] None false true (Some namespace)) in *.
  set (create := mkRequest POST [JStr "namespaces"]
                   (Some (json_dumps
                            (JDict [("kind", JStr "Namespace");
                                    ("apiVersion", JStr "v1beta3");
                                    ("metadata", JDict [("name", namespace)])])))
                   true true (Some (JBool false))) in *.
  assert (Hlookup : namespace_request lookup) by now left.
  assert (Hcreate : namespace_request create) by now right.
  assert (Hone : exists nsreqs,
             (requests w ++ [lookup])%list = (requests w ++ nsreqs)%list /\
             Forall namespace_request nsreqs /\ db_pods w = db_pods w).
  { exists [lookup]. repeat split; auto. }
  assert (Htwo : exists nsreqs,
             ((requests w ++ [lookup]) ++ [create])%list
             = (requests w ++ nsreqs)%list /\
             Forall namespace_request nsreqs /\ db_pods w = db_pods w).
  { exists [lookup; create]. rewrite <- app_assoc. repeat split; auto. }
  destruct (get _ "code" JNull) as [code|e]; [|subst r; exact Hone].
  destruct (py_eq code (JNum 404)); [subst r; exact Htwo|].
  destruct (kube (requests w) lookup); subst r;
    first [exact Hone | exact Htwo].
Qed.

Lemma find_row_update (id : json) (f : DbPod -> DbPod) (rows : list DbPod)
  (row : DbPod) :
  (forall r, db_id (f r) = db_id r) ->
  find_row id rows = Some row ->
  find_row id (update_row id f rows) = Some (f row).
Proof.
  intros Hf. induction rows as [|r rows IH]; simpl; [discriminate|].
  destruct (py_eq (db_id r) id) eqn:E; simpl.
  - intros [= ->]. now rewrite Hf, E.
  - rewrite E. exact IH.
Qed.

(** The document of the service is never built: the loop over the ports
    fails, or the label of the service calls [pod._make_dash], which the
    class does not define. *)
Lemma service_conf_raises (pod : Pod) :
  exists e, service_conf pod = Raise e /\
            (forall containers ports,
                iter (get_default pod "containers" (JList [])) = Ok containers ->
                all_service_ports O containers = Ok ports ->
                hasattr pod "_make_dash" = false ->
                e = AttributeError "_make_dash").
Proof.
  unfold service_conf.
  destruct (iter (get_default pod "containers" (JList []))) as [containers|e];
    [|exists e; split; [reflexivity | discriminate]].
  cbn [bind].
  destruct (all_service_ports O containers) as [ports|e] eqn:Hports;
    [|exists e; split; [reflexivity|];
      intros containers' ports' [= <-] Hports'; congruence].
  cbn [bind].
  destruct (missing_method_raises (A := string) pod "_make_dash")
    as (e & -> & He).
  exists e. split; [reflexivity|]. intros ? ? _ _. exact He.
Qed.

(** C4.  [_start_pod] creates no service and submits no workload.  After
    the namespace is ensured, the first thing it does is to ask the pod for
    its recorded service with [pod.get_config], which the class [Pod] does not
    define: every start raises, all it has sent are the lookup and the
    creation of the namespace, and the persisted layer is as it was, so no
    name of a service is persisted.  With the namespace ensured, the error is
    the attribute error of [get_config].  [_run_service] itself, the only
    place a service is created from, raises before it sends anything, since
    the label of the service is computed with [pod._make_dash], which the
    class does not define either. *)
Theorem start_pod_creates_no_service (pod : Pod) (n : nat) (w : World) :
  (exists e, fst (_start_pod pod n w) = Raise e) /\
  (exists nsreqs,
      requests (snd (_start_pod pod n w)) = (requests w ++ nsreqs)%list /\
      Forall namespace_request nsreqs /\
      Forall (fun r => res r <> [JStr "services"]) nsreqs) /\
  db_pods (snd (_start_pod pod n w)) = db_pods w /\
  (forall namespace,
      getattr pod "namespace" = Ok namespace ->
      fst (_make_namespace namespace w) = Ok tt ->
      hasattr pod "get_config" = false ->
      _start_pod pod n w
      = (Raise (AttributeError "get_config"),
         snd (_make_namespace namespace w))) /\
  (exists e, _run_service pod w = (Raise e, w)).
Proof.
  assert (Hservices : forall l, Forall namespace_request l ->
                                Forall (fun r => res r <> [JStr "services"]) l).
  { intros l Hl. eapply Forall_impl; [|exact Hl].
    intros r [Hr | Hr]; rewrite Hr; discriminate. }
  assert (Hrun : exists e, _run_service pod w = (Raise e, w)).
  { destruct (service_conf_raises pod) as (e & He & _).
    exists e. unfold _run_service. now rewrite (bindO_lift_Raise _ _ _ _ He). }
  unfold _start_pod.
  destruct (getattr pod "namespace") as [namespace|e] eqn:Hns.
  2:{ rewrite (bindO_lift_Raise _ _ _ _ eq_refl). cbn [fst snd].
      split; [now exists e|]. split.
      { exists []. rewrite app_nil_r. repeat split; constructor. }
      split; [reflexivity|]. split; [discriminate | exact Hrun]. }
  rewrite (bindO_lift_Ok _ _ _ _ eq_refl).
  destruct (make_namespace_world namespace w) as (nsreqs & Hreqs & Hnsreq & Hdb).
  destruct (_make_namespace namespace w) as [[[]|e] w1] eqn:Hmk;
    cbn [snd] in Hreqs, Hdb.
  2:{ rewrite (bindO_Raise _ _ _ _ _ Hmk). cbn [fst snd].
      split; [now exists e|]. split; [exists nsreqs; auto|].
      split; [assumption|]. split; [|exact Hrun].
      intros namespace' [= <-]. rewrite Hmk. discriminate. }
  rewrite (bindO_Ok _ _ _ _ _ Hmk).
  assert (Hens : exists e, ensure_service pod w1 = (Raise e, w1) /\
                           (hasattr pod "get_config" = false ->
                            e = AttributeError "get_config")).
  { destruct (get_config_run pod "service" w1) as (e & Hcfg & He).
    exists e. split; [|exact He]. unfold ensure_service.
    now rewrite (bindO_Raise _ _ _ _ _ Hcfg). }
  destruct Hens as (e & Hens & He).
  rewrite (bindO_Raise _ _ _ _ _ Hens). cbn [fst snd].
  split; [now exists e|]. split; [exists nsreqs; auto|].
  split; [assumption|]. split; [|exact Hrun].
  intros namespace' [= <-] _ Hmethod. now rewrite Hmk, (He Hmethod).
Qed.

(* --------------------------------------------------------------------- *)
(** *** The merge phase *)

Lemma hashable_eq_refl (a : hashable) : hashable_eq a a = true.
Proof.
  unfold hashable_eq.
  destruct a as [|[|]|n|s]; cbn [py_eq of_hashable]; auto using Z.eqb_refl, String.eqb_refl.
Qed.

Lemma hashable_eq_sym (a b : hashable) : hashable_eq a b = hashable_eq b a.
Proof.
  unfold hashable_eq.
  destruct a as [|[|]|n|s], b as [|[|]|m|t]; cbn [py_eq of_hashable];
    auto using Z.eqb_sym, String.eqb_sym.
Qed.

Lemma hashable_eq_trans (a b c : hashable) :
  hashable_eq a b = true -> hashable_eq b c = true -> hashable_eq a c = true.
Proof.
  unfold hashable_eq.
  destruct a as [|[|]|n|s], b as [|[|]|m|t], c as [|[|]|o|u]; cbn [py_eq of_hashable];
    try discriminate; auto; intros H1 H2;
    rewrite ?Z.eqb_eq, ?String.eqb_eq in *; subst;
    auto using Z.eqb_refl; try discriminate; try lia.
Qed.

Lemma key_eq_refl (a : Key) : key_eq a a = true.
Proof. unfold key_eq. now rewrite !hashable_eq_refl. Qed.

Lemma key_eq_sym (a b : Key) : key_eq a b = key_eq b a.
Proof.
  unfold key_eq.
  now rewrite (hashable_eq_sym (fst a)), (hashable_eq_sym (snd a)).
Qed.

Lemma key_eq_trans (a b c : Key) :
  key_eq a b = true -> key_eq b c = true -> key_eq a c = true.
Proof.
  unfold key_eq. rewrite !andb_true_iff. intros [H1 H2] [H3 H4].
  split; eapply hashable_eq_trans; eauto.
Qed.

(** Keys that are equal find the same entries. *)
Lemma key_eq_congr (a b c : Key) :
  key_eq a b = true -> key_eq a c = key_eq b c.
Proof.
  intros Hab. destruct (key_eq b c) eqn:Hbc.
  - eapply key_eq_trans; eauto.
  - destruct (key_eq a c) eqn:Hac; [|reflexivity].
    rewrite key_eq_sym in Hab.
    now rewrite (key_eq_trans _ _ _ Hab Hac) in Hbc.
Qed.

Lemma coll_mem_congr (a b : Key) (c : Collection) :
  key_eq a b = true -> coll_mem a c = coll_mem b c.
Proof.
  intros Hab. unfold coll_mem. induction c as [|[k p] c IH]; simpl; auto.
  now rewrite IH, (key_eq_congr _ _ k Hab).
Qed.

Lemma coll_get_congr (a b : Key) (c : Collection) :
  key_eq a b = true -> coll_get a c = coll_get b c.
Proof.
  intros Hab. induction c as [|[k p] c IH]; simpl; auto.
  now rewrite IH, (key_eq_congr _ _ k Hab).
Qed.

Lemma coll_mem_set (k k' : Key) (p : Pod) (c : Collection) :
  coll_mem k (coll_set k' p c) = key_eq k k' || coll_mem k c.
Proof.
  unfold coll_mem. induction c as [|[k0 p0] c IH]; simpl.
  - now rewrite orb_false_r.
  - destruct (key_eq k' k0) eqn:E; simpl.
    + rewrite (key_eq_sym k k'), (key_eq_sym k k0).
      rewrite <- (key_eq_congr _ _ k E).
      now destruct (key_eq k' k).
    + rewrite IH. now destruct (key_eq k k0), (key_eq k k').
Qed.

Lemma coll_get_set_eq (k k' : Key) (p : Pod) (c : Collection) :
  key_eq k k' = true -> coll_get k (coll_set k' p c) = Ok p.
Proof.
  intros Hk. induction c as [|[k0 p0] c IH]; simpl.
  - now rewrite Hk.
  - destruct (key_eq k' k0) eqn:E; simpl.
    + now rewrite (key_eq_trans _ _ _ Hk E).
    + rewrite (key_eq_congr _ _ k0 Hk), E. exact IH.
Qed.

Lemma coll_get_set_neq (k k' : Key) (p : Pod) (c : Collection) :
  key_eq k k' = false -> coll_get k (coll_set k' p c) = coll_get k c.
Proof.
  intros Hk. induction c as [|[k0 p0] c IH]; simpl.
  - now rewrite Hk.
  - destruct (key_eq k' k0) eqn:E; simpl.
    + destruct (key_eq k k0) eqn:E0; [|reflexivity].
      rewrite key_eq_sym in E.
      now rewrite (key_eq_trans _ _ _ E0 E) in Hk.
    + now rewrite IH.
Qed.

Lemma coll_get_mem (k : Key) (c : Collection) (p : Pod) :
  coll_get k c = Ok p -> coll_mem k c = true.
Proof.
  unfold coll_mem. induction c as [|[k0 p0] c IH]; simpl; [discriminate|].
  destruct (key_eq k k0); auto.
Qed.

(** Assigning under a key keeps the keys distinct. *)
Lemma keys_of_coll_set (k : Key) (p : Pod) (c : Collection) :
  map fst (coll_set k p c)
  = if coll_mem k c then map fst c else (map fst c ++ [k])%list.
Proof.
  unfold coll_mem. induction c as [|[k0 p0] c IH]; simpl; [reflexivity|].
  destruct (key_eq k k0); simpl; [reflexivity|].
  rewrite IH. now destruct (existsb _ c).
Qed.

Lemma pairwise_distinct_snoc (keys : list Key) (k : Key) :
  pairwise_distinct (keys ++ [k])
  = pairwise_distinct keys && negb (existsb (key_eq k) keys).
Proof.
  induction keys as [|k0 keys IH]; simpl; [reflexivity|].
  rewrite existsb_app, IH. simpl. rewrite (key_eq_sym k k0).
  destruct (existsb (key_eq k0) keys), (key_eq k0 k), (pairwise_distinct keys),
    (existsb (key_eq k) keys); reflexivity.
Qed.

Lemma existsb_keys (k : Key) (c : Collection) :
  existsb (key_eq k) (map fst c) = coll_mem k c.
Proof.
  unfold coll_mem. induction c as [|e c IH]; simpl; [reflexivity|].
  now rewrite IH.
Qed.

Lemma keys_distinct_set (k : Key) (p : Pod) (c : Collection) :
  keys_distinct c = true -> keys_distinct (coll_set k p c) = true.
Proof.
  unfold keys_distinct. rewrite keys_of_coll_set. intros H.
  destruct (coll_mem k c) eqn:E; [assumption|].
  rewrite pairwise_distinct_snoc, H, existsb_keys, E. reflexivity.
Qed.

(** With distinct keys, at most one record is stored under any key. *)
Lemma records_at_most_one (k : Key) (c : Collection) :
  keys_distinct c = true -> (length (records_at k c) <= 1)%nat.
Proof.
  unfold keys_distinct, records_at. rewrite length_map.
  induction c as [|[k0 p0] c IH]; simpl; [lia|].
  rewrite andb_true_iff, negb_true_iff. intros [Hnot Hrest].
  destruct (key_eq k k0) eqn:E; simpl; [|auto].
  assert (Hnone : filter (fun e => key_eq k (fst e)) c = []).
  { clear IH Hrest. induction c as [|[k1 p1] c IH]; simpl in *; auto.
    apply orb_false_iff in Hnot. destruct Hnot as [H1 H2].
    rewrite (key_eq_congr _ _ k1 E), H1. auto. }
  rewrite Hnone. simpl. lia.
Qed.

Lemma coll_get_not_mem (k : Key) (c : Collection) :
  coll_mem k c = false -> coll_get k c = Raise (KeyError "(name, namespace)").
Proof.
  unfold coll_mem. induction c as [|[k0 p0] c IH]; simpl; [reflexivity|].
  destruct (key_eq k k0); [discriminate | exact IH].
Qed.

Lemma foldM_app_eq {A B : Type} (f : A -> B -> result A) (l1 l2 : list B)
  (a : A) :
  foldM f (l1 ++ l2) a = (do a1 <- foldM f l1 a; foldM f l2 a1).
Proof.
  revert a. induction l1 as [|x l1 IH]; simpl; intros a; [reflexivity|].
  destruct (f a x) as [a1|e]; simpl; [apply IH | reflexivity].
Qed.

(** The body of the loop at a row whose key the collection lacks: the record
    is built from the persisted document and then asked for
    [_forge_dockers], which the class does not define. *)
Lemma merge_row_absent (c : Collection) (row : DbPod) (key : Key) :
  row_key row = Ok key ->
  coll_mem key c = false ->
  exists e, merge_row c row = Raise e /\
            (forall pod,
                Pod_init (Some (db_config row)) = Ok pod ->
                hasattr pod "_forge_dockers" = false ->
                e = AttributeError "_forge_dockers").
Proof.
  unfold merge_row, row_key. intros -> Hmem. cbn [bind].
  rewrite Hmem. cbn [negb].
  destruct (Pod_init (Some (db_config row))) as [pod|e].
  - cbn [bind].
    destruct (missing_method_raises (A := Pod) pod "_forge_dockers")
      as (e & -> & He).
    exists e. split; [reflexivity|]. intros pod' [= <-]. exact He.
  - exists e. split; [reflexivity | discriminate].
Qed.

(** The body of the loop returns only at a row whose key the collection
    has, and it adds no key. *)
Lemma merge_row_present (c c' : Collection) (row : DbPod) :
  merge_row c row = Ok c' ->
  (exists key, row_key row = Ok key /\ coll_mem key c = true) /\
  (forall k, coll_mem k c' = coll_mem k c) /\
  (keys_distinct c = true -> keys_distinct c' = true).
Proof.
  intros H.
  destruct (row_key row) as [key|e] eqn:Hkey.
  2:{ unfold merge_row in H. unfold row_key in Hkey. rewrite Hkey in H.
      discriminate H. }
  destruct (coll_mem key c) eqn:Hmem.
  2:{ destruct (merge_row_absent c row key Hkey Hmem) as (e & He & _).
      rewrite He in H. discriminate H. }
  split; [now exists key|].
  unfold merge_row in H. unfold row_key in Hkey. rewrite Hkey in H.
  cbn [bind] in H. rewrite Hmem in H. cbn [negb] in H. inv_bind.
  split.
  - intros k. rewrite !coll_mem_set.
    destruct (key_eq k key) eqn:Hk; [|reflexivity].
    now rewrite (coll_mem_congr _ _ c Hk), Hmem.
  - intros Hc. now apply keys_distinct_set, keys_distinct_set.
Qed.

Lemma merge_rows_present (rows : list DbPod) (c c' : Collection) :
  foldM merge_row rows c = Ok c' ->
  Forall (fun row => exists key, row_key row = Ok key /\ coll_mem key c = true)
    rows /\
  (forall k, coll_mem k c' = coll_mem k c) /\
  (keys_distinct c = true -> keys_distinct c' = true).
Proof.
  revert c. induction rows as [|row rows IH]; simpl; intros c H.
  - injection H as <-. repeat split; auto.
  - inv_bind.
    match goal with
    | Hrow : merge_row c row = Ok ?c1 |- _ =>
        destruct (merge_row_present _ _ _ Hrow) as (Hkey & Hmem & Hdist);
        destruct (IH _ H) as (Hrest & Hmem' & Hdist')
    end.
    split; [|split].
    + constructor; [exact Hkey|].
      eapply Forall_impl; [|exact Hrest].
      intros r (key & Hr & Hin). exists key. now rewrite <- Hmem.
    + intros k. now rewrite Hmem', Hmem.
    + auto.
Qed.

(** A loop body that only dictionaries survive, run over any iterable. *)
Lemma for_each_dicts (body : json -> result json) (v v' : json) :
  (forall x y, body x = Ok y -> exists d, x = JDict d) ->
  for_each v body = Ok v' ->
  exists l l',
    iter v = Ok l /\ iter v' = Ok l' /\
    Forall2 (fun x y => body x = Ok y) l l'.
Proof.
  intros Hdict. unfold for_each.
  destruct v; simpl; intros H; try discriminate; inv_bind.
  - destruct s as [|ch s]; simpl in *.
    + exists [], []. repeat split; constructor.
    + inv_bind.
      match goal with
      | Hb : body (JStr _) = Ok _ |- _ =>
          destruct (Hdict _ _ Hb) as [d Hd]; discriminate Hd
      end.
  - exists l, x. repeat split; auto using mapM_Forall2.
  - destruct d as [|[k v] d]; simpl in *.
    + exists [], []. repeat split; constructor.
    + inv_bind.
      match goal with
      | Hb : body (JStr _) = Ok _ |- _ =>
          destruct (Hdict _ _ Hb) as [d' Hd]; discriminate Hd
      end.
Qed.

Lemma forge_container_dict (status c c' : json) :
  forge_container status c = Ok c' -> exists d, c = JDict d.
Proof. destruct c; simpl; try discriminate. eauto. Qed.

(** C7.  The merge phase synthesizes no record.  For a persisted record
    whose key the collection lacks, [_merge] builds the pod from the persisted
    document and then calls [pod._forge_dockers()], which the class [Pod] does
    not define ([forge_dockers] is the method it has): whenever some persisted
    record has a key that is absent from the live fetch, [_merge] raises and
    leaves the world as it is, and when the rows before that record were
    merged, the error is the attribute error of [_forge_dockers].  So [_merge]
    returns only when every persisted record has its key among the live ones;
    then the merged collection has exactly the keys it had, and at most one
    record under each of them when its keys were distinct. *)
Theorem merge_synthesizes_nothing (collection : Collection) (w : World) :
  (forall merged,
      fst (_merge collection w) = Ok merged ->
      Forall (fun row => exists key, row_key row = Ok key /\
                                     coll_mem key collection = true)
        (db_pods w) /\
      (forall k, coll_mem k merged = coll_mem k collection) /\
      (keys_distinct collection = true ->
       forall k, (length (records_at k merged) <= 1)%nat)) /\
  (forall row key,
      In row (db_pods w) ->
      row_key row = Ok key ->
      coll_mem key collection = false ->
      exists e, _merge collection w = (Raise e, w)) /\
  (forall before row after c1 key pod,
      db_pods w = (before ++ row :: after)%list ->
      foldM merge_row before collection = Ok c1 ->
      row_key row = Ok key ->
      coll_mem key collection = false ->
      Pod_init (Some (db_config row)) = Ok pod ->
      hasattr pod "_forge_dockers" = false ->
      _merge collection w = (Raise (AttributeError "_forge_dockers"), w)).
Proof.
  assert (Hrun : _merge collection w
                 = (foldM merge_row (db_pods w) collection, w)).
  { reflexivity. }
  rewrite Hrun. cbn [fst]. split; [|split].
  - intros merged H.
    destruct (merge_rows_present _ _ _ H) as (Hrows & Hmem & Hdist).
    repeat split; auto.
    intros Hc k. now apply records_at_most_one, Hdist.
  - intros row key Hin Hkey Hmem.
    destruct (foldM merge_row (db_pods w) collection) as [merged|e] eqn:H;
      [|now exists e].
    destruct (merge_rows_present _ _ _ H) as (Hrows & _ & _).
    rewrite Forall_forall in Hrows.
    destruct (Hrows row Hin) as (key' & Hkey' & Hmem').
    congruence.
  - intros before row after c1 key pod Hrows Hbefore Hkey Hmem Hinit Hmethod.
    rewrite Hrows, foldM_app_eq, Hbefore. cbn [bind foldM].
    destruct (merge_rows_present _ _ _ Hbefore) as (_ & Hsame & _).
    assert (Hmem1 : coll_mem key c1 = false) by now rewrite Hsame.
    destruct (merge_row_absent c1 row key Hkey Hmem1) as (e & -> & He).
    cbn [bind]. now rewrite (He pod Hinit Hmethod).
Qed.

(* --------------------------------------------------------------------- *)
(** *** Building the spec twice *)

Lemma web_pod_of_document : Pod_init (Some web_document) = Ok web_pod.
Proof. reflexivity. Qed.

(** C2.  On a pod that holds a list of volumes and asks for no service
    account, a second [prepare] does not rebuild the spec of the first: the
    first spec has the two injected volumes, the second has three, the
    service-account stub of the first run being kept next to a new one, so
    the two specs differ by more than generated identifiers. *)
Theorem prepare_twice_adds_stub_volume :
  exists spec1 pod1 spec2 pod2,
    prepare web_pod 0 = Ok (spec1, pod1, 2%nat) /\
    prepare pod1 2 = Ok (spec2, pod2, 4%nat) /\
    spec_volumes spec1 = Some [kdtools_volume 0; stub_volume 1] /\
    spec_volumes spec2
    = Some [stub_volume 1; kdtools_volume 2; stub_volume 3] /\
    erase_generated spec1 <> erase_generated spec2.
Proof.
  do 4 eexists.
  split; [vm_compute; reflexivity|].
  split; [vm_compute; reflexivity|].
  split; [reflexivity|]. split; [reflexivity|].
  intros H.
  apply (f_equal (fun v => option_map (@length json) (spec_volumes v))) in H.
  vm_compute in H. discriminate H.
Qed.

(* --------------------------------------------------------------------- *)
(** *** The volumes of the spec, on any pod *)

Lemma name_startswith_popped (prefix : string) (d : dict) :
  name_startswith prefix (JDict (dict_del "annotation" d))
  = name_startswith prefix (JDict d).
Proof.
  unfold name_startswith, item, subscript.
  now rewrite dict_get_del_neq by discriminate.
Qed.

Lemma get_volumes_to_prefill_other (self : Pod) (r : list json * Pod)
  (a : string) :
  _get_volumes_to_prefill self = Ok r ->
  a <> "containers" -> dict_get a (snd r) = dict_get a self.
Proof.
  unfold _get_volumes_to_prefill. intros H Ha. inv_bind. cbn [snd].
  match goal with
  | |- dict_get a match ?c with _ => _ end = _ => destruct c
  end; auto.
  unfold setattr. now apply dict_get_set_neq.
Qed.

(** What [prepare] does to the volumes of a pod that holds some: the spec
    carries, and the pod keeps, the volumes popped of their annotations, with
    the tools volume replaced or added and, unless the pod asks for a service
    account, one more stub. *)
Lemma prepare_volumes (pod pod' : Pod) (n n' : nat) (spec v0 : json) :
  prepare pod n = Ok (spec, pod', n') ->
  dict_get "volumes" pod = Some v0 ->
  exists annotations popped kept,
    extract_volume_annotations v0 = Ok (annotations, JList popped) /\
    replace_prefixed "kdtools-" popped (kdtools_volume n) = Ok kept /\
    spec_volumes spec
    = Some (volumes_after (get_default pod "serviceAccount" (JBool false))
              kept (stub_volume (S n))) /\
    dict_get "volumes" pod'
    = Some (JList (volumes_after
                     (get_default pod "serviceAccount" (JBool false))
                     kept (stub_volume (S n)))) /\
    dict_get "serviceAccount" pod' = dict_get "serviceAccount" pod.
Proof.
  intros H Hv. unfold prepare in H.
  assert (Hv0 : get_default pod "volumes" (JList []) = v0)
    by (unfold get_default; now rewrite Hv).
  unfold hasattr in H. rewrite dict_mem_get, Hv, Hv0 in H. clear Hv0.
  inv_bind.
  match goal with
  | Hx : extract_volume_annotations v0 = Ok ?x, Hl : as_list (snd ?x) = Ok ?l
    |- _ =>
      destruct x as [annotations v1]; cbn [fst snd] in *;
      destruct v1; try discriminate Hl; injection Hl as ->;
      exists annotations, l
  end.
  match goal with
  | Hk : add_kdtools _ _ _ = Ok ?kd |- _ =>
      unfold add_kdtools in Hk; inv_bind; cbn [fst snd] in *
  end.
  match goal with
  | Hr : replace_prefixed "kdtools-" _ _ = Ok ?k |- _ => exists k
  end.
  split; [assumption|]. split; [assumption|].
  assert (Hfinal : snd (fst x8)
                   = volumes_after
                       (get_default pod "serviceAccount" (JBool false))
                       x (stub_volume (S n))).
  { unfold volumes_after.
    destruct (negb (truthy (get_default pod "serviceAccount" (JBool false))));
      [unfold add_serviceaccount_stub in E8|]; now inv_bind. }
  rewrite <- Hfinal. clear Hfinal.
  split; [|split].
  - clear. unfold spec_volumes, config_values. cbn [fold_left fst snd].
    repeat match goal with
           | |- context [if truthy ?v then _ else _] => destruct (truthy v)
           end; reflexivity.
  - rewrite (get_volumes_to_prefill_other _ _ "volumes" E16) by discriminate.
    unfold setattr. apply dict_get_set_eq.
  - rewrite (get_volumes_to_prefill_other _ _ "serviceAccount" E16)
      by discriminate.
    unfold setattr. now apply dict_get_set_neq.
Qed.

Lemma mapM_length {A B : Type} (f : A -> result B) (l : list A) (l' : list B) :
  mapM f l = Ok l' -> length l' = length l.
Proof.
  intros H. apply mapM_Forall2 in H. symmetry. now apply Forall2_length in H.
Qed.

Lemma mapM_app_Ok {A B : Type} (f : A -> result B) (l1 l2 : list A)
  (y1 y2 : list B) :
  mapM f l1 = Ok y1 -> mapM f l2 = Ok y2 ->
  mapM f (l1 ++ l2) = Ok (y1 ++ y2)%list.
Proof.
  intros H1 H2. apply Forall2_mapM. apply Forall2_app; now apply mapM_Forall2.
Qed.

Lemma mapM_remove_flagged {B : Type} (f : json -> result B) (l : list json)
  (ys : list B) (flags : list bool) :
  mapM f l = Ok ys -> exists ys', mapM f (remove_flagged l flags) = Ok ys'.
Proof.
  revert ys flags. induction l as [|x l IH]; intros ys flags H.
  - destruct flags; simpl; eauto.
  - simpl in H. inv_bind.
    destruct flags as [|[|] flags]; simpl.
    + match goal with
      | Hx : f x = Ok _, Hl : mapM f l = Ok _ |- _ => rewrite Hx, Hl
      end. simpl. eauto.
    + eauto.
    + match goal with
      | Hx : f x = Ok _, Hl : mapM f l = Ok _ |- _ =>
          rewrite Hx; destruct (IH _ flags Hl) as [ys' ->]
      end. simpl. eauto.
Qed.

Lemma remove_flagged_length (l : list json) (flags : list bool) :
  length flags = length l ->
  length (remove_flagged l flags)
  = if existsb (fun b => b) flags then pred (length l) else length l.
Proof.
  revert flags. induction l as [|x l IH]; intros [|[|] flags]; simpl;
    try discriminate; auto.
  intros [= Hlen]. rewrite (IH _ Hlen).
  destruct (existsb (fun b => b) flags) eqn:E; [|reflexivity].
  destruct l; [destruct flags; discriminate | reflexivity].
Qed.

Lemma replace_prefixed_Ok (prefix : string) (l l' : list json) (new : json) :
  replace_prefixed prefix l new = Ok l' ->
  exists flags,
    mapM (name_startswith prefix) l = Ok flags /\
    l' = (remove_flagged l flags ++ [new])%list.
Proof. unfold replace_prefixed. intros H. inv_bind. eauto. Qed.

Lemma pop_annotation_Ok (vol : json) (popped : json * json) :
  pop_annotation vol = Ok popped ->
  exists d a, vol = JDict d /\ dict_get "annotation" d = Some a /\
              popped = (a, JDict (dict_del "annotation" d)).
Proof.
  unfold pop_annotation, subscript. destruct vol; try discriminate.
  destruct (dict_get "annotation" d) as [a|] eqn:Ha; [|discriminate].
  cbn [bind]. intros [= <-]. now exists d, a.
Qed.

Lemma extract_annotations_Ok (vols : list json)
  (acc r : list json * list json) :
  foldM extract_annotation vols acc = Ok r ->
  exists out, snd r = (snd acc ++ out)%list /\ Forall2 popped_of vols out.
Proof.
  revert acc r. induction vols as [|vol vols IH]; simpl; intros acc r H.
  - injection H as <-. exists []. split; [now rewrite app_nil_r | constructor].
  - inv_bind.
    match goal with
    | Hx : extract_annotation acc vol = Ok _ |- _ =>
        unfold extract_annotation in Hx; inv_bind
    end.
    destruct (IH _ _ H) as (out & Hout & F).
    match goal with
    | Hc : contains vol "annotation" = Ok ?present |- _ => destruct present
    end; inv_bind.
    + match goal with
      | Hp : pop_annotation vol = Ok _ |- _ =>
          destruct (pop_annotation_Ok _ _ Hp) as (d & a & -> & _ & ->)
      end.
      cbn [fst snd] in Hout. rewrite <- app_assoc in Hout.
      eexists. split; [exact Hout|]. constructor; [|assumption].
      right. now exists d.
    + cbn [fst snd] in Hout. rewrite <- app_assoc in Hout.
      eexists. split; [exact Hout|]. constructor; [now left | assumption].
Qed.

Lemma extract_volume_annotations_Ok (l popped annotations : list json) :
  extract_volume_annotations (JList l) = Ok (annotations, JList popped) ->
  Forall2 popped_of l popped.
Proof.
  unfold extract_volume_annotations.
  destruct l as [|v l]; [simpl; intros [= <- <-]; constructor|].
  cbn [truthy negb iter bind]. intros H. inv_bind.
  match goal with
  | Hf : foldM extract_annotation _ _ = Ok ?r |- _ =>
      destruct (extract_annotations_Ok _ _ _ Hf) as (out & Hout & F)
  end.
  simpl in Hout. now rewrite Hout.
Qed.

Lemma popped_flags (prefix : string) (l popped : list json) :
  Forall2 popped_of l popped ->
  mapM (name_startswith prefix) popped = mapM (name_startswith prefix) l.
Proof.
  induction 1 as [|v v' l popped Hv _ IH]; [reflexivity|].
  destruct Hv as [-> | (d & -> & ->)]; simpl;
    rewrite ?name_startswith_popped, IH; reflexivity.
Qed.

(** Preparing again adds a volume: for every pod that holds a list of
    volumes and asks for no service account, whenever two runs of [prepare]
    in a row return, the spec of the second has one volume more than the
    spec of the first. *)
Lemma prepare_again_adds_a_volume (pod pod1 pod2 : Pod) (n n1 n2 : nat)
  (spec1 spec2 v0 : json) :
  dict_get "volumes" pod = Some v0 ->
  truthy (get_default pod "serviceAccount" (JBool false)) = false ->
  prepare pod n = Ok (spec1, pod1, n1) ->
  prepare pod1 n1 = Ok (spec2, pod2, n2) ->
  exists vols1 vols2,
    spec_volumes spec1 = Some vols1 /\
    spec_volumes spec2 = Some vols2 /\
    length vols2 = S (length vols1).
Proof.
  intros Hv Hsa H1 H2.
  destruct (prepare_volumes _ _ _ _ _ _ H1 Hv)
    as (ann1 & popped1 & kept1 & _ & Hk1 & Hs1 & Hv1 & Hsa1).
  destruct (prepare_volumes _ _ _ _ _ _ H2 Hv1)
    as (ann2 & popped2 & kept2 & Hx2 & Hk2 & Hs2 & _ & _).
  assert (Hsa2 : get_default pod1 "serviceAccount" (JBool false)
                 = get_default pod "serviceAccount" (JBool false))
    by (unfold get_default; now rewrite Hsa1).
  rewrite Hsa2 in *. unfold volumes_after in *. rewrite Hsa in *.
  cbn [negb] in *.
  eexists _, _. split; [exact Hs1|]. split; [exact Hs2|].
  apply replace_prefixed_Ok in Hk1. destruct Hk1 as (flags1 & Hf1 & ->).
  apply replace_prefixed_Ok in Hk2. destruct Hk2 as (flags2 & Hf2 & ->).
  apply extract_volume_annotations_Ok in Hx2.
  rewrite (popped_flags "kdtools-" _ _ Hx2) in Hf2.
  destruct (mapM_remove_flagged _ _ _ flags1 Hf1) as (fl & Hfl).
  assert (Hflags : mapM (name_startswith "kdtools-")
                     ((remove_flagged popped1 flags1 ++ [kdtools_volume n])
                      ++ [stub_volume (S n)])
                   = Ok ((fl ++ [true]) ++ [false])%list).
  { apply mapM_app_Ok; [apply mapM_app_Ok|]; auto. }
  rewrite Hflags in Hf2. injection Hf2 as <-.
  rewrite !length_app, remove_flagged_length.
  - rewrite !existsb_app. cbn [existsb orb length].
    rewrite orb_true_r. cbn [orb].
    apply Forall2_length in Hx2. rewrite <- Hx2.
    rewrite !length_app. cbn [length]. lia.
  - apply Forall2_length in Hx2. rewrite <- Hx2.
    rewrite !length_app. apply mapM_length in Hfl. rewrite Hfl.
    reflexivity.
Qed.

(* ===================================================================== *)
(** ** Container and image ids *)
(* ===================================================================== *)

Lemma string_app_nil_r (s : string) : s ++ "" = s.
Proof. induction s as [|c s IH]; simpl; [reflexivity | now rewrite IH]. Qed.

Lemma string_app_assoc (a b c : string) : (a ++ b) ++ c = a ++ (b ++ c).
Proof. induction a as [|x a IH]; simpl; [reflexivity | now rewrite IH]. Qed.

Lemma startswith_nil (sep : string) :
  sep <> "" -> startswith sep "" = false.
Proof. destruct sep; [congruence | reflexivity]. Qed.

Lemma no_start_snoc (sep u v : string) (c : ascii) :
  no_start sep (u ++ String c "") v
  = no_start sep u (String c v) && negb (startswith sep (String c v)).
Proof.
  induction u as [|a u IH].
  - simpl. now rewrite andb_true_r.
  - cbn [no_start append]. rewrite IH, string_app_assoc. cbn [append].
    now rewrite andb_assoc.
Qed.

Lemma no_start_substring (sep w : string) :
  sep <> "" -> no_start sep w "" = negb (is_substring sep w).
Proof.
  intros Hsep. induction w as [|c w IH].
  - simpl. now rewrite startswith_nil.
  - cbn [no_start is_substring]. rewrite IH, string_app_nil_r.
    now rewrite negb_orb.
Qed.

(** The last segment of a split holds no separator. *)
Lemma split_last_from_clean (sep s cur : string) (skip : nat) :
  sep <> "" ->
  (skip = O -> no_start sep cur s = true) ->
  (skip <> O -> cur = "") ->
  is_substring sep (split_last_from sep s skip cur) = false.
Proof.
  intros Hsep. revert cur skip.
  induction s as [|c s IH]; intros cur skip H0 H1.
  - simpl. apply negb_true_iff. rewrite <- no_start_substring by assumption.
    destruct skip; [now apply H0 | now rewrite H1].
  - cbn [split_last_from]. destruct skip as [|n].
    + specialize (H0 eq_refl).
      destruct (startswith sep (String c s)) eqn:E.
      * apply IH; [reflexivity | reflexivity].
      * apply IH; [intros _ | congruence].
        now rewrite no_start_snoc, H0, E.
    + rewrite (H1 ltac:(discriminate)). apply IH; [reflexivity | reflexivity].
Qed.

(** A text without separator is its own last segment. *)
Lemma split_last_from_none (sep s cur : string) :
  is_substring sep s = false -> split_last_from sep s O cur = cur ++ s.
Proof.
  revert cur. induction s as [|c s IH]; intros cur H.
  - simpl. now rewrite string_app_nil_r.
  - cbn [is_substring] in H. apply orb_false_iff in H. destruct H as [E H].
    cbn [split_last_from]. rewrite E, (IH _ H), string_app_assoc.
    reflexivity.
Qed.

(** X1 ([_del_docker_prefix]): whenever the function returns, its result
    holds no [docker://] any more, at any position, and the function maps
    its result to itself. *)
Theorem del_docker_prefix_idempotent (value v : json) :
  _del_docker_prefix value = Ok v ->
  _del_docker_prefix v = Ok v /\
  (forall s, v = JStr s -> is_substring "docker://" s = false).
Proof.
  unfold _del_docker_prefix. intros H.
  destruct (truthy value) eqn:T; cbn [negb] in H.
  - destruct value; try discriminate H. injection H as <-.
    assert (Hclean : is_substring "docker://" (split_last "docker://" s) = false).
    { apply split_last_from_clean; [discriminate | reflexivity | congruence]. }
    split.
    + destruct (truthy (JStr (split_last "docker://" s))); cbn [negb];
        [|reflexivity].
      unfold split_last at 1.
      rewrite split_last_from_none by exact Hclean. reflexivity.
    + now intros ? [= <-].
  - injection H as <-. rewrite T. split; [reflexivity|].
    intros s ->. simpl in T. apply negb_false_iff, String.eqb_eq in T.
    now subst.
Qed.

(** X2 ([_del_docker_prefix]): an id that holds no [docker://] is returned
    as it is, and an id made of [docker://] and such a text is returned
    without the prefix. *)
Theorem del_docker_prefix_strips (s : string) :
  is_substring "docker://" s = false ->
  _del_docker_prefix (JStr s) = Ok (JStr s) /\
  _del_docker_prefix (JStr ("docker://" ++ s)) = Ok (JStr s).
Proof.
  intros H. unfold _del_docker_prefix. split.
  - destruct (truthy (JStr s)) eqn:T; cbn [negb]; [|reflexivity].
    unfold split_last. now rewrite split_last_from_none.
  - cbn [truthy negb append String.eqb Ascii.eqb].
    unfold split_last. simpl.
    now rewrite split_last_from_none.
Qed.

(* ===================================================================== *)
(** ** Building a pod from a document and from an observation *)
(* ===================================================================== *)

Lemma dict_get_In (k : string) (v : json) (d : dict) :
  dict_get k d = Some v -> In (k, v) d.
Proof.
  induction d as [|[k' v'] d IH]; simpl; [discriminate|].
  destruct (String.eqb_spec k k') as [->|Hne].
  - intros [= ->]. now left.
  - auto.
Qed.

Lemma dict_get_not_In (k : string) (d : dict) :
  ~ In k (map fst d) -> dict_get k d = None.
Proof.
  induction d as [|[k' v'] d IH]; simpl; [reflexivity|].
  intros H. destruct (String.eqb_spec k k') as [->|Hne].
  - exfalso. apply H. now left.
  - apply IH. intros Hin. apply H. now right.
Qed.

(** With every key bound once, [d.update(other)] stores what [other] binds. *)
Lemma dict_get_update_bound (k : string) (v : json) (other d : dict) :
  NoDup (map fst other) ->
  dict_get k other = Some v ->
  dict_get k (dict_update d other) = Some v.
Proof.
  intros Hnd Hget. revert d.
  induction other as [|[k' v'] other IH]; intros d; [discriminate|].
  simpl in Hget, Hnd. inversion Hnd as [|? ? Hnot Hnd']; subst.
  destruct (String.eqb_spec k k') as [->|Hne].
  - injection Hget as ->.
    apply (dict_get_update_last k' v [] other d).
    now apply dict_get_not_In.
  - unfold dict_update. simpl. now apply IH.
Qed.

Lemma keys_dict_set (k : string) (v : json) (d : dict) :
  dict_mem k d = true -> map fst (dict_set k v d) = map fst d.
Proof.
  induction d as [|[k' v'] d IH]; simpl; [discriminate|].
  destruct (String.eqb_spec k k') as [->|Hne]; simpl; [reflexivity|].
  intros H. now rewrite IH.
Qed.

Lemma NoDup_dict_del (k : string) (d : dict) :
  NoDup (map fst d) -> NoDup (map fst (dict_del k d)).
Proof.
  unfold dict_del. induction d as [|[k' v'] d IH]; simpl; intros H;
    [constructor|].
  inversion H as [|? ? Hnot Hnd]; subst.
  destruct (negb (String.eqb k k')); simpl; auto.
  constructor; auto.
  intros Hin. apply Hnot. apply in_map_iff in Hin.
  destruct Hin as ([k0 v0] & <- & Hin). apply filter_In in Hin.
  apply in_map_iff. exists (k0, v0). now destruct Hin.
Qed.

Lemma dict_get_update (k : string) (other d : dict) :
  NoDup (map fst other) ->
  dict_get k (dict_update d other)
  = match dict_get k other with
    | Some v => Some v
    | None => dict_get k d
    end.
Proof.
  intros Hnd. destruct (dict_get k other) eqn:E.
  - now apply dict_get_update_bound.
  - now apply dict_get_update_other.
Qed.

(** What [set_owner] assigns. *)
Lemma set_owner_Ok (self pod : Pod) (owner : json) :
  set_owner self owner = Ok pod ->
  (forall k, k <> "owner" -> dict_get k pod = dict_get k self) /\
  (exists id username, getattr pod "owner" = Ok (PodOwner id username)) /\
  (owner = JNull -> getattr pod "owner" = Ok (PodOwner JNull JNull)).
Proof.
  intros H. unfold set_owner in H.
  destruct owner; inv_bind;
    (split; [intros k Hk; unfold setattr; now apply dict_get_set_neq|]);
    (split; [eexists _, _; apply getattr_setattr_eq|]);
    intros Hnull; first [discriminate Hnull | apply getattr_setattr_eq].
Qed.

(** The pod that [Pod(data)] builds, attribute by attribute. *)
Lemma pod_init_Ok (data : dict) (pod : Pod) :
  NoDup (map fst data) ->
  Pod_init (Some data) = Ok pod ->
  dict_mem "containers" data = true /\
  (forall k, k <> "owner" -> k <> "containers" ->
             dict_get k pod
             = match dict_get k data with
               | Some v => Some v
               | None => dict_get k [("k8s_status", JNull); ("certificate", JNull)]
               end) /\
  (exists id username, getattr pod "owner" = Ok (PodOwner id username)) /\
  (py_get data "owner" = JNull ->
   getattr pod "owner" = Ok (PodOwner JNull JNull)).
Proof.
  intros Hnd H. unfold Pod_init in H.
  unfold subscript in H.
  destruct (dict_get "containers" data) as [containers|] eqn:Hc;
    [|discriminate H].
  cbn [bind] in H. inv_bind.
  assert (Hmem : dict_mem "containers" data = true)
    by (now rewrite dict_mem_get, Hc).
  match goal with
  | H : set_owner _ (if dict_mem "owner" ?d then _ else _) = Ok _ |- _ =>
      assert (Howner : (if dict_mem "owner" d then py_get d "owner" else JNull)
                       = py_get data "owner")
  end.
  { unfold py_get, get_default.
    rewrite dict_mem_get, dict_get_set_neq by discriminate.
    now destruct (dict_get "owner" data). }
  rewrite Howner in H. clear Howner.
  split; [assumption|].
  destruct (set_owner_Ok _ _ _ H) as (Hother & Hpair & Hnone).
  split; [|split; assumption].
  intros k Hk1 Hk2. rewrite (Hother k Hk1).
  rewrite dict_get_update
    by (apply NoDup_dict_del; now rewrite keys_dict_set).
  now rewrite dict_get_del_neq, dict_get_set_neq by assumption.
Qed.

(** X3 ([Pod.__init__], [Pod.set_owner]): a pod is built only from a
    document with containers; every other entry of the document but the
    owner becomes an attribute with the value the document gives it, and the
    owner is always kept as the pair of an id and a user name, the pair of
    [None] when the document names no owner. *)
Theorem pod_init_attributes (data : dict) (pod : Pod) :
  NoDup (map fst data) ->
  Pod_init (Some data) = Ok pod ->
  dict_mem "containers" data = true /\
  (forall k v, k <> "owner" -> k <> "containers" ->
               dict_get k data = Some v -> getattr pod k = Ok v) /\
  (exists id username, getattr pod "owner" = Ok (PodOwner id username)) /\
  (py_get data "owner" = JNull ->
   getattr pod "owner" = Ok (PodOwner JNull JNull)).
Proof.
  intros Hnd H.
  destruct (pod_init_Ok _ _ Hnd H) as (Hmem & Hget & Hpair & Hnone).
  repeat split; auto.
  intros k v Hk1 Hk2 Hv. unfold getattr. now rewrite Hget, Hv.
Qed.

(* --------------------------------------------------------------------- *)
(** *** Forged runtime fields *)

Lemma forge_container_forged_as (status c c' : json) :
  forge_container status c = Ok c' -> forged_as status c'.
Proof.
  unfold forge_container, item, subscript, as_dict. intros H.
  destruct c; try discriminate.
  destruct (dict_get "name" d) as [name|] eqn:Hname; [|discriminate].
  destruct (dict_get "image" d) as [image|] eqn:Himage; [|discriminate].
  cbn [bind] in H. injection H as <-.
  eexists _, name, image. split; [reflexivity|].
  repeat split;
    repeat (rewrite dict_get_set_neq by discriminate);
    first [apply dict_get_set_eq | assumption].
Qed.

Lemma forge_container_forged_from (status c c' : json) :
  forge_container status c = Ok c' -> forged_from status c c'.
Proof.
  intros H. pose proof (forge_container_forged_as _ _ _ H) as Hforged.
  unfold forge_container, item, subscript, as_dict in H.
  destruct c; try discriminate.
  destruct (dict_get "name" d) as [name|]; [|discriminate].
  destruct (dict_get "image" d) as [image|]; [|discriminate].
  cbn [bind] in H. injection H as <-.
  eexists d, _. split; [reflexivity|]. split; [reflexivity|].
  split; [exact Hforged|].
  intros k Hk.
  repeat (rewrite dict_get_set_neq
            by (intros Heq; apply Hk; rewrite Heq; simpl; tauto)).
  reflexivity.
Qed.

Lemma all_ready_forged (status : json) (cs : list json) :
  Forall (forged_as status) cs ->
  all_ready cs = Ok (match cs with [] => true | _ => false end).
Proof.
  intros F. destruct F as [|c cs Hc _]; [reflexivity|].
  destruct Hc as (d & name & image & -> & _ & _ & _ & _ & _ & Hready & _).
  simpl. unfold get_default. now rewrite Hready.
Qed.

(** X4 ([Pod.populate], [Pod.forge_dockers]): for an observed pod whose
    phase is none of running, succeeded and failed, the status and the
    orchestrator status of the pod are the lower-cased phase; the containers
    of the pod are the containers that the spec of the observed pod lists,
    one for one and in their order, each with forged runtime fields that have
    the phase as their state and with its other entries as observed; and the
    pod is ready exactly when the observed pod lists no container at all. *)
Theorem populate_not_started (data status : json) (pod : Pod)
  (raw_phase : string) :
  populate data = Ok pod ->
  get data "status" (JDict []) = Ok status ->
  get status "phase" (JStr POD_STATUSES_pending) = Ok (JStr raw_phase) ->
  in_tuple (JStr (lower raw_phase))
    [JStr POD_STATUSES_running; JStr POD_STATUSES_succeeded;
     JStr POD_STATUSES_failed] = false ->
  exists spec described observed containers cs,
    get data "spec" (JDict []) = Ok spec /\
    get spec "containers" (JList []) = Ok described /\
    iter described = Ok observed /\
    getattr pod "status" = Ok (JStr (lower raw_phase)) /\
    getattr pod "k8s_status" = Ok (JStr (lower raw_phase)) /\
    getattr pod "containers" = Ok containers /\
    iter containers = Ok cs /\
    Forall2 (forged_from (JStr (lower raw_phase))) observed cs /\
    Forall (forged_as (JStr (lower raw_phase))) cs /\
    getattr pod "ready"
    = Ok (JBool (match observed with [] => true | _ => false end)).
Proof.
  unfold populate. intros H Hstatus Hphase Hin.
  inv_bind. same_results.
  match goal with
  | H : lower_of _ = Ok _ |- _ => simpl in H; injection H as <-
  end.
  match goal with
  | H : (if in_tuple _ _ then _ else _) = Ok _ |- _ => rewrite Hin in H
  end.
  match goal with
  | H : forge_dockers _ _ = Ok _ |- _ =>
      unfold forge_dockers in H; inv_bind
  end.
  match goal with
  | H : getattr (setattr _ "containers" _) "containers" = Ok _ |- _ =>
      rewrite getattr_setattr_eq in H; injection H as <-
  end.
  match goal with
  | H : getattr _ "containers" = Ok ?c, Hf : for_each ?c _ = Ok _ |- _ =>
      repeat (rewrite getattr_setattr_neq in H by discriminate);
      rewrite getattr_setattr_eq in H; injection H as <-
  end.
  match goal with
  | Hs : get data "spec" (JDict []) = Ok ?spec,
    Hc : get ?spec "containers" (JList []) = Ok ?described,
    Hf : for_each ?described (forge_container _) = Ok ?v |- _ =>
      destruct (for_each_dicts _ _ _ (forge_container_dict _) Hf)
        as (l & l' & Hl & Hl' & F);
      exists spec, described, l, v, l'
  end.
  same_results.
  assert (Hfrom : Forall2 (forged_from (JStr (lower raw_phase))) l l').
  { eapply Forall2_impl; [|exact F].
    intros c c' Hc. now apply forge_container_forged_from. }
  assert (Hforged : Forall (forged_as (JStr (lower raw_phase))) l').
  { eapply Forall2_right; [|exact F].
    intros c c' Hc. now apply forge_container_forged_as in Hc. }
  match goal with
  | H : all_ready l' = Ok _ |- _ =>
      rewrite (all_ready_forged _ _ Hforged) in H; injection H as <-
  end.
  assert (Hsame : match l' with [] => true | _ => false end
                  = match l with [] => true | _ => false end).
  { now destruct F. }
  rewrite Hsame.
  repeat split; auto; now read_attr.
Qed.

(* ===================================================================== *)
(** ** The pieces of the spec *)
(* ===================================================================== *)

Lemma dict_del_absent (k : string) (d : dict) :
  dict_get k d = None -> dict_del k d = d.
Proof.
  unfold dict_del. induction d as [|[k' v] d IH]; simpl; [reflexivity|].
  destruct (String.eqb k k'); simpl; [discriminate|].
  intros H. now rewrite IH.
Qed.

(** One round of the comprehension: the membership test answers for a
    dictionary that holds an annotation and for nothing else, the annotation
    is collected, and the volume is left without it. *)
Lemma extract_annotation_Ok (acc r : list json * list json) (vol : json) :
  extract_annotation acc vol = Ok r ->
  contains vol "annotation" = Ok (annotated vol) /\
  r = ((fst acc ++ somes [annotation_of vol])%list,
       (snd acc ++ [without_annotation vol])%list).
Proof.
  unfold extract_annotation. intros H. inv_bind.
  match goal with
  | Hc : contains vol "annotation" = Ok ?present |- _ => destruct present
  end; inv_bind.
  - match goal with
    | Hp : pop_annotation vol = Ok _ |- _ =>
        destruct (pop_annotation_Ok _ _ Hp) as (d & a & -> & Ha & ->)
    end.
    unfold annotated, annotation_of, without_annotation.
    simpl contains. rewrite dict_mem_get, Ha. auto.
  - unfold annotated, annotation_of, without_annotation.
    destruct vol; simpl in *; try discriminate;
      try (rewrite app_nil_r; split; [assumption | reflexivity]).
    match goal with
    | Hc : Ok (dict_mem "annotation" ?d) = Ok false |- _ =>
        injection Hc as Hc; rewrite dict_mem_get in Hc;
        destruct (dict_get "annotation" d) eqn:Hd; [discriminate Hc|]
    end.
    rewrite dict_mem_get, Hd, dict_del_absent, app_nil_r by assumption. auto.
Qed.

Lemma extract_each (l : list json) (acc r : list json * list json) :
  foldM extract_annotation l acc = Ok r ->
  Forall (fun vol => contains vol "annotation" = Ok (annotated vol)) l /\
  r = ((fst acc ++ somes (map annotation_of l))%list,
       (snd acc ++ map without_annotation l)%list).
Proof.
  revert acc. induction l as [|vol l IH]; simpl; intros acc H.
  - injection H as <-. rewrite !app_nil_r. split; [constructor | now destruct acc].
  - inv_bind.
    match goal with
    | Hx : extract_annotation acc vol = Ok _ |- _ =>
        destruct (extract_annotation_Ok _ _ _ Hx) as (Hc & ->)
    end.
    destruct (IH _ H) as (F & ->). cbn [fst snd].
    split; [now constructor|].
    rewrite <- !app_assoc. simpl.
    now destruct (annotation_of vol).
Qed.

(** Volumes that hold no annotation give none and stay as they are. *)
Lemma extract_nothing (l : list json) (acc : list json * list json) :
  Forall (fun vol => contains vol "annotation" = Ok false) l ->
  foldM extract_annotation l acc = Ok (fst acc, (snd acc ++ l)%list).
Proof.
  intros F. revert acc.
  induction F as [|vol l Hvol _ IH]; intros acc; simpl.
  - rewrite app_nil_r. now destruct acc.
  - unfold extract_annotation at 1. rewrite Hvol. cbn [bind].
    rewrite IH. cbn [fst snd]. now rewrite <- app_assoc.
Qed.

Lemma without_annotation_plain (vol : json) :
  contains vol "annotation" = Ok (annotated vol) ->
  contains (without_annotation vol) "annotation" = Ok false.
Proof.
  unfold annotated, annotation_of, without_annotation.
  destruct vol; try (intros H; exact H).
  intros _. simpl. now rewrite dict_mem_get, dict_get_del_eq.
Qed.

(** X5 ([Pod.extract_volume_annotations]): the annotations are taken out of
    the volumes for good.  When the extraction from a list of volumes
    returns, every volume answered the membership test, with yes exactly for
    a dictionary that holds an annotation; the annotations returned are those
    of these dictionaries, in their order; every volume is kept in its
    place, a dictionary without its annotation and anything else as it was;
    and extracting again gives no annotation and leaves the volumes as they
    are. *)
Theorem extract_volume_annotations_once (l : list json) (volumes' : json)
  (annotations : list json) :
  extract_volume_annotations (JList l) = Ok (annotations, volumes') ->
  Forall (fun vol => contains vol "annotation" = Ok (annotated vol)) l /\
  annotations = somes (map annotation_of l) /\
  volumes' = JList (map without_annotation l) /\
  extract_volume_annotations volumes' = Ok ([], volumes').
Proof.
  intros H. unfold extract_volume_annotations in H.
  destruct l as [|v l].
  - simpl in H. injection H as <- <-. repeat split. constructor.
  - cbn [truthy negb iter bind] in H. inv_bind.
    match goal with
    | Hf : foldM extract_annotation _ _ = Ok _ |- _ =>
        destruct (extract_each _ _ _ Hf) as (F & ->)
    end.
    cbn [fst snd app]. repeat split; [exact F|].
    unfold extract_volume_annotations.
    cbn [map truthy negb iter bind].
    rewrite extract_nothing; [reflexivity|].
    change (Forall (fun vol => contains vol "annotation" = Ok false)
              (map without_annotation (v :: l))).
    rewrite Forall_map. eapply Forall_impl; [|exact F].
    intros vol. apply without_annotation_plain.
Qed.

(* --------------------------------------------------------------------- *)
(** *** The tools volume *)

Lemma startswith_app (p s : string) : startswith p (p ++ s) = true.
Proof.
  induction p as [|c p IH]; simpl; [reflexivity|].
  now rewrite Ascii.eqb_refl, IH.
Qed.

Lemma count_flagged_app (a b : list bool) :
  count_flagged (a ++ b) = (count_flagged a + count_flagged b)%nat.
Proof. unfold count_flagged. now rewrite filter_app, length_app. Qed.

Lemma unflagged_app (l1 l2 : list json) (f1 f2 : list bool) :
  length f1 = length l1 ->
  unflagged (l1 ++ l2) (f1 ++ f2) = (unflagged l1 f1 ++ unflagged l2 f2)%list.
Proof.
  revert f1. induction l1 as [|x l1 IH]; intros [|b f1]; simpl;
    try discriminate; auto.
  intros [= Hlen]. rewrite (IH _ Hlen). now destruct b.
Qed.

(** What [l.remove(found[0])] leaves of the flagged entries and of the
    others. *)
Lemma remove_flagged_flags (f : json -> result bool) (l : list json)
  (flags : list bool) :
  mapM f l = Ok flags ->
  exists flags',
    mapM f (remove_flagged l flags) = Ok flags' /\
    count_flagged flags' = pred (count_flagged flags) /\
    unflagged (remove_flagged l flags) flags' = unflagged l flags.
Proof.
  revert flags. induction l as [|x l IH]; simpl; intros flags H.
  - injection H as <-. exists []. repeat split.
  - inv_bind.
    match goal with
    | Hx : f x = Ok ?b, Hl : mapM f l = Ok ?fl |- _ =>
        destruct b; simpl;
        [ exists fl; repeat split; assumption
        | destruct (IH _ Hl) as (fl' & Hfl' & Hcount & Hrest);
          rewrite Hx, Hfl'; simpl; exists (false :: fl');
          repeat split; [exact Hcount | now rewrite Hrest] ]
    end.
Qed.

Lemma name_startswith_prefixed (prefix s : string) (d : dict) :
  dict_get "name" d = Some (JStr (prefix ++ s)) ->
  name_startswith prefix (JDict d) = Ok true.
Proof.
  intros H. unfold name_startswith, item, subscript. rewrite H.
  cbn [bind]. now rewrite startswith_app.
Qed.

Lemma replace_prefixed_tools (l l' : list json) (new : json) :
  replace_prefixed "kdtools-" l new = Ok l' ->
  name_startswith "kdtools-" new = Ok true ->
  tools_replaced l l' new.
Proof.
  intros H Hnew. apply replace_prefixed_Ok in H.
  destruct H as (flags & Hflags & ->).
  destruct (remove_flagged_flags _ _ _ Hflags) as (fl & Hfl & Hcount & Hrest).
  exists flags, (fl ++ [true])%list.
  split; [assumption|]. split.
  { apply mapM_app_Ok; [assumption|]. simpl. now rewrite Hnew. }
  split.
  { rewrite count_flagged_app, Hcount. unfold count_flagged at 2. simpl.
    destruct (count_flagged flags); simpl; lia. }
  split.
  { rewrite unflagged_app by (now apply mapM_length in Hfl).
    simpl. now rewrite app_nil_r. }
  apply last_last.
Qed.

(** X6 ([add_kdtools]): the tools volume does not pile up.  Among the
    volumes, and among the mounts of every container, the entries named with
    the tools prefix are one at least and as many as before otherwise, every
    other entry stays in its place, and the entry with the fresh name comes
    last. *)
Theorem add_kdtools_replaces (containers volumes containers' volumes' : list json)
  (n : nat) :
  add_kdtools containers volumes n = Ok (containers', volumes') ->
  tools_replaced volumes volumes' (kdtools_volume n) /\
  Forall2 (fun c c' =>
             exists d mounts mounts',
               c = JDict d /\
               dict_get "volumeMounts" d = Some (JList mounts) /\
               c' = JDict (dict_set "volumeMounts" (JList mounts') d) /\
               tools_replaced mounts mounts' (kdtools_mount n))
          containers containers'.
Proof.
  unfold add_kdtools. intros H. inv_bind. split.
  - apply replace_prefixed_tools; [assumption|].
    now apply (name_startswith_prefixed _ (uuid4_hex n)).
  - match goal with
    | Hm : mapM _ containers = Ok _ |- _ => apply mapM_Forall2 in Hm;
        eapply Forall2_weaken; [|exact Hm]
    end.
    intros c c' Hc. cbn beta in Hc. inv_bind.
    destruct c; try discriminate.
    match goal with
    | Hi : item (JDict ?d) "volumeMounts" = Ok ?m, Hl : as_list ?m = Ok ?ms,
      Hr : replace_prefixed _ ?ms _ = Ok ?ms' |- _ =>
        exists d, ms, ms';
        destruct m; try discriminate Hl; injection Hl as ->;
        unfold item, subscript in Hi;
        destruct (dict_get "volumeMounts" d) eqn:Hd; [|discriminate Hi];
        injection Hi as ->
    end.
    split; [reflexivity|]. split; [reflexivity|].
    split; [simpl in Hc; now injection Hc as <-|].
    apply replace_prefixed_tools; [assumption|].
    now apply (name_startswith_prefixed _ (uuid4_hex n)).
Qed.

(* ===================================================================== *)
(** ** What a pod shows *)
(* ===================================================================== *)

(** The edited config that [Pod(document)] holds is the one of the
    document. *)
Lemma pod_init_edited (config : dict) (pod : Pod) :
  NoDup (map fst config) ->
  Pod_init (Some config) = Ok pod ->
  dict_get "edited_config" pod = dict_get "edited_config" config.
Proof.
  intros Hnd H.
  destruct (pod_init_Ok _ _ Hnd H) as (_ & Hget & _).
  rewrite Hget by discriminate.
  now destruct (dict_get "edited_config" config).
Qed.

Lemma edited_as_dict_find (config : dict) :
  (fix find (d : dict) : option (result (dict * json)) :=
     match d with
     | [] => None
     | (k, v) :: d' =>
         if String.eqb "edited_config" k then
           match v with
           | JNull => None
           | _ => Some (document_as_dict v)
           end
         else find d'
     end) config
  = edited_as_dict config.
Proof.
  unfold edited_as_dict.
  induction config as [|[k v] config IH]; [reflexivity|].
  cbn [dict_get]. destruct (String.eqb "edited_config" k); [|exact IH].
  now destruct v.
Qed.

(** [Pod(document).as_dict()], step by step: the pod is built, serialized
    and stripped of the hidden fields. *)
Lemma document_as_dict_unfold (config : dict) :
  NoDup (map fst config) ->
  document_as_dict (JDict config)
  = do pod <- Pod_init (Some config);
    do r <- Pod_as_dict pod;
    Ok (fst r, JDict (document_after config (snd r))).
Proof.
  intros Hnd. cbn [document_as_dict]. rewrite edited_as_dict_find.
  change (@Some (list (string * json)) config) with (@Some dict config).
  destruct (Pod_init (Some config)) as [pod|e] eqn:Hpod; [|reflexivity].
  cbn [bind]. unfold Pod_as_dict, _as_dict.
  assert (Hedited : edited_as_dict pod = edited_as_dict config).
  { unfold edited_as_dict. now rewrite (pod_init_edited _ _ Hnd Hpod). }
  rewrite Hedited.
  now destruct (as_dict_body pod (edited_as_dict config)).
Qed.

Lemma hide_hidden (data : dict) :
  Forall (fun field => dict_mem field (hide data) = false) hide_fields.
Proof.
  unfold hide, hide_fields. cbn [fold_left].
  repeat constructor;
    repeat first [ apply dict_mem_del_eq
                 | rewrite dict_mem_del_neq by discriminate ].
Qed.

Lemma hide_other (k : string) (data : dict) :
  ~ In k hide_fields -> dict_get k (hide data) = dict_get k data.
Proof.
  intros H. unfold hide, hide_fields in *. cbn [fold_left].
  rewrite !dict_get_del_neq; [reflexivity| | | | |];
    intros ->; apply H; simpl; auto 6.
Qed.

Lemma document_as_dict_hidden (document : json) (r : dict * json) :
  document_as_dict document = Ok r ->
  Forall (fun field => dict_mem field (fst r) = false) hide_fields.
Proof.
  destruct document; try discriminate.
  cbn [document_as_dict]. intros H. inv_bind. apply hide_hidden.
Qed.

(** What [_as_dict] returns under the keys that it assigns. *)
Lemma as_dict_body_Ok (self self' data : dict)
  (edited : option (result (dict * json))) :
  as_dict_body self edited = Ok (data, self') ->
  dict_mem "volumes_public" data = false /\
  dict_get "volumes" data
  = Some (get_default self "volumes_public" (JList [])) /\
  (dict_mem "containers" self = true ->
   dict_get "containers" data = dict_get "containers" self') /\
  match edited with
  | None => dict_get "edited_config" data = dict_get "edited_config" self
  | Some r => exists shown, r = Ok shown /\
                            dict_get "edited_config" data = Some (JDict (fst shown))
  end.
Proof.
  unfold as_dict_body. intros H. inv_bind.
  match goal with
  | Hf : for_each _ public_container = Ok ?c |- _ => clear Hf; set (cs := c) in *
  end.
  assert (Hmem : dict_mem "containers"
                   (dict_set "volumes" (get_default self "volumes_public" (JList []))
                      (dict_del "volumes_public" self))
                 = dict_mem "containers" self).
  { now rewrite dict_mem_set_neq, dict_mem_del_neq by discriminate. }
  rewrite Hmem in H.
  destruct edited as [[shown|e]|]; cbn [bind] in H; try discriminate;
    injection H as <- <-;
    destruct (dict_mem "containers" self) eqn:Hc;
    repeat split;
    repeat first
      [ rewrite dict_mem_set_neq by discriminate
      | rewrite dict_get_set_neq by discriminate
      | rewrite dict_get_del_neq by discriminate
      | rewrite dict_get_set_eq
      | apply dict_mem_del_eq
      | reflexivity
      | discriminate
      | (eexists; split; [reflexivity|]) ];
    auto.
Qed.

(** X7 ([Pod.as_dict], [Pod._as_dict]): the dictionary that [as_dict]
    returns holds none of the fields [node], [labels], [namespace],
    [secrets] and [owner], and neither does the edited config that it
    shows. *)
Theorem as_dict_hides (self self' : Pod) (data : dict) :
  Pod_as_dict self = Ok (data, self') ->
  Forall (fun field => dict_mem field data = false) hide_fields /\
  (forall edited,
      dict_get "edited_config" data = Some (JDict edited) ->
      Forall (fun field => dict_mem field edited = false) hide_fields).
Proof.
  unfold Pod_as_dict, _as_dict. intros H. inv_bind.
  match goal with
  | Hb : as_dict_body _ _ = Ok ?r |- _ =>
      destruct r as [shown pod];
      destruct (as_dict_body_Ok _ _ _ _ Hb) as (_ & _ & _ & Hedited)
  end.
  cbn [fst snd]. split; [apply hide_hidden|].
  intros edited. rewrite hide_other by (simpl; intuition discriminate).
  intros He. unfold edited_as_dict in Hedited.
  destruct (dict_get "edited_config" self) as [document|] eqn:Hdoc.
  - destruct document;
      try (destruct Hedited as ([inner after] & Hdone & Hshown);
           apply document_as_dict_hidden in Hdone;
           rewrite Hshown in He; injection He as <-; exact Hdone).
    rewrite Hedited in He. discriminate He.
  - rewrite Hedited in He. discriminate He.
Qed.

(** X8 ([Pod._as_dict]): what [as_dict] shows as the volumes of a pod are
    its public volumes, an empty list when it has none, and never its
    [volumes_public] entry; the containers it shows are the containers that
    the pod itself holds afterwards. *)
Theorem as_dict_shows_public_volumes (self self' : Pod) (data : dict) :
  Pod_as_dict self = Ok (data, self') ->
  dict_mem "volumes_public" data = false /\
  dict_get "volumes" data = Some (get_default self "volumes_public" (JList [])) /\
  (hasattr self "containers" = true ->
   dict_get "containers" data = dict_get "containers" self').
Proof.
  unfold Pod_as_dict, _as_dict. intros H. inv_bind.
  match goal with
  | Hb : as_dict_body _ _ = Ok ?r |- _ =>
      destruct r as [shown pod];
      destruct (as_dict_body_Ok _ _ _ _ Hb) as (Hpub & Hvol & Hcs & _)
  end.
  cbn [fst snd].
  assert (Hkeep : forall k, ~ In k hide_fields ->
                            dict_mem k (hide shown) = dict_mem k shown)
    by (intros k Hk; now rewrite !dict_mem_get, hide_other).
  repeat split.
  - rewrite Hkeep by (simpl; intuition discriminate). exact Hpub.
  - rewrite hide_other by (simpl; intuition discriminate). exact Hvol.
  - intros Hc. rewrite hide_other by (simpl; intuition discriminate).
    now apply Hcs.
Qed.

(* --------------------------------------------------------------------- *)
(** *** What the spec adds and the pod hides *)

Lemma dict_set_set_eq (k : string) (v v' : json) (d : dict) :
  dict_set k v (dict_set k v' d) = dict_set k v d.
Proof.
  induction d as [|[k0 v0] d IH]; simpl.
  - now rewrite String.eqb_refl.
  - destruct (String.eqb k k0) eqn:E; simpl.
    + now rewrite String.eqb_refl.
    + now rewrite E, IH.
Qed.

Lemma dict_set_comm (k k' : string) (v v' : json) (d : dict) :
  k <> k' -> dict_mem k d = true ->
  dict_set k v (dict_set k' v' d) = dict_set k' v' (dict_set k v d).
Proof.
  intros Hne. induction d as [|[k0 v0] d IH]; simpl; [discriminate|].
  destruct (String.eqb_spec k k0) as [->|Hk]; intros Hmem.
  - destruct (String.eqb_spec k' k0) as [->|Hk']; [congruence|].
    simpl. rewrite String.eqb_refl.
    destruct (String.eqb_spec k' k0); [congruence | reflexivity].
  - destruct (String.eqb_spec k' k0) as [->|Hk']; simpl.
    + destruct (String.eqb_spec k k0); [congruence|].
      now rewrite String.eqb_refl.
    + destruct (String.eqb_spec k k0); [congruence|].
      destruct (String.eqb_spec k' k0); [congruence|].
      now rewrite IH.
Qed.

Lemma mapM_app_Raise {A B : Type} (f : A -> result B) (l1 l2 : list A) (e : exn) :
  mapM f l1 = Raise e -> mapM f (l1 ++ l2) = Raise e.
Proof.
  induction l1 as [|x l1 IH]; simpl; [discriminate|].
  destruct (f x); simpl; [|auto].
  destruct (mapM f l1); simpl; [discriminate|].
  intros H. now rewrite (IH H).
Qed.

Lemma somes_app {A : Type} (a b : list (option A)) :
  somes (a ++ b) = (somes a ++ somes b)%list.
Proof.
  induction a as [|[x|] a IH]; simpl; [reflexivity | now rewrite IH | exact IH].
Qed.

Lemma mapM_same {A B : Type} (f : A -> result B) (l l' : list A) :
  Forall2 (fun a b => f a = f b) l l' -> mapM f l = mapM f l'.
Proof. induction 1 as [|a b l l' Hab _ IH]; simpl; [reflexivity | now rewrite Hab, IH]. Qed.

(** Mounts that [_as_dict] skips, appended to the mounts of a container,
    and a variable named [KUBERDOCK_SERVICE] put before its variables, do
    not show. *)
Lemma public_container_plus (d D : dict) (ms extra old : list json)
  (value : json) :
  dict_get "volumeMounts" d = Some (JList ms) ->
  get_default d "env" (JList []) = JList old ->
  dict_get "volumeMounts" D = Some (JList (ms ++ extra)) ->
  dict_get "env" D
  = Some (JList (JDict [("name", JStr "KUBERDOCK_SERVICE"); ("value", value)]
                 :: old)) ->
  Forall (fun m => visible_mount m = Ok None) extra ->
  (forall V E, dict_set "env" E (dict_set "volumeMounts" V D)
               = dict_set "env" E (dict_set "volumeMounts" V d)) ->
  public_container (JDict D) = public_container (JDict d).
Proof.
  intros Hms Hold HmsD HenvD Hextra Hsame.
  unfold public_container, get, as_dict. cbn [bind].
  unfold get_default at 1 3. rewrite Hms, HmsD. cbn [iter bind].
  destruct (mapM visible_mount ms) as [shown|e] eqn:Hshown.
  - assert (Hall : mapM visible_mount (ms ++ extra)
                   = Ok (shown ++ map (fun _ => None) extra)%list).
    { apply mapM_app_Ok; [assumption|]. clear -Hextra.
      induction Hextra as [|m extra Hm _ IH]; simpl; [reflexivity|].
      now rewrite Hm, IH. }
    rewrite Hall. cbn [bind set_item].
    assert (Hsomes : somes (shown ++ map (fun _ => None) extra) = somes shown).
    { rewrite somes_app. clear. induction extra; simpl;
        [apply app_nil_r | assumption]. }
    rewrite Hsomes.
    unfold get_default.
    rewrite !dict_get_set_neq by discriminate.
    rewrite HenvD. fold (get_default d "env" (JList [])). rewrite Hold.
    cbn [iter bind filterM item subscript dict_get String.eqb Ascii.eqb
         Bool.eqb in_tuple existsb py_eq negb orb].
    destruct (filterM _ old); cbn [bind set_item]; [|reflexivity].
    now rewrite Hsame.
  - now rewrite (mapM_app_Raise _ _ _ _ Hshown).
Qed.

Lemma Forall2_with_left {A B : Type} (P : A -> Prop) (Q : A -> B -> Prop)
  (l : list A) (l' : list B) :
  Forall P l -> Forall2 Q l l' -> Forall2 (fun x y => P x /\ Q x y) l l'.
Proof.
  intros HP HQ. induction HQ; inversion HP; subst; constructor; auto.
Qed.

Lemma replace_prefixed_none (prefix : string) (l : list json) (new : json) :
  Forall (fun m => name_startswith prefix m = Ok false) l ->
  replace_prefixed prefix l new = Ok (l ++ [new])%list.
Proof.
  intros F. unfold replace_prefixed.
  assert (H : mapM (name_startswith prefix) l = Ok (map (fun _ => false) l)).
  { induction F as [|m l Hm _ IH]; simpl; [reflexivity|]. now rewrite Hm, IH. }
  rewrite H. cbn [bind]. do 2 f_equal.
  clear. induction l as [|m l IH]; simpl; [reflexivity | now rewrite IH].
Qed.

(** What the three additions of [prepare] make of one container. *)
Lemma tools_added (containers cs1 vols vols1 : list json) (n : nat) :
  Forall no_tools_mount containers ->
  add_kdtools containers vols n = Ok (cs1, vols1) ->
  Forall2 (fun c c1 =>
             exists d ms,
               c = JDict d /\ dict_get "volumeMounts" d = Some (JList ms) /\
               c1 = JDict (dict_set "volumeMounts"
                             (JList (ms ++ [kdtools_mount n])) d))
          containers cs1.
Proof.
  unfold add_kdtools. intros Hno H. inv_bind.
  match goal with
  | Hm : mapM _ containers = Ok _ |- _ => apply mapM_Forall2 in Hm;
      pose proof (Forall2_with_left _ _ _ _ Hno Hm) as F
  end.
  eapply Forall2_weaken; [|exact F].
  intros c c1 [Hc H1]. cbn beta in H1. inv_bind.
  destruct c; try discriminate.
  match goal with
  | Hi : item (JDict ?d) "volumeMounts" = Ok ?m, Hl : as_list ?m = Ok ?ms |- _ =>
      exists d, ms;
      destruct m; try discriminate Hl; injection Hl as ->;
      unfold item, subscript in Hi;
      destruct (dict_get "volumeMounts" d) eqn:Hd; [|discriminate Hi];
      injection Hi as ->
  end.
  split; [reflexivity|]. split; [reflexivity|].
  match goal with
  | Hr : replace_prefixed _ _ _ = Ok _ |- _ =>
      rewrite replace_prefixed_none in Hr by (now apply (Hc d)); 
      injection Hr as <-
  end.
  simpl in H1. now injection H1 as <-.
Qed.

Lemma variable_added (cs1 cs2 : list json) (service : json) :
  add_kdenvs cs1 [("KUBERDOCK_SERVICE", service)] = Ok cs2 ->
  Forall2 (fun c1 c2 =>
             exists d old,
               c1 = JDict d /\ get_default d "env" (JList []) = JList old /\
               c2 = JDict (dict_set "env"
                             (JList (service_variable service :: old)) d))
          cs1 cs2.
Proof.
  unfold add_kdenvs. intros H. apply mapM_Forall2 in H.
  eapply Forall2_weaken; [|exact H].
  intros c1 c2 Hc. cbn beta in Hc. inv_bind.
  destruct c1; try discriminate.
  match goal with
  | Hg : get (JDict ?d) "env" _ = Ok ?e |- _ =>
      simpl in Hg; injection Hg as <-; exists d
  end.
  destruct (get_default d "env" (JList [])) eqn:Henv; try discriminate.
  exists l. inv_bind. split; [reflexivity|]. split; [reflexivity|].
  simpl in Hc. now injection Hc as <-.
Qed.

Lemma stub_added (cs2 cs3 vols1 vols3 : list json) (m : nat) :
  add_serviceaccount_stub cs2 vols1 m = Ok (cs3, vols3) ->
  Forall2 (fun c2 c3 =>
             exists d ms,
               c2 = JDict d /\ dict_get "volumeMounts" d = Some (JList ms) /\
               c3 = JDict (dict_set "volumeMounts"
                             (JList (ms ++ [stub_mount m])) d))
          cs2 cs3.
Proof.
  unfold add_serviceaccount_stub. intros H. inv_bind.
  match goal with
  | Hm : mapM _ cs2 = Ok _ |- _ => apply mapM_Forall2 in Hm;
      eapply Forall2_weaken; [|exact Hm]
  end.
  intros c c1 H1. cbn beta in H1. inv_bind.
  destruct c; try discriminate.
  match goal with
  | Hi : item (JDict ?d) "volumeMounts" = Ok ?m, Hl : as_list ?m = Ok ?ms |- _ =>
      exists d, ms;
      destruct m; try discriminate Hl; injection Hl as ->;
      unfold item, subscript in Hi;
      destruct (dict_get "volumeMounts" d) eqn:Hd; [|discriminate Hi];
      injection Hi as ->
  end.
  split; [reflexivity|]. split; [reflexivity|].
  simpl in H1. now injection H1 as <-.
Qed.

(** X9 ([add_kdtools], [add_kdenvs], [add_serviceaccount_stub],
    [Pod._as_dict]): what [prepare] adds to the containers of the spec is
    what [_as_dict] takes out again.  For containers that mount no volume
    named with the tools prefix, the loop of [_as_dict] gives the same for
    the containers with the tools mount and the service variable added, with
    or without the stub of the service account, as for the containers
    themselves, exceptions included. *)
Theorem additions_do_not_show (containers cs1 cs2 vols vols1 : list json)
  (n : nat) (service : json) :
  Forall no_tools_mount containers ->
  add_kdtools containers vols n = Ok (cs1, vols1) ->
  add_kdenvs cs1 [("KUBERDOCK_SERVICE", service)] = Ok cs2 ->
  mapM public_container cs2 = mapM public_container containers /\
  (forall cs3 vols3 m,
      add_serviceaccount_stub cs2 vols1 m = Ok (cs3, vols3) ->
      mapM public_container cs3 = mapM public_container containers).
Proof.
  intros Hno H1 H2.
  pose proof (tools_added _ _ _ _ _ Hno H1) as F1.
  pose proof (variable_added _ _ _ H2) as F2.
  pose proof (Forall2_chain _ _ _ _ _ F1 F2) as F12.
  assert (Hkd : visible_mount (kdtools_mount n) = Ok None) by reflexivity.
  split.
  - symmetry. apply mapM_same. eapply Forall2_weaken; [|exact F12].
    intros c c2 (c1 & (d & ms & -> & Hms & ->) & (d1 & old & Hd1 & Hold & ->)).
    injection Hd1 as <-. symmetry.
    unfold get_default in Hold.
    rewrite dict_get_set_neq in Hold by discriminate.
    eapply (public_container_plus d _ ms [kdtools_mount n] old service);
      [ exact Hms | exact Hold
      | rewrite dict_get_set_neq by discriminate; apply dict_get_set_eq
      | apply dict_get_set_eq
      | repeat constructor
      | ].
    intros V E.
    assert (Hmem : dict_mem "volumeMounts" d = true)
      by (now rewrite dict_mem_get, Hms).
    rewrite (dict_set_comm "volumeMounts" "env")
      by (try discriminate;
          now rewrite dict_mem_get, dict_get_set_eq).
    now rewrite !dict_set_set_eq.
  - intros cs3 vols3 m H3.
    pose proof (stub_added _ _ _ _ _ H3) as F3.
    pose proof (Forall2_chain _ _ _ _ _ F12 F3) as F123.
    assert (Hstub : visible_mount (stub_mount m) = Ok None) by reflexivity.
    symmetry. apply mapM_same. eapply Forall2_weaken; [|exact F123].
    intros c c3 (c2 & (c1 & (d & ms & -> & Hms & ->)
                          & (d1 & old & Hd1 & Hold & ->))
                    & (d2 & ms2 & Hd2 & Hms2 & ->)).
    injection Hd1 as <-. injection Hd2 as <-. symmetry.
    unfold get_default in Hold.
    rewrite dict_get_set_neq in Hold by discriminate.
    rewrite dict_get_set_neq, dict_get_set_eq in Hms2 by discriminate.
    injection Hms2 as <-.
    eapply (public_container_plus d _ ms [kdtools_mount n; stub_mount m]
              old service);
      [ exact Hms | exact Hold
      | rewrite dict_get_set_eq; now rewrite <- app_assoc
      | rewrite dict_get_set_neq by discriminate; apply dict_get_set_eq
      | repeat constructor
      | ].
    intros V E.
    assert (Hmem : dict_mem "volumeMounts" d = true)
      by (now rewrite dict_mem_get, Hms).
    rewrite dict_set_set_eq.
    rewrite (dict_set_comm "volumeMounts" "env")
      by (try discriminate;
          now rewrite dict_mem_get, dict_get_set_eq).
    now rewrite !dict_set_set_eq.
Qed.

(* ===================================================================== *)
(** ** The volumes of a pod *)
(* ===================================================================== *)

Lemma hashable_eq_congr (a b c : hashable) :
  hashable_eq a b = true -> hashable_eq c a = hashable_eq c b.
Proof.
  intros Hab. destruct (hashable_eq c b) eqn:Hcb.
  - apply hashable_eq_trans with (b := b); [assumption|].
    now rewrite hashable_eq_sym.
  - destruct (hashable_eq c a) eqn:Hca; [|reflexivity].
    rewrite <- Hcb. symmetry.
    now apply hashable_eq_trans with (b := a).
Qed.

Lemma hmap_get_set (k k' : hashable) (v : json) (m : hmap) :
  hmap_get k (hmap_set k' v m)
  = if hashable_eq k k' then Some v else hmap_get k m.
Proof.
  induction m as [|[k0 v0] m IH]; simpl; [reflexivity|].
  destruct (hashable_eq k' k0) eqn:E; simpl.
  - rewrite (hashable_eq_congr _ _ k E).
    now destruct (hashable_eq k k0).
  - destruct (hashable_eq k k0) eqn:E0; [|exact IH].
    destruct (hashable_eq k k') eqn:E1; [|reflexivity].
    rewrite hashable_eq_sym in E1.
    rewrite (hashable_eq_trans _ _ _ E1 E0) in E. discriminate E.
Qed.

Lemma hmap_set_values (P : json -> Prop) (k : hashable) (v : json) (m : hmap) :
  P v -> Forall (fun kv => P (snd kv)) m ->
  Forall (fun kv => P (snd kv)) (hmap_set k v m).
Proof.
  intros Hv. induction 1 as [|[k0 v0] m H0 Hm IH]; simpl.
  - now repeat constructor.
  - destruct (hashable_eq k k0); constructor; auto.
Qed.

Lemma hmap_update_values (P : json -> Prop) (m other : hmap) :
  Forall (fun kv => P (snd kv)) m -> Forall (fun kv => P (snd kv)) other ->
  Forall (fun kv => P (snd kv)) (hmap_update m other).
Proof.
  unfold hmap_update. intros Hm Hother. revert m Hm.
  induction Hother as [|[k v] other Hv _ IH]; intros m Hm; simpl; [assumption|].
  apply IH. now apply hmap_set_values.
Qed.

(** The values that the two loops of [get_volumes] store. *)
Lemma host_volumes_values (P : json -> Prop) (vols : list json) (acc r : hmap) :
  (forall vol path, is_host_volume vol = Ok true ->
                    host_path_of vol = Ok path -> P path) ->
  Forall (fun kv => P (snd kv)) acc ->
  foldM (fun result vol =>
           do shown <- is_host_volume vol;
           if shown then
             do path <- host_path_of vol;
             do name <- item vol "name";
             do key <- to_hashable name;
             Ok (hmap_set key path result)
           else Ok result)
        vols acc = Ok r ->
  Forall (fun kv => P (snd kv)) r.
Proof.
  intros HP. revert acc. induction vols as [|vol vols IH]; simpl; intros acc Hacc H.
  - now injection H as <-.
  - inv_bind.
    match goal with
    | Hs : is_host_volume vol = Ok ?b |- _ => destruct b
    end; inv_bind; (eapply IH; [|eassumption]); [|assumption].
    apply hmap_set_values; eauto.
Qed.

Lemma ceph_volumes_values (vols : list json) (acc r : hmap) :
  Forall (fun kv => snd kv = JStr "ceph") acc ->
  foldM (fun ceph vol =>
           do networked <- contains vol "rbd";
           if networked then
             do name <- item vol "name";
             do key <- to_hashable name;
             Ok (hmap_set key (JStr "ceph") ceph)
           else Ok ceph)
        vols acc = Ok r ->
  Forall (fun kv => snd kv = JStr "ceph") r.
Proof.
  revert acc. induction vols as [|vol vols IH]; simpl; intros acc Hacc H.
  - now injection H as <-.
  - inv_bind.
    match goal with
    | Hs : contains vol "rbd" = Ok ?b |- _ => destruct b
    end; inv_bind; (eapply IH; [|eassumption]); [|assumption].
    now apply (hmap_set_values (fun v => v = JStr "ceph")).
Qed.

(** X10 ([Pod.get_volumes]): the volumes that a pod reports never name the
    directory of the tools on the host as the place of a volume. *)
Theorem get_volumes_hides_tools (self : Pod) (shown : hmap) :
  get_volumes self = Ok shown ->
  Forall (fun kv => py_eq (snd kv) (JStr HOST_KDTOOLS_PATH) = false) shown.
Proof.
  unfold get_volumes. intros H. inv_bind.
  apply (hmap_update_values
           (fun v => py_eq v (JStr HOST_KDTOOLS_PATH) = false)).
  - eapply (host_volumes_values
              (fun v => py_eq v (JStr HOST_KDTOOLS_PATH) = false));
      [| |eassumption]; [|constructor].
    intros vol path Hshown Hpath. unfold is_host_volume in Hshown.
    destruct (contains vol "name") as [[|]|];
      cbn [bind negb] in Hshown; try discriminate.
    destruct (contains vol "hostPath") as [[|]|];
      cbn [bind negb] in Hshown; try discriminate.
    rewrite Hpath in Hshown. cbn [bind] in Hshown.
    injection Hshown as Hshown. apply negb_true_iff in Hshown.
    unfold in_tuple in Hshown. cbn [existsb] in Hshown.
    now rewrite orb_false_r in Hshown.
  - eapply Forall_impl; [|eapply ceph_volumes_values; [|eassumption]];
      [|constructor].
    intros [k v] Hv. cbn [snd] in *. now subst.
Qed.

Lemma ceph_volumes_bound (key : hashable) (name : json) (d : dict)
  (vols : list json) (acc r : hmap) :
  dict_mem "rbd" d = true ->
  dict_get "name" d = Some name ->
  to_hashable name = Ok key ->
  In (JDict d) vols \/ hmap_get key acc = Some (JStr "ceph") ->
  foldM (fun ceph vol =>
           do networked <- contains vol "rbd";
           if networked then
             do name <- item vol "name";
             do key <- to_hashable name;
             Ok (hmap_set key (JStr "ceph") ceph)
           else Ok ceph)
        vols acc = Ok r ->
  hmap_get key r = Some (JStr "ceph").
Proof.
  intros Hrbd Hname Hkey. revert acc.
  induction vols as [|vol vols IH]; simpl; intros acc Hin H.
  - injection H as <-. now destruct Hin.
  - inv_bind.
    match goal with
    | Hs : contains vol "rbd" = Ok ?b |- _ => destruct b
    end; inv_bind.
    + eapply IH; [|eassumption].
      destruct Hin as [[-> | Hin] | Hacc]; [right | now left | right];
        rewrite hmap_get_set.
      * match goal with
        | Hi : item (JDict d) "name" = Ok ?x |- _ =>
            unfold item, subscript in Hi; rewrite Hname in Hi;
            injection Hi as <-
        end.
        same_results. now rewrite hashable_eq_refl.
      * rewrite Hacc. now destruct (hashable_eq key _).
    + eapply IH; [|eassumption].
      destruct Hin as [[-> | Hin] | Hacc]; auto.
      simpl in *. congruence.
Qed.

Lemma hmap_update_bound (key : hashable) (c : json) (m other : hmap) :
  Forall (fun kv => snd kv = c) other ->
  hmap_get key m = Some c \/ hmap_get key other <> None ->
  hmap_get key (hmap_update m other) = Some c.
Proof.
  unfold hmap_update. intros Hother. revert m.
  induction Hother as [|[k v] other Hv _ IH]; intros m Hin; simpl.
  - destruct Hin as [Hm | Hn]; [assumption | now contradiction Hn].
  - cbn [snd] in Hv. subst v. apply IH. rewrite hmap_get_set.
    simpl in Hin. destruct (hashable_eq key k); auto.
Qed.

(** X11 ([Pod.get_volumes]): a volume on network storage is reported as
    [ceph] under its name, whatever else a volume of that name holds. *)
Theorem get_volumes_networked (self : Pod) (shown : hmap) (vols : list json)
  (d : dict) (name : json) (key : hashable) :
  get_volumes self = Ok shown ->
  dict_get "volumes" self = Some (JList vols) ->
  In (JDict d) vols ->
  dict_mem "rbd" d = true ->
  dict_get "name" d = Some name ->
  to_hashable name = Ok key ->
  hmap_get key shown = Some (JStr "ceph").
Proof.
  unfold get_volumes, get_default. intros H Hvols Hin Hrbd Hname Hkey.
  rewrite Hvols in H. cbn [iter bind] in H. inv_bind.
  apply hmap_update_bound.
  - eapply ceph_volumes_values; [|eassumption]. constructor.
  - right.
    erewrite ceph_volumes_bound; [discriminate| | | | |eassumption]; eauto.
Qed.

(* --------------------------------------------------------------------- *)
(** *** The path of a volume *)

Lemma append_volume_id_Ok (name vid v v' : json) :
  append_volume_id name vid v = Ok v' ->
  volume_id_appended name vid v v' /\
  (py_eq (match v with JDict d => py_get d "name" | _ => JNull end) name = false ->
   v' = v).
Proof.
  unfold append_volume_id. intros H. inv_bind.
  destruct v; try discriminate.
  match goal with
  | Hg : get (JDict d) "name" JNull = Ok ?x |- _ =>
      simpl in Hg; injection Hg as <-
  end.
  fold (py_get d "name") in H.
  destruct (py_eq (py_get d "name") name) eqn:Hname; cbn [negb] in H.
  - split; [|discriminate].
    unfold item, subscript in H.
    destruct (dict_get "awsElasticBlockStore" d) as [store|] eqn:Hstore;
      cbn [bind] in H; [|injection H as <-; now left].
    destruct store; try discriminate H.
    destruct (dict_get "volumeID" d0) as [old|] eqn:Hold;
      cbn [bind] in H; [|injection H as <-; now left].
    inv_bind. right. eexists d, d0, old, _.
    repeat split; eauto.
    match goal with
    | Hs : set_item (JDict d0) _ _ = Ok _ |- _ =>
        simpl in Hs; injection Hs as <-
    end.
    simpl in H. now injection H as <-.
  - injection H as <-. split; [now left | reflexivity].
Qed.

(** X12 ([Pod._update_volume_path]): without an id nothing changes;
    otherwise no attribute but [volumes] changes, no volume is added or
    removed, a volume of another name stays as it is, and a volume changes
    only by having the id added to the volume id of its block store. *)
Theorem update_volume_path_frame (self self' : Pod) (name vid : json)
  (vols : list json) :
  _update_volume_path self name vid = Ok self' ->
  dict_get "volumes" self = Some (JList vols) ->
  (vid = JNull -> self' = self) /\
  (forall k, k <> "volumes" -> dict_get k self' = dict_get k self) /\
  exists vols',
    dict_get "volumes" self' = Some (JList vols') /\
    Forall2 (fun v v' =>
               volume_id_appended name vid v v' /\
               (py_eq (match v with JDict d => py_get d "name" | _ => JNull end)
                      name = false -> v' = v))
            vols vols'.
Proof.
  intros H Hvols.
  assert (Hsame : Forall2 (fun v v' =>
            volume_id_appended name vid v v' /\
            (py_eq (match v with JDict d => py_get d "name" | _ => JNull end)
                   name = false -> v' = v)) vols vols).
  { clear. induction vols; constructor; auto. split; [now left | auto]. }
  unfold _update_volume_path in H.
  assert (Hrun : vid <> JNull ->
            (do volumes <- for_each (get_default self "volumes" (JList []))
                             (append_volume_id name vid);
             Ok (if hasattr self "volumes" then setattr self "volumes" volumes
                 else self)) = Ok self' ->
            (forall k, k <> "volumes" -> dict_get k self' = dict_get k self) /\
            exists vols',
              dict_get "volumes" self' = Some (JList vols') /\
              Forall2 (fun v v' =>
                 volume_id_appended name vid v v' /\
                 (py_eq (match v with JDict d => py_get d "name" | _ => JNull end)
                        name = false -> v' = v)) vols vols').
  { clear H Hsame. intros _ H. unfold get_default, hasattr in H.
    rewrite dict_mem_get, Hvols in H. cbn [for_each bind] in H. inv_bind.
    split.
    - intros k Hk. unfold setattr. now apply dict_get_set_neq.
    - eexists. split; [apply dict_get_set_eq|].
      match goal with
      | Hm : mapM _ vols = Ok _ |- _ => apply mapM_Forall2 in Hm;
          eapply Forall2_weaken; [|exact Hm]
      end.
      intros v v' Hv. now apply append_volume_id_Ok. }
  destruct vid;
    try (destruct (Hrun ltac:(discriminate) H) as (Hother & Hvols');
         split; [discriminate|]; split; assumption).
  injection H as <-. split; [reflexivity|]. split; [reflexivity|].
  exists vols. split; assumption.
Qed.

(* ===================================================================== *)
(** ** The desired status of a pod *)
(* ===================================================================== *)

Lemma find_row_id (id : json) (rows : list DbPod) (row : DbPod) :
  find_row id rows = Some row -> py_eq (db_id row) id = true.
Proof.
  induction rows as [|r rows IH]; simpl; [discriminate|].
  destruct (py_eq (db_id r) id) eqn:E; [|exact IH].
  now intros [= <-].
Qed.

(** How [set_status] runs once the record of the pod is known. *)
Lemma set_status_run (self : Pod) (status id : json) (force : bool)
  (w : World) (row : DbPod) :
  getattr self "id" = Ok id ->
  find_row id (db_pods w) = Some row ->
  set_status self status force w
  = if py_eq (get_default self "status" JNull) (JStr POD_STATUSES_unpaid)
       && negb force
    then (Raise (APIError ("Not allowed to change " ++ quoted "unpaid"
                           ++ " status.") None), w)
    else if py_eq (db_status row) (JStr POD_STATUSES_deleted)
    then (Raise (APIError ("Not allowed to change " ++ quoted "deleted"
                           ++ " status.") None), w)
    else (Ok (setattr self "status" status),
          mkWorld (requests w)
            (update_row id
               (fun r => mkDbPod (db_id r) (db_name r) (db_namespace r)
                           (db_owner r) (db_config r) status)
               (db_pods w))
            (net_calls w)).
Proof.
  intros Hid Hrow. unfold set_status.
  destruct (py_eq _ (JStr POD_STATUSES_unpaid) && negb force); [reflexivity|].
  rewrite (bindO_lift_Ok _ _ _ _ Hid).
  unfold bindO at 1. rewrite Hrow.
  destruct (py_eq (db_status row) (JStr POD_STATUSES_deleted)); [reflexivity|].
  now rewrite (bindO_lift_Ok _ _ _ _ Hid).
Qed.

(** X13 ([Pod.set_status]): the status of a pod whose record is deleted is
    never changed, not even when forced, and the status of an unpaid pod is
    changed only when forced: in both cases the call raises and leaves the
    pod, the persisted layer and everything else as they are. *)
Theorem set_status_refuses (self : Pod) (status id : json) (force : bool)
  (w : World) (row : DbPod) :
  getattr self "id" = Ok id ->
  find_row id (db_pods w) = Some row ->
  py_eq (db_status row) (JStr POD_STATUSES_deleted) = true \/
  (py_eq (get_default self "status" JNull) (JStr POD_STATUSES_unpaid) = true /\
   force = false) ->
  exists message,
    set_status self status force w = (Raise (APIError message None), w).
Proof.
  intros Hid Hrow Hwhy. rewrite (set_status_run _ _ _ _ _ _ Hid Hrow).
  destruct Hwhy as [Hdeleted | [Hunpaid ->]].
  - rewrite Hdeleted. destruct (_ && _); eauto.
  - rewrite Hunpaid. simpl. eauto.
Qed.

(** X14 ([Pod.set_status]): when [set_status] returns, the pod and its
    persisted record both carry the new status, no other attribute of the
    pod has changed, no request was made, and before the call the record
    was not deleted and the pod was not unpaid unless the call was forced. *)
Theorem set_status_stores (self self' : Pod) (status id : json) (force : bool)
  (w w' : World) (row : DbPod) :
  getattr self "id" = Ok id ->
  find_row id (db_pods w) = Some row ->
  set_status self status force w = (Ok self', w') ->
  getattr self' "status" = Ok status /\
  (forall a, a <> "status" -> dict_get a self' = dict_get a self) /\
  (exists row', find_row id (db_pods w') = Some row' /\
                db_status row' = status /\ db_config row' = db_config row) /\
  requests w' = requests w /\
  py_eq (db_status row) (JStr POD_STATUSES_deleted) = false /\
  (py_eq (get_default self "status" JNull) (JStr POD_STATUSES_unpaid) = true ->
   force = true).
Proof.
  intros Hid Hrow. rewrite (set_status_run _ _ _ _ _ _ Hid Hrow).
  destruct (py_eq (get_default self "status" JNull) (JStr POD_STATUSES_unpaid))
    eqn:Hunpaid;
    destruct force; cbn [andb negb];
    try discriminate;
    (destruct (py_eq (db_status row) (JStr POD_STATUSES_deleted)) eqn:Hdel;
     [discriminate|]);
    intros [= <- <-]; cbn [requests db_pods];
    (split; [apply getattr_setattr_eq|]);
    (split; [intros a Ha; unfold setattr; now apply dict_get_set_neq|]);
    (split; [eexists; split;
             [apply find_row_update; [reflexivity | exact Hrow]
             | split; reflexivity]|]);
    repeat split; auto; discriminate.
Qed.

(* ===================================================================== *)
(** ** Operations that leave the persisted layer alone *)
(* ===================================================================== *)















(* --------------------------------------------------------------------- *)
(** *** Deleting a pod *)





(* --------------------------------------------------------------------- *)
(** *** Looking things up *)

Lemma filterM_Ok {A : Type} (keep : A -> result bool) (l found : list A) :
  filterM keep l = Ok found ->
  Forall (fun x => In x l /\ keep x = Ok true) found /\
  (found = [] -> Forall (fun x => keep x = Ok false) l).
Proof.
  revert found. induction l as [|x l IH]; simpl; intros found H.
  - injection H as <-. split; [constructor | constructor].
  - inv_bind.
    match goal with
    | Hr : filterM keep l = Ok ?rest |- _ =>
        destruct (IH _ Hr) as [Hall Hnone]
    end.
    match goal with
    | Hx : keep x = Ok ?b |- _ => destruct b
    end.
    + split; [|discriminate].
      constructor; [split; [now left | assumption]|].
      eapply Forall_impl; [|exact Hall]. intros y [Hy Hk]. split; auto.
    + split.
      * eapply Forall_impl; [|exact Hall]. intros y [Hy Hk]. split; auto.
      * intros ->. constructor; auto.
Qed.

Lemma filterM_Raise {A : Type} (keep : A -> result bool) (l : list A) (e : exn) :
  filterM keep l = Raise e -> exists x, In x l /\ keep x = Raise e.
Proof.
  induction l as [|x l IH]; simpl; [discriminate|].
  destruct (keep x) as [b|e'] eqn:Hx; simpl.
  - destruct (filterM keep l) as [rest|e'']; simpl; [discriminate|].
    intros [= ->]. destruct (IH eq_refl) as (y & Hy & Hk). eauto.
  - intros [= ->]. eauto.
Qed.

(** X16 ([PodCollection.get_by_id]): the lookup changes nothing in the
    world.  A pod that it returns is a pod of the collection with the id
    asked for; it raises "No such item" with code 404 exactly when every pod
    of the collection has an id and none has the one asked for, and any
    other exception is the missing id attribute of a pod. *)
Theorem get_by_id_finds (collection : Collection) (pod_id : json)
  (w w' : World) (r : result Pod) :
  get_by_id collection pod_id w = (r, w') ->
  w' = w /\
  match r with
  | Ok pod =>
      In pod (map snd collection) /\
      exists id, getattr pod "id" = Ok id /\ py_eq id pod_id = true
  | Raise e =>
      (e = APIError "No such item" (Some 404) /\
       Forall (fun p => exists id, getattr p "id" = Ok id /\
                                   py_eq id pod_id = false)
              (map snd collection))
      \/
      (e = AttributeError "id" /\
       exists p, In p (map snd collection) /\ hasattr p "id" = false)
  end.
Proof.
  unfold get_by_id, bindO, lift, _raise, throw, ret.
  destruct (filterM _ (map snd collection)) as [found|e] eqn:Hf.
  - destruct (filterM_Ok _ _ _ Hf) as [Hall Hnone].
    destruct found as [|pod rest]; intros [= <- <-]; (split; [reflexivity|]).
    + left. split; [reflexivity|].
      eapply Forall_impl; [|exact (Hnone eq_refl)].
      intros p Hp. cbn beta in Hp.
      destruct (getattr p "id") as [id|]; [|discriminate].
      simpl in Hp. injection Hp as Hp. eauto.
    + inversion Hall as [|? ? [Hin Hkeep] _]; subst.
      split; [assumption|].
      destruct (getattr pod "id") as [id|]; [|discriminate].
      simpl in Hkeep. injection Hkeep as Hkeep. eauto.
  - intros [= <- <-]. split; [reflexivity|]. right.
    destruct (filterM_Raise _ _ _ Hf) as (p & Hin & Hp).
    cbn beta in Hp. unfold getattr in Hp.
    destruct (dict_get "id" p) eqn:Hid; [discriminate|].
    simpl in Hp. injection Hp as <-.
    split; [reflexivity|]. exists p. split; [assumption|].
    unfold hasattr. now rewrite dict_mem_get, Hid.
Qed.

(* --------------------------------------------------------------------- *)
(** *** Namespaces *)

(** X17 ([PodCollection._make_namespace], [PodCollection._get_namespace]):
    a namespace is looked up first and created only when the lookup answers
    with code 404; the answer to the creation is not looked at, so the
    method returns normally either way, and the persisted layer is not
    touched. *)
Theorem make_namespace_creates_missing (namespace code : json) (w : World) :
  get (kube (requests w) (namespace_lookup namespace)) "code" JNull = Ok code ->
  _make_namespace namespace w
  = (Ok tt,
     mkWorld (requests w
              ++ namespace_lookup namespace
              :: (if py_eq code (JNum 404)
                  then [namespace_creation namespace] else []))%list
       (db_pods w) (net_calls w)).
Proof.
  intros Hcode. unfold _make_namespace, bindO.
  rewrite get_namespace_run. fold (namespace_lookup namespace).
  rewrite Hcode.
  destruct (py_eq code (JNum 404)).
  - unfold _post, request, ret. cbn [requests db_pods net_calls].
    now rewrite <- app_assoc.
  - destruct (kube (requests w) (namespace_lookup namespace));
      try discriminate Hcode.
    reflexivity.
Qed.

(** X18 ([PodCollection._get_namespaces]): for an owner, one request lists
    the namespaces and nothing else happens; every name returned begins with
    the user name followed by a dash and ends with [-pods]. *)
Theorem get_namespaces_of_owner (owner names : json) (username : string)
  (w w' : World) :
  owner <> JNull ->
  attribute owner "username" = Ok (JStr username) ->
  _get_namespaces owner w = (Ok names, w') ->
  w' = mkWorld (requests w ++ [namespaces_request])%list (db_pods w)
         (net_calls w) /\
  exists l,
    names = JList l /\
    Forall (fun n => exists s, n = JStr s /\
                               startswith (username ++ "-") s = true /\
                               endswith "-pods" s = true) l.
Proof.
  intros Hne Huser.
  assert (Hfold : forall items acc r,
    foldM (fun names namespace =>
             do metadata <- get namespace "metadata" (JDict []);
             do name <- get metadata "name" (JStr "");
             match name with
             | JStr name =>
                 do username <- attribute owner "username";
                 match username with
                 | JStr username =>
                     Ok (if startswith (username ++ "-") name
                            && endswith "-pods" name
                         then (names ++ [JStr name])%list
                         else names)
                 | _ => Raise TypeError
                 end
             | _ => Raise (AttributeError "startswith")
             end) items acc = Ok r ->
    Forall (fun n => exists s, n = JStr s /\
                               startswith (username ++ "-") s = true /\
                               endswith "-pods" s = true) acc ->
    Forall (fun n => exists s, n = JStr s /\
                               startswith (username ++ "-") s = true /\
                               endswith "-pods" s = true) r).
  { induction items as [|it items IH]; simpl; intros acc r H Hacc.
    - now injection H as <-.
    - inv_bind.
      match goal with
      | Hn : get _ "name" _ = Ok ?n |- _ => destruct n; try discriminate
      end.
      rewrite Huser in *. inv_bind.
      eapply IH; [eassumption|].
      destruct (startswith (username ++ "-") s && endswith "-pods" s) eqn:E;
        [|assumption].
      apply andb_true_iff in E. destruct E as [Hpre Hsuf].
      apply Forall_app. split; [assumption|].
      constructor; [|constructor]. eauto. }
  unfold _get_namespaces, _get, bindO at 1. rewrite request_run.
  fold namespaces_request.
  unfold bindO, lift, ret.
  destruct (item _ "items") as [items|]; [|discriminate].
  destruct owner as [| | | | |fields]; try discriminate Huser.
  destruct (iter items) as [its|]; [|discriminate].
  match goal with
  | |- context [foldM ?f its []] =>
      destruct (foldM f its []) as [found|] eqn:Hl; [|discriminate]
  end.
  intros [= <- <-]. split; [reflexivity|].
  exists found. split; [reflexivity|].
  eapply Hfold; [exact Hl | constructor].
Qed.

(* --------------------------------------------------------------------- *)
(** *** Replication controllers *)

Lemma replica_item_keys (it : json) (r : dict) :
  replica_item it = Ok r ->
  map fst r = ["id"; "sid"; "replicas"; "replicaSelector"; "name"].
Proof. unfold replica_item. intros H. inv_bind. reflexivity. Qed.

(** X19 ([PodCollection._get_replicas]): one request lists the replication
    controllers and nothing else happens; every controller returned has the
    five entries [id], [sid], [replicas], [replicaSelector] and [name], and,
    when a name is asked for, a selector equal to it. *)
Theorem get_replicas_selected (name : json) (w w' : World)
  (replicas : list dict) :
  _get_replicas name w = (Ok replicas, w') ->
  w' = mkWorld (requests w ++ [replicas_request])%list (db_pods w)
         (net_calls w) /\
  Forall (fun r =>
            map fst r = ["id"; "sid"; "replicas"; "replicaSelector"; "name"] /\
            (name <> JNull ->
             py_eq (py_get r "replicaSelector") name = true))
         replicas.
Proof.
  intros H. split.
  { rewrite <- get_replicas_world with (name := name). now rewrite H. }
  assert (Hfold : forall its acc found,
    Forall (fun r : dict =>
              map fst r = ["id"; "sid"; "replicas"; "replicaSelector"; "name"] /\
              (name <> JNull ->
               py_eq (py_get r "replicaSelector") name = true)) acc ->
    foldM (fun replicas it =>
             match replica_item it with
             | Ok r =>
                 match name with
                 | JNull => Ok (replicas ++ [r])%list
                 | _ =>
                     if negb (py_eq (py_get r "replicaSelector") name)
                     then Ok replicas
                     else Ok (replicas ++ [r])%list
                 end
             | Raise (KeyError _) => Ok replicas
             | Raise e => Raise e
             end) its acc = Ok found ->
    Forall (fun r : dict =>
              map fst r = ["id"; "sid"; "replicas"; "replicaSelector"; "name"] /\
              (name <> JNull ->
               py_eq (py_get r "replicaSelector") name = true)) found).
  { induction its as [|it its IH]; simpl; intros acc found Hacc Hf.
    - now injection Hf as <-.
    - inv_bind. eapply IH; [|eassumption].
      destruct (replica_item it) as [r|e] eqn:Hr.
      + pose proof (replica_item_keys _ _ Hr) as Hkeys.
        destruct name;
          try (destruct (py_eq (py_get r "replicaSelector") _) eqn:Hsel;
               cbn [negb] in *; inv_bind;
               [apply Forall_app; split; [assumption|];
                constructor; [split; [assumption | intros _; assumption]
                             | constructor]
               | assumption]).
        inv_bind. apply Forall_app. split; [assumption|].
        constructor; [split; [assumption | congruence] | constructor].
      + destruct e; try discriminate. inv_bind. assumption. }
  revert H. unfold _get_replicas, _get, bindO at 1. rewrite request_run.
  unfold bindO, lift.
  destruct (item _ "items") as [items|]; [|discriminate].
  destruct (iter items) as [its|]; [|discriminate].
  intros [= H _]. eapply Hfold; [|exact H]. constructor.
Qed.

(* --------------------------------------------------------------------- *)
(** *** Stopping a started pod *)


End Kuberdock.

(* ===================================================================== *)
(** ** The properties on the sample deployment *)
(* ===================================================================== *)

(** The per-container transform on a descriptor with a public UDP port that
    asks for a host port, and a port without protocol, for the user bob. *)
Lemma prepare_container_ports_witness :
  exists data' limited name d,
    _prepare_container sample_env bob_pod nginx_container JNull = Ok data' /\
    strip_and_limit sample_env nginx_container JNull = Ok limited /\
    owner_name bob_pod = Ok name /\
    data' = JDict d /\
    dict_get "imagePullPolicy" d = Some (JStr "Always") /\
    forall ports,
      dict_get "ports" limited = Some (JList ports) ->
      exists ports',
        dict_get "ports" d = Some (JList ports') /\
        Forall2 protocol_normalized ports ports' /\
        Forall (port_prepared
                  (py_eq name (JStr (internal_user_of sample_env)))) ports'.
Proof.
  eexists.
  assert (H : _prepare_container sample_env bob_pod nginx_container JNull
              = Ok _) by (vm_compute; reflexivity).
  destruct (prepare_container_ports sample_env bob_pod nginx_container JNull
              _ H) as (limited & name & d & H1 & H2 & H3 & H4 & H5).
  exists limited, name, d. repeat split; assumption.
Defined.

(** Provisioning the volume of bob that names the disk "data": the deleted
    disk is resurrected with the three units requested, and the disk in use
    makes provisioning fail when reuse is not requested. *)
Lemma handle_persistent_storage_existing_witness :
  (nth_error
     (disks (snd (_handle_persistent_storage sample_env bob_pod resurrecting
                    false))) 1
   = Some (mkDisk (JStr "d-7") (JNum 1) (JStr "data") (JNum 3) PENDING) /\
   fst (_handle_persistent_storage sample_env bob_pod resurrecting false)
   = Ok tt)
  /\
  (fst (_handle_persistent_storage sample_env bob_pod conflicting false)
   = Raise (VolumeExists (JStr "data") (JStr "d-7")) /\
   disks (snd (_handle_persistent_storage sample_env bob_pod conflicting false))
   = disks conflicting /\
   volume_public
     (snd (_handle_persistent_storage sample_env bob_pod conflicting false))
   = volume_public conflicting /\
   volume (snd (_handle_persistent_storage sample_env bob_pod conflicting false))
   = JDict [("name", JStr "vol1")]).
Proof.
  split.
  - destruct (handle_persistent_storage_existing sample_env bob_pod
                resurrecting false _ _ _ _ _ 1%nat deleted_disk
                eq_refl eq_refl eq_refl eq_refl eq_refl eq_refl)
      as [Hdeleted _].
    destruct (Hdeleted eq_refl) as (size & Hsize & Hdisk & Hok).
    injection Hsize as <-. split; [exact Hdisk|].
    exact (Hok _ _ eq_refl eq_refl).
  - destruct (handle_persistent_storage_existing sample_env bob_pod
                conflicting false _ _ _ _ _ 1%nat active_disk
                eq_refl eq_refl eq_refl eq_refl eq_refl eq_refl)
      as [_ Hconflict].
    apply Hconflict; [discriminate | reflexivity].
Defined.

(** The claim as first stated fails: when provisioning is refused for the
    disk in use, the volume of the spec is no longer what it was. *)
Lemma conflict_changes_the_volume :
  fst (_handle_persistent_storage sample_env bob_pod conflicting false)
  = Raise (VolumeExists (JStr "data") (JStr "d-7")) /\
  volume (snd (_handle_persistent_storage sample_env bob_pod conflicting false))
  <> volume conflicting.
Proof. split; [reflexivity | discriminate]. Qed.

(** [populate] on a pod that the orchestrator reports as Running before any
    container status is known. *)
Lemma populate_without_container_statuses_witness :
  exists pod spec described cs containers cs',
    populate sample_env running_item = Ok pod /\
    get running_item "spec" (JDict []) = Ok spec /\
    get spec "containers" (JList []) = Ok described /\
    iter described = Ok cs /\
    getattr pod "status" = Ok (JStr "running") /\
    getattr pod "containers" = Ok containers /\
    iter containers = Ok cs' /\
    length cs' = 2%nat /\
    Forall (phase_only "running") cs' /\
    Forall2 (phase_only_from "running") cs cs' /\
    getattr pod "ready" = Ok (JBool false).
Proof.
  eexists.
  assert (H : populate sample_env running_item = Ok _)
    by (vm_compute; reflexivity).
  destruct (populate_without_container_statuses sample_env running_item
              _ _ _ "Running" H eq_refl eq_refl eq_refl eq_refl eq_refl)
    as (spec & described & cs & containers & cs' & H1 & H2 & H3 & H4 & H5
        & H6 & H7 & H8 & H9 & _ & _ & H12 & _).
  exists spec, described, cs, containers, cs'.
  assert (Hcs : cs = [JDict [("name", JStr "nginx"); ("image", JStr "nginx")];
                      JDict [("name", JStr "redis"); ("image", JStr "redis")]]).
  { injection H1 as <-. injection H2 as <-. now injection H3 as <-. }
  split; [reflexivity|]. split; [assumption|]. split; [assumption|].
  split; [assumption|]. split; [assumption|]. split; [assumption|].
  split; [assumption|]. split; [now rewrite H7, Hcs|].
  split; [assumption|]. split; [assumption|].
  apply H12; rewrite Hcs; [discriminate | repeat constructor].
Defined.

(** The claim as first stated fails: the only container of this running pod
    comes with a ready entry, no container status is reported, and the pod
    that [populate] builds has its container and is ready. *)
Lemma populate_ready_without_statuses :
  exists pod,
    populate sample_env ready_item = Ok pod /\
    getattr pod "containers"
    = Ok (JList [JDict [("name", JStr "nginx");
                        ("image", JStr "nginx");
                        ("ready", JBool true);
                        ("state", JStr "running");
                        ("containerID", JNull);
                        ("imageID", JNull)]]) /\
    getattr pod "ready" = Ok (JBool true).
Proof.
  eexists. split; [vm_compute; reflexivity|].
  split; vm_compute; reflexivity.
Qed.

(** The merge of the persisted record of "web", which the live fetch did not
    report, into a collection that holds another pod. *)
Lemma merge_synthesizes_nothing_witness :
  Pod_init sample_env (Some (db_config shop_row)) = Ok shop_pod /\
  coll_mem (HStr "web", HStr "bob-web-pods") dns_collection = false /\
  _merge sample_env dns_collection shop_world
  = (Raise (AttributeError "_forge_dockers"), shop_world).
Proof.
  destruct (merge_synthesizes_nothing sample_env dns_collection shop_world)
    as (_ & _ & Hraise).
  split; [reflexivity|]. split; [reflexivity|].
  exact (Hraise [] shop_row [] dns_collection (HStr "web", HStr "bob-web-pods")
           shop_pod eq_refl eq_refl eq_refl eq_refl eq_refl eq_refl).
Defined.

(** Resizing "web" when the orchestrator reports its controller. *)
Lemma resize_replicas_raises_witness :
  fst (_resize_replicas sample_env shop_pod (JDict [("replicas", JNum 3)])
         shop_world) = Raise TypeError /\
  requests (snd (_resize_replicas sample_env shop_pod
                   (JDict [("replicas", JNum 3)]) shop_world))
  = [replicas_request].
Proof.
  exact (resize_replicas_raises sample_env shop_pod
           (JDict [("replicas", JNum 3)]) (JNum 3) (JStr "web") 3 shop_world
           _ [] eq_refl eq_refl eq_refl eq_refl).
Defined.

(** Deleting the service pod of the platform without force, before it was
    started and once the collection knows its workload. *)
Lemma delete_internal_pod_unguarded_witness :
  Pod_init sample_env (Some dns_document) = Ok dns_pod /\
  delete sample_env dns_collection (JStr "0d11") false dns_world
  = (Raise (AttributeError "get_config"), dns_world) /\
  delete sample_env running_dns_collection (JStr "0d11") false dns_world
  = (Raise (AttributeError "get_config"),
     mkWorld
       [workload_removal (JStr "replicationcontrollers") (JStr "d9e8")
          (JStr "kuberdock-internal-kuberdock-dns-pods")]
       [dns_row] []).
Proof.
  split; [reflexivity|]. split.
  - destruct (delete_internal_pod_unguarded sample_env dns_collection
                (JStr "0d11") dns_pod dns_world (JNum 1) eq_refl eq_refl)
      as (_ & Hnever & _).
    exact (Hnever eq_refl eq_refl).
  - destruct (delete_internal_pod_unguarded sample_env running_dns_collection
                (JStr "0d11") running_dns_pod dns_world (JNum 1)
                eq_refl eq_refl)
      as (_ & _ & Hstarted).
    exact (Hstarted (JStr "replicationcontrollers") (JStr "d9e8")
             (JStr "kuberdock-internal-kuberdock-dns-pods") (JBool false)
             eq_refl eq_refl eq_refl eq_refl eq_refl eq_refl eq_refl).
Defined.

(** Stopping a pod that was never started. *)
Lemma stop_pod_without_sid_witness :
  snd (_stop_pod sample_env dns_pod) dns_world = (Ok JNull, dns_world) /\
  getattr (fst (_stop_pod sample_env dns_pod)) "status" = Ok (JStr "stopped") /\
  (forall a, a <> "status" ->
             dict_get a (fst (_stop_pod sample_env dns_pod))
             = dict_get a dns_pod) /\
  (forall pod' w' w'' v,
      hasattr pod' "sid" = true ->
      snd (_stop_pod sample_env pod') w' = (Ok v, w'') ->
      v = JDict [("status", JStr "stopped")]).
Proof. exact (stop_pod_without_sid sample_env dns_pod dns_world eq_refl). Defined.

(** Starting "web", whose container publishes a port and whose desired
    config records no service. *)
Lemma start_pod_creates_no_service_witness :
  _start_pod sample_env shop_pod 0 shop_world
  = (Raise (AttributeError "get_config"),
     snd (_make_namespace sample_env (JStr "bob-web-pods") shop_world)) /\
  db_pods (snd (_start_pod sample_env shop_pod 0 shop_world)) = [shop_row] /\
  exists e, _run_service sample_env shop_pod shop_world = (Raise e, shop_world).
Proof.
  destruct (start_pod_creates_no_service sample_env shop_pod 0 shop_world)
    as (_ & _ & Hdb & Hraise & Hrun).
  split; [|split; [exact Hdb | exact Hrun]].
  exact (Hraise (JStr "bob-web-pods") eq_refl eq_refl eq_refl).
Defined.

(* ===================================================================== *)
(** ** The further properties on sample inputs *)
(* ===================================================================== *)

(** The id of a container as the orchestrator reports it. *)
Lemma del_docker_prefix_idempotent_witness :
  _del_docker_prefix (JStr "4f2a") = Ok (JStr "4f2a") /\
  (forall s, JStr "4f2a" = JStr s -> is_substring "docker://" s = false).
Proof.
  exact (del_docker_prefix_idempotent (JStr "docker://4f2a") (JStr "4f2a")
           eq_refl).
Defined.

Lemma del_docker_prefix_strips_witness :
  _del_docker_prefix (JStr "4f2a") = Ok (JStr "4f2a") /\
  _del_docker_prefix (JStr "docker://4f2a") = Ok (JStr "4f2a").
Proof. exact (del_docker_prefix_strips "4f2a" eq_refl). Defined.

Ltac distinct_keys :=
  repeat (constructor; [simpl; intuition discriminate|]); constructor.

(** The pod built from the document of the pod "web". *)
Lemma pod_init_attributes_witness :
  dict_mem "containers" web_document = true /\
  (forall k v, k <> "owner" -> k <> "containers" ->
               dict_get k web_document = Some v ->
               getattr (web_pod) k = Ok v) /\
  (exists id username, getattr web_pod "owner" = Ok (PodOwner id username)) /\
  (py_get web_document "owner" = JNull ->
   getattr web_pod "owner" = Ok (PodOwner JNull JNull)).
Proof.
  apply (pod_init_attributes sample_env web_document web_pod);
    [distinct_keys | reflexivity].
Defined.

(** A pod that is still pending. *)
Lemma populate_not_started_witness :
  exists pod spec described observed containers cs,
    populate sample_env pending_item = Ok pod /\
    get pending_item "spec" (JDict []) = Ok spec /\
    get spec "containers" (JList []) = Ok described /\
    iter described = Ok observed /\
    getattr pod "status" = Ok (JStr "pending") /\
    getattr pod "k8s_status" = Ok (JStr "pending") /\
    getattr pod "containers" = Ok containers /\
    iter containers = Ok cs /\
    Forall2 (forged_from (JStr "pending")) observed cs /\
    Forall (forged_as (JStr "pending")) cs /\
    getattr pod "ready"
    = Ok (JBool (match observed with [] => true | _ => false end)).
Proof.
  eexists.
  assert (H : populate sample_env pending_item = Ok _)
    by (vm_compute; reflexivity).
  destruct (populate_not_started sample_env pending_item _ _ "Pending" H
              eq_refl eq_refl eq_refl)
    as (spec & described & observed & containers & cs & Hrest).
  exists spec, described, observed, containers, cs.
  split; [exact H | exact Hrest].
Defined.

(** Two annotated volumes among other volumes, one of which is no
    dictionary. *)
Lemma extract_volume_annotations_once_witness :
  exists volumes',
    extract_volume_annotations
      (JList [JDict [("name", JStr "uploads");
                     ("annotation", JDict [("backup", JStr "daily")])];
              JDict [("name", JStr "data")];
              JList [];
              JDict [("annotation", JStr "scratch"); ("name", JStr "tmp")]])
    = Ok ([JDict [("backup", JStr "daily")]; JStr "scratch"], volumes') /\
    volumes' = JList [JDict [("name", JStr "uploads")];
                      JDict [("name", JStr "data")];
                      JList [];
                      JDict [("name", JStr "tmp")]] /\
    extract_volume_annotations volumes' = Ok ([], volumes').
Proof.
  eexists.
  assert (H : extract_volume_annotations
                (JList [JDict [("name", JStr "uploads");
                               ("annotation", JDict [("backup", JStr "daily")])];
                        JDict [("name", JStr "data")];
                        JList [];
                        JDict [("annotation", JStr "scratch");
                               ("name", JStr "tmp")]])
              = Ok _) by (vm_compute; reflexivity).
  destruct (extract_volume_annotations_once _ _ _ H) as (_ & _ & H3 & H4).
  split; [exact H|]. split; [exact H3 | exact H4].
Defined.

(** The volumes and the container of the running blog, started again. *)
Lemma add_kdtools_replaces_witness :
  exists containers' volumes',
    add_kdtools sample_env [running_blog_container]
      [uploads_volume; old_tools_volume; disk_volume] 0
    = Ok (containers', volumes') /\
    tools_replaced [uploads_volume; old_tools_volume; disk_volume] volumes'
      (kdtools_volume sample_env 0).
Proof.
  eexists _, _.
  assert (H : add_kdtools sample_env [running_blog_container]
                [uploads_volume; old_tools_volume; disk_volume] 0
              = Ok (_, _)) by (vm_compute; reflexivity).
  split; [exact H|].
  exact (proj1 (add_kdtools_replaces sample_env _ _ _ _ _ H)).
Defined.

(** What the blog shows. *)
Lemma as_dict_hides_witness :
  exists data self',
    Pod_as_dict sample_env blog_pod = Ok (data, self') /\
    Forall (fun field => dict_mem field data = false) hide_fields /\
    (forall edited,
        dict_get "edited_config" data = Some (JDict edited) ->
        Forall (fun field => dict_mem field edited = false) hide_fields).
Proof.
  eexists _, _.
  assert (H : Pod_as_dict sample_env blog_pod = Ok (_, _))
    by (vm_compute; reflexivity).
  split; [exact H|].
  exact (as_dict_hides sample_env _ _ _ H).
Defined.

Lemma as_dict_shows_public_volumes_witness :
  exists data self',
    Pod_as_dict sample_env blog_pod = Ok (data, self') /\
    dict_mem "volumes_public" data = false /\
    dict_get "volumes" data
    = Some (get_default blog_pod "volumes_public" (JList [])) /\
    dict_get "containers" data = dict_get "containers" self'.
Proof.
  eexists _, _.
  assert (H : Pod_as_dict sample_env blog_pod = Ok (_, _))
    by (vm_compute; reflexivity).
  split; [exact H|].
  destruct (as_dict_shows_public_volumes sample_env _ _ _ H)
    as (H1 & H2 & H3).
  split; [exact H1|]. split; [exact H2 | exact (H3 eq_refl)].
Defined.

(** The container of the blog with everything that a start adds to it. *)
Lemma additions_do_not_show_witness :
  exists cs1 vols1 cs2 cs3 vols3,
    add_kdtools sample_env [blog_container] [uploads_volume] 0
    = Ok (cs1, vols1) /\
    add_kdenvs cs1 [("KUBERDOCK_SERVICE", JStr "service-k3x9")] = Ok cs2 /\
    add_serviceaccount_stub sample_env cs2 vols1 1 = Ok (cs3, vols3) /\
    mapM public_container cs2 = mapM public_container [blog_container] /\
    mapM public_container cs3 = mapM public_container [blog_container].
Proof.
  eexists _, _, _, _, _.
  assert (H1 : add_kdtools sample_env [blog_container] [uploads_volume] 0
               = Ok (_, _)) by (vm_compute; reflexivity).
  match type of H1 with
  | _ = Ok (?cs1, _) =>
      assert (H2 : add_kdenvs cs1 [("KUBERDOCK_SERVICE", JStr "service-k3x9")]
                   = Ok _) by (vm_compute; reflexivity)
  end.
  match type of H1 with
  | _ = Ok (_, ?vols1) =>
      match type of H2 with
      | _ = Ok ?cs2 =>
          assert (H3 : add_serviceaccount_stub sample_env cs2 vols1 1
                       = Ok (_, _)) by (vm_compute; reflexivity)
      end
  end.
  assert (Hno : Forall no_tools_mount [blog_container]).
  { constructor; [|constructor].
    intros d mounts Hd Hm. injection Hd as <-. injection Hm as <-.
    repeat constructor. }
  destruct (additions_do_not_show sample_env _ _ _ _ _ _ _ Hno H1 H2)
    as [Hshown Hstub].
  split; [exact H1|]. split; [exact H2|]. split; [exact H3|].
  split; [exact Hshown | exact (Hstub _ _ _ H3)].
Defined.

(** The volumes that the blog reports. *)
Lemma get_volumes_hides_tools_witness :
  exists shown,
    get_volumes blog_pod = Ok shown /\
    Forall (fun kv => py_eq (snd kv) (JStr HOST_KDTOOLS_PATH) = false) shown.
Proof.
  eexists.
  assert (H : get_volumes blog_pod = Ok _) by (vm_compute; reflexivity).
  split; [exact H|].
  exact (get_volumes_hides_tools _ _ H).
Defined.

Lemma get_volumes_networked_witness :
  exists shown,
    get_volumes blog_pod = Ok shown /\
    hmap_get (HStr "data") shown = Some (JStr "ceph").
Proof.
  eexists.
  assert (H : get_volumes blog_pod = Ok _) by (vm_compute; reflexivity).
  split; [exact H|].
  match eval unfold disk_volume in disk_volume with
  | JDict ?d =>
      refine (get_volumes_networked blog_pod _ _ d (JStr "data") (HStr "data")
                H eq_refl _ eq_refl eq_refl eq_refl)
  end.
  right. right. left. reflexivity.
Defined.

(** The network disk of the blog gets the rest of its volume id. *)
Lemma update_volume_path_frame_witness :
  exists self' vols',
    _update_volume_path blog_pod (JStr "data") (JStr "vol-0a1b") = Ok self' /\
    (forall k, k <> "volumes" -> dict_get k self' = dict_get k blog_pod) /\
    dict_get "volumes" self' = Some (JList vols') /\
    Forall2 (fun v v' =>
               volume_id_appended (JStr "data") (JStr "vol-0a1b") v v' /\
               (py_eq (match v with JDict d => py_get d "name" | _ => JNull end)
                      (JStr "data") = false -> v' = v))
            [uploads_volume; old_tools_volume; disk_volume] vols'.
Proof.
  eexists.
  assert (H : _update_volume_path blog_pod (JStr "data") (JStr "vol-0a1b")
              = Ok _) by (vm_compute; reflexivity).
  destruct (update_volume_path_frame _ _ _ _ _ H eq_refl)
    as (_ & Hother & vols' & Hvols & F).
  exists vols'. repeat split; assumption.
Defined.

(** The record of the blog, deleted, and the blog when it is unpaid. *)
Lemma set_status_refuses_witness :
  (exists message,
      set_status sample_env blog_pod (JStr "stopped") true
        (mkWorld [] [mark_deleted blog_row] [])
      = (Raise (APIError message None), mkWorld [] [mark_deleted blog_row] []))
  /\
  (exists message,
      set_status sample_env (setattr blog_pod "status" (JStr "unpaid"))
        (JStr "stopped") false blog_world
      = (Raise (APIError message None), blog_world)).
Proof.
  split.
  - apply (set_status_refuses sample_env blog_pod (JStr "stopped")
             (JStr "77aa") true (mkWorld [] [mark_deleted blog_row] [])
             (mark_deleted blog_row) eq_refl eq_refl).
    left. reflexivity.
  - apply (set_status_refuses sample_env
             (setattr blog_pod "status" (JStr "unpaid")) (JStr "stopped")
             (JStr "77aa") false blog_world blog_row eq_refl eq_refl).
    right. split; reflexivity.
Defined.

(** The blog is stopped. *)
Lemma set_status_stores_witness :
  exists self' w',
    set_status sample_env blog_pod (JStr "stopped") false blog_world
    = (Ok self', w') /\
    getattr self' "status" = Ok (JStr "stopped") /\
    (exists row', find_row (JStr "77aa") (db_pods w') = Some row' /\
                  db_status row' = JStr "stopped" /\
                  db_config row' = db_config blog_row) /\
    requests w' = requests blog_world.
Proof.
  eexists _, _.
  assert (H : set_status sample_env blog_pod (JStr "stopped") false blog_world
              = (Ok _, _)) by (vm_compute; reflexivity).
  split; [exact H|].
  destruct (set_status_stores sample_env blog_pod _ (JStr "stopped")
              (JStr "77aa") false blog_world _ blog_row
              eq_refl eq_refl H) as (H1 & _ & H3 & H4 & _).
  split; [exact H1|]. split; [exact H3 | exact H4].
Defined.


(** A pod of the collection, and a pod that is not in it. *)
Lemma get_by_id_finds_witness :
  (exists pod,
      get_by_id dns_collection (JStr "0d11") dns_world = (Ok pod, dns_world) /\
      In pod (map snd dns_collection) /\
      exists id, getattr pod "id" = Ok id /\ py_eq id (JStr "0d11") = true)
  /\
  get_by_id dns_collection (JStr "none") dns_world
  = (Raise (APIError "No such item" (Some 404)), dns_world).
Proof.
  split.
  - eexists.
    assert (H : get_by_id dns_collection (JStr "0d11") dns_world
                = (Ok _, dns_world)) by (vm_compute; reflexivity).
    split; [exact H|].
    exact (proj2 (get_by_id_finds _ _ _ _ _ H)).
  - reflexivity.
Defined.

(** The namespace of the shop does not exist yet. *)
Lemma make_namespace_creates_missing_witness :
  _make_namespace sample_env (JStr "bob-web-pods") shop_world
  = (Ok tt,
     mkWorld [namespace_lookup (JStr "bob-web-pods");
              namespace_creation sample_env (JStr "bob-web-pods")]
       [shop_row] []).
Proof.
  exact (make_namespace_creates_missing sample_env (JStr "bob-web-pods")
           (JNum 404) shop_world eq_refl).
Defined.

(** The namespaces of bob among those of everybody. *)
Lemma get_namespaces_of_owner_witness :
  exists names w' l,
    _get_namespaces listing_env (PodOwner (JNum 1) (JStr "bob")) shop_world
    = (Ok names, w') /\
    w' = mkWorld [namespaces_request] [shop_row] [] /\
    names = JList l /\
    Forall (fun n => exists s, n = JStr s /\
                               startswith "bob-" s = true /\
                               endswith "-pods" s = true) l.
Proof.
  eexists _, _.
  assert (H : _get_namespaces listing_env (PodOwner (JNum 1) (JStr "bob"))
                shop_world = (Ok _, _)) by (vm_compute; reflexivity).
  destruct (get_namespaces_of_owner listing_env
              (PodOwner (JNum 1) (JStr "bob")) _ "bob" shop_world _
              ltac:(discriminate) eq_refl H) as (Hw & l & Hl & F).
  exists l. split; [exact H|]. split; [exact Hw|]. split; [exact Hl | exact F].
Defined.

(** The controllers whose selector is the name of the pod "web". *)
Lemma get_replicas_selected_witness :
  exists replicas,
    _get_replicas sample_env (JStr "web") shop_world
    = (Ok replicas, mkWorld [replicas_request] [shop_row] []) /\
    Forall (fun r =>
              map fst r = ["id"; "sid"; "replicas"; "replicaSelector"; "name"] /\
              (JStr "web" <> JNull ->
               py_eq (py_get r "replicaSelector") (JStr "web") = true))
           replicas.
Proof.
  eexists.
  assert (H : _get_replicas sample_env (JStr "web") shop_world
              = (Ok _, mkWorld [replicas_request] [shop_row] []))
    by (vm_compute; reflexivity).
  split; [exact H|].
  exact (proj2 (get_replicas_selected sample_env _ _ _ _ H)).
Defined.

